(** * Offshore pipeline dashboard: the filter engine and the dataset store

    A shallow embedding of [streamlit_app.py].  The program is a Streamlit
    script over pandas; the parts of those two libraries that the script
    relies on are modelled here as follows.

    - A [DataFrame] is a header (column names with their pandas dtype) and a
      list of rows; boolean-mask indexing [df[mask]] keeps the rows whose
      mask entry is true, in order and with all their columns.
    - Three dtypes are distinguished: [object], [numeric] (int64, float64,
      bool: everything [is_numeric_dtype] accepts) and [datetime64].  These
      are the dtypes [read_csv], [read_excel], [DataFrame([dict])] and
      [concat] produce with pandas 1.x/2.x defaults, where text is held in
      object columns.
    - A number is the rational it denotes ([Q]): the integer of an int64
      cell, the value of a finite float64 cell.  [float] is the conversion
      to a double, Python's [float()] on an integer and NumPy's cast of
      int64 to float64; it rounds integers beyond 2^53.  A missing value
      (NaN, NaT, None) is the cell [NaN].
    - A string is the UTF-8 encoding of the Python string.
    - [st.session_state] is a finite map from keys to values.  A keyed
      widget returns the value stored under its key when there is one and
      its default otherwise, and leaves its value under the key.  Streamlit
      aborts a run in which two widgets share a key, or in which a stored
      value is not among a widget's options or lies outside its bounds, and
      [df[column].dtype] raises when two columns share a name.  The model
      is of the runs that get through: [well_keyed] and [admissible_state]
      say which these are, and the statements that a run returns something
      assume them. *)

From Stdlib Require Import QArith Qround Ascii String.
From stdpp Require Import gmap strings list fin_maps pretty.

Close Scope Q_scope.
Open Scope string_scope.

(** ** Strings *)

Module Py.

(** [str.lower] on the ASCII range.  No other code point lowercases to one
    of the letters d, a, t, e, so this is exact for the test
    ['date' in column.lower()]. *)
Definition lower_ascii (a : ascii) : ascii :=
  let n := nat_of_ascii a in
  if (65 <=? n)%nat && (n <=? 90)%nat then ascii_of_nat (n + 32) else a.

Fixpoint lower (s : string) : string :=
  match s with
  | EmptyString => EmptyString
  | String a s' => String (lower_ascii a) (lower s')
  end.

(** [sub in s] *)
Fixpoint contains (sub s : string) : bool :=
  String.prefix sub s ||
  match s with
  | EmptyString => false
  | String _ s' => contains sub s'
  end.

(** [s.replace(a, b)] for one-character [a] and [b] *)
Fixpoint replace (a b : ascii) (s : string) : string :=
  match s with
  | EmptyString => EmptyString
  | String c s' => String (if Ascii.eqb c a then b else c) (replace a b s')
  end.

(** The characters for which [str.isspace] holds, by the bytes of their
    encoding.  In one byte: U+0009..U+000D and U+001C..U+0020. *)
Definition isspace (a : ascii) : bool :=
  let n := nat_of_ascii a in
  ((9 <=? n)%nat && (n <=? 13)%nat) || ((28 <=? n)%nat && (n <=? 32)%nat).

(** In two bytes: U+0085 and U+00A0. *)
Definition isspace2 (a b : ascii) : bool :=
  let '(a, b) := (nat_of_ascii a, nat_of_ascii b) in
  (a =? 194)%nat && ((b =? 133)%nat || (b =? 160)%nat).

(** In three bytes: U+1680, U+2000..U+200A, U+2028, U+2029, U+202F, U+205F
    and U+3000. *)
Definition isspace3 (a b c : ascii) : bool :=
  let '(a, b, c) := (nat_of_ascii a, nat_of_ascii b, nat_of_ascii c) in
  ((a =? 225)%nat && (b =? 154)%nat && (c =? 128)%nat)
  || ((a =? 226)%nat && (b =? 128)%nat
      && (((128 <=? c)%nat && (c <=? 138)%nat)
          || (c =? 168)%nat || (c =? 169)%nat || (c =? 175)%nat))
  || ((a =? 226)%nat && (b =? 129)%nat && (c =? 159)%nat)
  || ((a =? 227)%nat && (b =? 128)%nat && (c =? 128)%nat).

Definition bytes (l : list nat) : string :=
  fold_right (fun n s => String (ascii_of_nat n) s) EmptyString l.

(** The same characters, each as its encoding. *)
Definition whitespace : list string :=
  map bytes
    [ [9]; [10]; [11]; [12]; [13]; [28]; [29]; [30]; [31]; [32];
      [194; 133]; [194; 160];
      [225; 154; 128];
      [226; 128; 128]; [226; 128; 129]; [226; 128; 130]; [226; 128; 131];
      [226; 128; 132]; [226; 128; 133]; [226; 128; 134]; [226; 128; 135];
      [226; 128; 136]; [226; 128; 137]; [226; 128; 138];
      [226; 128; 168]; [226; 128; 169]; [226; 128; 175];
      [226; 129; 159];
      [227; 128; 128] ]%nat.

Fixpoint lstrip (s : string) : string :=
  match s with
  | EmptyString => EmptyString
  | String a s1 =>
      if isspace a then lstrip s1
      else
        match s1 with
        | EmptyString => s
        | String b s2 =>
            if isspace2 a b then lstrip s2
            else
              match s2 with
              | EmptyString => s
              | String c s3 => if isspace3 a b c then lstrip s3 else s
              end
        end
  end.

(** Nothing but white space is left of a string that [lstrip] empties. *)
Fixpoint rstrip (s : string) : string :=
  match s with
  | EmptyString => EmptyString
  | String a s' =>
      match lstrip s with
      | EmptyString => EmptyString
      | _ => String a (rstrip s')
      end
  end.

Definition strip (s : string) : string := rstrip (lstrip s).

End Py.

(** ** Cells, columns and frames *)

Inductive cell : Type :=
  | NaN                    (* a missing value: NaN, NaT or None *)
  | Str (s : string)
  | Num (q : Q)
  | Ts (t : Z)             (* a Timestamp, in seconds since the epoch *)
  | DateObj (d : Z).       (* a datetime.date, in days since the epoch *)

Inductive dtype : Type := object | numeric | datetime64.

Definition dtype_eqb (a b : dtype) : bool :=
  match a, b with
  | object, object | numeric, numeric | datetime64, datetime64 => true
  | _, _ => false
  end.

Record DataFrame : Type := {
  columns : list (string * dtype);
  rows : list (list cell)
}.

(** [==] on scalars; [isin] also matches a missing value against a missing
    value. *)
Definition cell_eqb (a b : cell) : bool :=
  match a, b with
  | NaN, NaN => true
  | Str s, Str t => String.eqb s t
  | Num p, Num q => Qeq_bool p q
  | Ts s, Ts t => Z.eqb s t
  | DateObj d, DateObj e => Z.eqb d e
  | _, _ => false
  end.

Definition isna (c : cell) : bool :=
  match c with NaN => true | _ => false end.

Definition notna (c : cell) : bool := negb (isna c).

(** Position of the first column called [c]. *)
Fixpoint col_index (cols : list (string * dtype)) (c : string) : option nat :=
  match cols with
  | [] => None
  | (n, _) :: cols' =>
      if String.eqb n c then Some 0%nat else S <$> col_index cols' c
  end.

(** The dtype of the column called [c], of the first one when several are
    (where [df[c].dtype] raises in the code; see [well_keyed]). *)
Fixpoint col_dtype (cols : list (string * dtype)) (c : string) : option dtype :=
  match cols with
  | [] => None
  | (n, d) :: cols' => if String.eqb n c then Some d else col_dtype cols' c
  end.

(** The value of row [r] in column [c] of a frame with header [cols]. *)
Definition row_get (cols : list (string * dtype)) (c : string) (r : list cell) : cell :=
  match col_index cols c with
  | Some i => default NaN (r !! i)
  | None => NaN
  end.

(** [df[c]] as the list of its values *)
Definition series (df : DataFrame) (c : string) : list cell :=
  map (row_get (columns df) c) (rows df).

(** [df[mask]] with the mask given row by row *)
Definition mask_rows (df : DataFrame) (mask : list cell -> bool) : DataFrame :=
  {| columns := columns df; rows := List.filter mask (rows df) |}.

(** [DataFrame.empty]: some axis has length zero *)
Definition empty (df : DataFrame) : bool :=
  match columns df, rows df with
  | [], _ | _, [] => true
  | _, _ => false
  end.

Definition dropna (s : list cell) : list cell := List.filter notna s.

(** [Series.unique]: the distinct values in order of first appearance *)
Fixpoint unique (s : list cell) : list cell :=
  match s with
  | [] => []
  | x :: s' => x :: List.filter (fun y => negb (cell_eqb x y)) (unique s')
  end.

(** [Series.isin(values)] on one cell *)
Definition isin (values : list cell) (c : cell) : bool :=
  existsb (cell_eqb c) values.

(** The numbers of a series, missing values skipped. *)
Fixpoint numbers (s : list cell) : list Q :=
  match s with
  | [] => []
  | Num q :: s' => q :: numbers s'
  | _ :: s' => numbers s'
  end.

Definition Qminb (a b : Q) : Q := if Qle_bool a b then a else b.
Definition Qmaxb (a b : Q) : Q := if Qle_bool a b then b else a.

(** *** Conversion to float

    The finite doubles are the numbers [m * 2^e * 2^-1074] with [m < 2^53]
    and [0 <= e] (up to the largest one, which neither an int64 value nor a
    finite float reaches).  The conversion rounds to the nearest of them,
    to the one with the even [m] in a tie: it leaves a double as it is and
    changes an integer only beyond 2^53. *)
Definition round_half_even (x : Q) : Z :=
  let n := Qfloor x in
  match (x - inject_Z n ?= 1 # 2)%Q with
  | Lt => n
  | Eq => if Z.even n then n else (n + 1)%Z
  | Gt => (n + 1)%Z
  end.

(** The double nearest to [scaled * 2^-1074], in units of [2^-1074]. *)
Definition float_units (scaled : Q) : Z :=
  let e := Z.max 0 (Z.log2 (Qfloor scaled) - 52) in
  (round_half_even (scaled / inject_Z (2 ^ e)) * 2 ^ e)%Z.

Definition float_abs (x : Q) : Q :=
  Qred (inject_Z (float_units (x * inject_Z (2 ^ 1074))) / inject_Z (2 ^ 1074)).

(** [float(x)] *)
Definition float (x : Q) : Q :=
  if Qle_bool 0 x then float_abs x else (- float_abs (- x))%Q.

(** [float(Series.min())] and [float(Series.max())] of a numeric series
    ([skipna]) *)
Definition series_min (s : list cell) : option Q :=
  match numbers s with
  | [] => None
  | q :: qs => Some (float (foldl Qminb q qs))
  end.

Definition series_max (s : list cell) : option Q :=
  match numbers s with
  | [] => None
  | q :: qs => Some (float (foldl Qmaxb q qs))
  end.

(** [series >= lo] and [series <= hi] on one cell, for a float [lo] or
    [hi]: the column is compared as float64, and a comparison with a missing
    value is false. *)
Definition ge_num (lo : Q) (c : cell) : bool :=
  match c with Num q => Qle_bool lo (float q) | _ => false end.

Definition le_num (hi : Q) (c : cell) : bool :=
  match c with Num q => Qle_bool (float q) hi | _ => false end.

(** [Timestamp.date()] *)
Definition date_of_ts (t : Z) : Z := (t / 86400)%Z.

Fixpoint timestamps (s : list cell) : list Z :=
  match s with
  | [] => []
  | Ts t :: s' => t :: timestamps s'
  | _ :: s' => timestamps s'
  end.

Definition ts_min (s : list cell) : option Z :=
  match timestamps s with
  | [] => None
  | t :: ts => Some (foldl Z.min t ts)
  end.

Definition ts_max (s : list cell) : option Z :=
  match timestamps s with
  | [] => None
  | t :: ts => Some (foldl Z.max t ts)
  end.

(** [pd.to_datetime(series).dt.date >= start] and [<= end] on one cell *)
Definition ge_date (start : Z) (c : cell) : bool :=
  match c with Ts t => (start <=? date_of_ts t)%Z | _ => false end.

Definition le_date (stop : Z) (c : cell) : bool :=
  match c with Ts t => (date_of_ts t <=? stop)%Z | _ => false end.

(** ** The Python and pandas routines that are taken as given

    [repr] is Python's [str] on a number, a Timestamp or a date (on a string
    it is the identity, see [py_str]); [infer] is the type inference
    [read_csv] runs on the records below the header: it returns the dtype of
    every column and the typed rows. *)
Record Lib : Type := {
  repr : cell -> string;
  infer : list string -> list (list string) -> list dtype * list (list cell)
}.

Definition py_str (L : Lib) (c : cell) : string :=
  match c with
  | Str s => s
  | _ => repr L c
  end.

(** ** Session state and widgets *)

Inductive wvalue : Type :=
  | WList (l : list cell)          (* a multiselect's chosen values *)
  | WRange (lo hi : Q)             (* a range slider's pair *)
  | WDates (ds : list Z)           (* a date_input's tuple *)
  | WBool (b : bool)               (* a checkbox *)
  | WStr (s : string)              (* a radio's option *)
  | WFrame (df : DataFrame).       (* the table kept under 'pipeline_data' *)

Abbreviation session_state := (gmap string wvalue).

Definition as_list (v : wvalue) : option (list cell) :=
  match v with WList l => Some l | _ => None end.
Definition as_range (v : wvalue) : option (Q * Q) :=
  match v with WRange lo hi => Some (lo, hi) | _ => None end.
Definition as_dates (v : wvalue) : option (list Z) :=
  match v with WDates ds => Some ds | _ => None end.
Definition as_bool (v : wvalue) : option bool :=
  match v with WBool b => Some b | _ => None end.
Definition as_str (v : wvalue) : option string :=
  match v with WStr s => Some s | _ => None end.
Definition as_frame (v : wvalue) : option DataFrame :=
  match v with WFrame df => Some df | _ => None end.

(** A keyed widget: the stored value when there is one, the default (which
    is then stored) otherwise.  (Streamlit raises when the stored value is
    not among the options or outside the bounds; see [admissible].) *)
Definition widget {A : Type} (proj : wvalue -> option A) (inj : A -> wvalue)
    (key : string) (default : A) (ss : session_state) : A * session_state :=
  match ss !! key ≫= proj with
  | Some v => (v, ss)
  | None => (default, <[key := inj default]> ss)
  end.

Definition radio := widget as_str WStr.
Definition multiselect := widget as_list WList.
Definition checkbox := widget as_bool WBool.
Definition slider := widget as_range (fun p => WRange (fst p) (snd p)).
Definition date_input := widget as_dates WDates.

(** [st.session_state.get(key, [])] *)
Definition get_list (ss : session_state) (key : string) : list cell :=
  default [] (ss !! key ≫= as_list).

(** ** The filter engine: [create_filter_sidebar] *)

Definition is_numeric_dtype (d : dtype) : bool := dtype_eqb d numeric.

(** The branch of the loop body a column takes. *)
Inductive ColumnKind : Type := Categorical | Numeric | Temporal | NoControl.

Definition classify (d : dtype) (column : string) : ColumnKind :=
  if dtype_eqb d object then Categorical
  else if is_numeric_dtype d then Numeric
  else if Py.contains "date" (Py.lower column) then Temporal
  else NoControl.

(** The "Select All" button: every column that is among the object-dtype
    columns gets all its distinct present values; then the script reruns. *)
Definition select_all (df : DataFrame) (ss : session_state) : session_state :=
  foldl (fun ss col =>
           if existsb (fun nd => String.eqb (fst nd) col && dtype_eqb (snd nd) object)
                (columns df)
           then <["filter_" ++ col := WList (unique (dropna (series df col)))]> ss
           else ss)
        ss (map fst (columns df)).

(** The "Clear All" button: the categorical entry of every column is
    deleted; then the script reruns. *)
Definition clear_all (df : DataFrame) (ss : session_state) : session_state :=
  foldl (fun ss col => delete ("filter_" ++ col) ss) ss (map fst (columns df)).

(** The checkbox style: one checkbox per distinct value, ticked by default
    when the value's text is among the stored selection. *)
Definition checkboxes (L : Lib) (column : string) (unique_values : list cell)
    (ss : session_state) : list cell * session_state :=
  foldl (fun acc value =>
           let '(selected_values, ss) := acc in
           let '(ticked, ss') :=
             checkbox ("checkbox_" ++ column ++ "_" ++ py_str L value)
               (isin (get_list ss ("filter_" ++ column)) (Str (py_str L value))) ss in
           (if ticked then (selected_values ++ [value])%list else selected_values, ss'))
        ([], ss) unique_values.

Definition categorical_filter (L : Lib) (filter_style : string) (df : DataFrame)
    (column : string) (acc : DataFrame * session_state) : DataFrame * session_state :=
  let '(filtered_df, ss) := acc in
  let unique_values := unique (dropna (series df column)) in
  if (0 <? length unique_values)%nat then
    let '(selected_values, ss') :=
      if String.eqb filter_style "Multiselect" then
        multiselect ("filter_" ++ column) (get_list ss ("filter_" ++ column)) ss
      else
        let '(selected_values, ss') := checkboxes L column unique_values ss in
        (selected_values, <["filter_" ++ column := WList selected_values]> ss') in
    match selected_values with
    | [] => (filtered_df, ss')
    | _ :: _ =>
        (mask_rows filtered_df
           (fun r => isin selected_values (row_get (columns filtered_df) column r)),
         ss')
    end
  else acc.

(** The numeric branch: [min_val] and [max_val] are floats, the slider
    holds a pair of floats, and the column is compared with them as
    float64. *)
Definition numeric_filter (df : DataFrame) (column : string)
    (acc : DataFrame * session_state) : DataFrame * session_state :=
  let '(filtered_df, ss) := acc in
  if negb (forallb isna (series df column)) then
    match series_min (series df column), series_max (series df column) with
    | Some min_val, Some max_val =>
        if negb (Qeq_bool min_val max_val) then
          let '(selected_range, ss') :=
            slider ("slider_" ++ column) (min_val, max_val) ss in
          (mask_rows filtered_df
             (fun r => ge_num (fst selected_range) (row_get (columns filtered_df) column r)
                       && le_num (snd selected_range) (row_get (columns filtered_df) column r)),
           ss')
        else acc
    | _, _ => acc
    end
  else acc.

(** The date branch.  Only a datetime64 column reaches it, on which the
    in-place [pd.to_datetime(df[column], errors='coerce')] changes nothing
    and no conversion raises, so the [try] has no failing path here. *)
Definition date_filter (df : DataFrame) (column : string)
    (acc : DataFrame * session_state) : DataFrame * session_state :=
  let '(filtered_df, ss) := acc in
  let valid_dates := dropna (series df column) in
  if (0 <? length valid_dates)%nat then
    match ts_min valid_dates, ts_max valid_dates with
    | Some lo, Some hi =>
        let min_date := date_of_ts lo in
        let max_date := date_of_ts hi in
        let '(selected_date_range, ss') :=
          date_input ("date_" ++ column) [min_date; max_date] ss in
        match selected_date_range with
        | [start_date; end_date] =>
            (mask_rows filtered_df
               (fun r => ge_date start_date (row_get (columns filtered_df) column r)
                         && le_date end_date (row_get (columns filtered_df) column r)),
             ss')
        | _ => (filtered_df, ss')
        end
    | _, _ => acc
    end
  else acc.

(** One pass of the loop [for column in df.columns]. *)
Definition filter_column (L : Lib) (filter_style : string) (df : DataFrame)
    (acc : DataFrame * session_state) (column : string) : DataFrame * session_state :=
  match col_dtype (columns df) column with
  | None => acc
  | Some d =>
      match classify d column with
      | Categorical => categorical_filter L filter_style df column acc
      | Numeric => numeric_filter df column acc
      | Temporal => date_filter df column acc
      | NoControl => acc
      end
  end.

(** A run of [create_filter_sidebar] in which no button is pressed: the
    filtered frame and the session state the run leaves. *)
Definition create_filter_sidebar (L : Lib) (df : DataFrame) (ss : session_state)
    : DataFrame * session_state :=
  let '(filter_style, ss) := radio "filter_style" "Multiselect" ss in
  foldl (filter_column L filter_style df) (df, ss) (map fst (columns df)).

(** ** The backing files *)

(** A file under [data/]: either text that [read_csv] rejects, or a header
    line and the records below it, field by field (quoting undone). *)
Inductive file : Type :=
  | Malformed
  | Csv (header : list string) (records : list (list string)).

(** [DataFrame.to_csv(index=False)]: a missing value is written as the
    empty field. *)
Definition to_field (L : Lib) (c : cell) : string :=
  match c with
  | NaN => ""
  | _ => py_str L c
  end.

Definition to_csv (L : Lib) (df : DataFrame) : file :=
  Csv (map fst (columns df)) (map (map (to_field L)) (rows df)).

(** [read_csv] names an empty header field after its position ... *)
Definition unnamed (header : list string) : list string :=
  imap (fun i n => if String.eqb n "" then "Unnamed: " ++ pretty i else n) header.

(** ... and renames a repeated name [x] to [x.1], [x.2], ..., skipping a
    name that is in the header already.  This is the inner [while] of the
    parser's loop, entered with [0 < cur_count]; each round but the last
    meets another name of the header, so [S (length this_columns)] rounds
    are enough. *)
Fixpoint dedup_name (fuel : nat) (this_columns : list string) (counts : gmap string nat)
    (old_col : string) (cur_count : nat) : string * gmap string nat :=
  let counts := <[old_col := S cur_count]> counts in
  let col := old_col ++ "." ++ pretty cur_count in
  let cur_count :=
    if bool_decide (col ∈ this_columns) then S cur_count
    else default 0%nat (counts !! col) in
  match fuel, cur_count with
  | S fuel', S _ => dedup_name fuel' this_columns counts old_col cur_count
  | _, _ => (col, counts)
  end.

(** The body of the loop for the name at position [i]. *)
Definition dedup_at (acc : list string * gmap string nat) (i : nat)
    : list string * gmap string nat :=
  let '(this_columns, counts) := acc in
  match this_columns !! i with
  | None => acc
  | Some old_col =>
      let cur_count := default 0%nat (counts !! old_col) in
      let '(col, counts) :=
        if (0 <? cur_count)%nat
        then dedup_name (S (length this_columns)) this_columns counts old_col cur_count
        else (old_col, counts) in
      (<[i := col]> this_columns, <[col := 1%nat]> counts)
  end.

(** The names of the columns for a header: the given names are passed
    first, then the positions without a name. *)
Definition dedup_names (header : list string) : list string :=
  let positions := seq 0 (length header) in
  let is_unnamed i := bool_decide (header !! i = Some "") in
  let col_loop_order :=
    (List.filter (fun i => negb (is_unnamed i)) positions
     ++ List.filter is_unnamed positions)%list in
  fst (foldl dedup_at (unnamed header, ∅) col_loop_order).

(** [pd.read_csv(path)]; [None] when it raises (unparsable text, or no
    columns to parse).  A file with a header only gives object columns. *)
Definition read_csv (L : Lib) (f : file) : option DataFrame :=
  match f with
  | Malformed => None
  | Csv [] _ => None
  | Csv header [] =>
      Some {| columns := map (fun n => (n, object)) (dedup_names header);
              rows := [] |}
  | Csv header records =>
      let '(dtypes, typed) := infer L header records in
      Some {| columns := zip (dedup_names header) dtypes; rows := typed |}
  end.

(** ** The dataset store *)

Inductive message : Type :=
  | error (text : string)
  | success (text : string).

Record World : Type := {
  session : session_state;       (* st.session_state *)
  files : gmap string file;      (* the files that exist *)
  writable : bool;               (* can data/ be created and written? *)
  shown : list message           (* what st.error and st.success displayed *)
}.

Definition show (m : message) (w : World) : World :=
  {| session := session w; files := files w; writable := writable w;
     shown := shown w ++ [m] |}.

Definition set_pipeline_data (df : DataFrame) (w : World) : World :=
  {| session := <["pipeline_data" := WFrame df]> (session w); files := files w;
     writable := writable w; shown := shown w |}.

Definition write_file (path : string) (f : file) (w : World) : World :=
  {| session := session w; files := <[path := f]> (files w);
     writable := writable w; shown := shown w |}.

(** [st.session_state.pipeline_data], when the key is there *)
Definition pipeline_data (w : World) : option DataFrame :=
  session w !! "pipeline_data" ≫= as_frame.

(** [[col.replace('\n', ' ').strip() for col in df.columns]] *)
Definition clean_name (col : string) : string :=
  Py.strip (Py.replace "010"%char " "%char col).

Definition clean_columns (df : DataFrame) : DataFrame :=
  {| columns := map (fun nd => (clean_name (fst nd), snd nd)) (columns df);
     rows := rows df |}.

Definition default_columns : list string :=
  [ "Country"; "Project"; "Vessel"; "Pipe Type"; "Line Type";
    "Pipe OD"; "Pipe Wall Thickness"; "Coating Thickness";
    "Steel Density"; "Coating Density"; "Clad Thickness";
    "Vessel Name"; "Water Depth"; "Estimated Optimal JLT Angle"; "JLT Angle";
    "Installation Date" ].

(** [pd.DataFrame(columns=columns)] and [pd.DataFrame()] *)
Definition frame_of_columns (names : list string) : DataFrame :=
  {| columns := map (fun n => (n, object)) names; rows := [] |}.

Definition no_frame : DataFrame := {| columns := []; rows := [] |}.

Definition load_from_files (L : Lib) (w : World) : DataFrame * World :=
  match files w !! "data/pipeline_data.csv" with
  | Some f =>
      match read_csv L f with
      | Some df => (df, set_pipeline_data df w)
      | None => (no_frame, show (error "Error loading data") w)
      end
  | None =>
      match files w !! "data/sample_pipeline_data.csv" with
      | Some f =>
          match read_csv L f with
          | Some df => (clean_columns df, set_pipeline_data (clean_columns df) w)
          | None => (no_frame, show (error "Error loading data") w)
          end
      | None =>
          (frame_of_columns default_columns,
           set_pipeline_data (frame_of_columns default_columns) w)
      end
  end.

Definition load_pipeline_data (L : Lib) (w : World) : DataFrame * World :=
  match pipeline_data w with
  | Some df => if negb (empty df) then (df, w) else load_from_files L w
  | None => load_from_files L w
  end.

(** [save_pipeline_data]: when the directory or the file cannot be written
    the [try] is left before the session is touched.  A write either
    happens or fails as a whole: a failure leaves the files as they were. *)
Definition save_pipeline_data (L : Lib) (df : DataFrame) (w : World) : bool * World :=
  if writable w then
    (true, set_pipeline_data df (write_file "data/pipeline_data.csv" (to_csv L df) w))
  else
    (false, show (error "Error saving data") w).

(** [pd.DataFrame([new_data])]: one row, the dict's keys as columns *)
Definition dtype_of_value (c : cell) : dtype :=
  match c with
  | Num _ | NaN => numeric
  | Ts _ => datetime64
  | Str _ | DateObj _ => object
  end.

Definition frame_of_record (new_data : list (string * cell)) : DataFrame :=
  {| columns := map (fun kv => (fst kv, dtype_of_value (snd kv))) new_data;
     rows := [map snd new_data] |}.

(** The numbers of a column that becomes float64 are converted. *)
Definition upcast (d : dtype) (c : cell) : cell :=
  match d, c with
  | numeric, Num q => Num (float q)
  | _, _ => c
  end.

(** [pd.concat([a, b], ignore_index=True)]: the columns of [a], then those
    only [b] has; a value a part does not have is missing.  A part without
    rows does not count for the dtype of a column of both parts; otherwise
    the column keeps its dtype when the parts agree and is [object] when
    they differ.  The numbers of [b] are floats, as the form's are: when
    both parts have rows, a column that is numeric in the result has met
    floats or got a missing value, so it is float64 and its numbers are
    converted.  ([pd.concat] raises when [a] has a repeated column name.) *)
Definition concat (a b : DataFrame) : DataFrame :=
  let extra :=
    List.filter (fun nd => negb (bool_decide (is_Some (col_dtype (columns a) (fst nd)))))
      (columns b) in
  let cols :=
    (map (fun nd =>
            (fst nd,
             match col_dtype (columns b) (fst nd), rows a, rows b with
             | Some d, [], _ => d
             | Some d, _ :: _, _ :: _ => if dtype_eqb (snd nd) d then d else object
             | _, _, _ => snd nd
             end)) (columns a) ++ extra)%list in
  let joined (d : dtype) (c : cell) : cell :=
    match rows a, rows b with
    | _ :: _, _ :: _ => upcast d c
    | _, _ => c
    end in
  let reindex (part : DataFrame) (r : list cell) : list cell :=
    map (fun nd => joined (snd nd) (row_get (columns part) (fst nd) r)) cols in
  {| columns := cols;
     rows := (map (reindex a) (rows a) ++ map (reindex b) (rows b))%list |}.

Definition add_new_pipeline_row (L : Lib) (new_data : list (string * cell)) (w : World)
    : World :=
  let '(df, w) := load_pipeline_data L w in
  let new_row := frame_of_record new_data in
  let df := concat df new_row in
  let '(saved, w) := save_pipeline_data L df w in
  if saved then show (success "New record added successfully!") w
  else show (error "Failed to save new record.") w.

(** The upload branch of [main]: [parsed] is what [read_csv] or [read_excel]
    made of the uploaded file, [None] when it raised. *)
Definition upload (L : Lib) (parsed : option DataFrame) (w : World) : World :=
  match parsed with
  | None => show (error "Error processing file") w
  | Some new_df =>
      let new_df := clean_columns new_df in
      let '(saved, w) := save_pipeline_data L new_df w in
      if saved then show (success "Data uploaded successfully!") w
      else show (error "Failed to save uploaded data.") w
  end.

(** ** Manual row entry *)

Record AddRowForm : Type := {
  country : string;
  project : string;
  vessel : string;
  pipe_type : string;
  line_type : string;
  pipe_od : Q;
  pipe_wall : Q;
  coating_thickness : Q;
  steel_density : Q;
  coating_density : Q;
  clad_thickness : Q;
  vessel_name : string;
  water_depth : Q;
  estimated_angle : Q;
  jlt_angle : Q;
  installation_date : Z
}.

(** [x if x > 0 else ''] and [x if x != 0 else ''] *)
Definition if_positive (x : Q) : cell :=
  if negb (Qle_bool x 0) then Num x else Str "".

Definition if_nonzero (x : Q) : cell :=
  if negb (Qeq_bool x 0) then Num x else Str "".

Definition new_data (f : AddRowForm) : list (string * cell) :=
  [ ("Country", Str (country f));
    ("Project", Str (project f));
    ("Vessel", Str (vessel f));
    ("Pipe Type", Str (pipe_type f));
    ("Line Type", Str (line_type f));
    ("Pipe OD", if_positive (pipe_od f));
    ("Pipe Wall Thickness", if_positive (pipe_wall f));
    ("Coating Thickness", if_positive (coating_thickness f));
    ("Steel Density", if_positive (steel_density f));
    ("Coating Density", if_positive (coating_density f));
    ("Clad Thickness", if_positive (clad_thickness f));
    ("Vessel Name", Str (vessel_name f));
    ("Water Depth", if_positive (water_depth f));
    ("Estimated Optimal JLT Angle", if_nonzero (estimated_angle f));
    ("JLT Angle", if_nonzero (jlt_angle f));
    ("Installation Date", DateObj (installation_date f)) ].

(** A string is true in a condition when it is not empty. *)
Definition truthy (s : string) : bool := negb (String.eqb s "").

(** The "Add Row" submit button of [main]. *)
Definition submit_add_row (L : Lib) (f : AddRowForm) (w : World) : World :=
  if truthy (country f) && truthy (project f) then
    add_new_pipeline_row L (new_data f) w
  else
    show (error "Country and Project are required fields.") w.

(** What a value is in the table a row was added to: itself, or for a
    number its float. *)
Definition kept_as (v v' : cell) : Prop :=
  v' = v ∨ ∃ q, v = Num q ∧ v' = Num (float q).

(** The value a record holds under a key. *)
Fixpoint record_get (d : list (string * cell)) (key : string) : option cell :=
  match d with
  | [] => None
  | (k, v) :: d' => if String.eqb k key then Some v else record_get d' key
  end.

(** ** Controls and the selections they hold *)

(** [b] has the header of [a] and a subsequence of its rows. *)
Definition narrows (a b : DataFrame) : Prop :=
  columns b = columns a ∧ rows b `sublist_of` rows a.

(** The session key of the control the loop renders for a column, when it
    renders one: a multiselect (or checkboxes) for an object column with a
    present value, a slider for a numeric column whose minimum and maximum
    differ as floats, a date range for a date-named datetime column with a
    date. *)
Definition control_key (df : DataFrame) (column : string) : option string :=
  match col_dtype (columns df) column with
  | None => None
  | Some d =>
      match classify d column with
      | Categorical =>
          if (0 <? length (unique (dropna (series df column))))%nat
          then Some ("filter_" ++ column) else None
      | Numeric =>
          if negb (forallb isna (series df column)) then
            match series_min (series df column), series_max (series df column) with
            | Some min_val, Some max_val =>
                if negb (Qeq_bool min_val max_val)
                then Some ("slider_" ++ column) else None
            | _, _ => None
            end
          else None
      | Temporal =>
          if (0 <? length (dropna (series df column)))%nat then
            match ts_min (dropna (series df column)), ts_max (dropna (series df column)) with
            | Some _, Some _ => Some ("date_" ++ column)
            | _, _ => None
            end
          else None
      | NoControl => None
      end
  end.

(** A value lies inside a selection; a number does as the float the
    comparison makes of it.  The empty list of chosen values and a date
    tuple that is not a pair restrict nothing. *)
Definition in_selection (v : cell) (sel : wvalue) : Prop :=
  match sel with
  | WList [] => True
  | WList values => isin values v = true
  | WRange lo hi => ∃ q, v = Num q ∧ (lo <= float q)%Q ∧ (float q <= hi)%Q
  | WDates [start_date; end_date] =>
      ∃ t, v = Ts t ∧ (start_date ≤ date_of_ts t)%Z ∧ (date_of_ts t ≤ end_date)%Z
  | _ => True
  end.

(** A stored value has the shape the control of a column of this kind
    reads. *)
Definition kind_matches (k : ColumnKind) (sel : wvalue) : bool :=
  match k, sel with
  | Categorical, WList _ | Numeric, WRange _ _ | Temporal, WDates _ => true
  | _, _ => false
  end.

(** The invariant of the loop: the columns passed so far have their
    selection in the state, and every row still there lies inside it. *)
Definition respected (df : DataFrame) (passed : list string)
    (acc : DataFrame * session_state) : Prop :=
  columns acc.1 = columns df
  ∧ ∀ column key, column ∈ passed → control_key df column = Some key →
      ∃ sel, acc.2 !! key = Some sel
             ∧ ∀ r, r ∈ rows acc.1 → in_selection (row_get (columns df) column r) sel.

(** A cell is a present value of a column of the dtype (only range
    controls, for [numeric] and [datetime64], look at the value). *)
Definition present_for (d : dtype) (c : cell) : bool :=
  match d, c with
  | object, _ => true
  | numeric, Num _ => true
  | datetime64, Ts _ => true
  | _, _ => false
  end.

(** No column for which a slider or a date range is rendered has a missing
    value. *)
Definition range_complete (df : DataFrame) : bool :=
  forallb (fun column =>
             match control_key df column, col_dtype (columns df) column with
             | Some _, Some d =>
                 forallb (fun r => present_for d (row_get (columns df) column r)) (rows df)
             | _, _ => true
             end)
          (map fst (columns df)).

(** The numbers of a column are doubles: the conversion to float leaves
    them as they are.  So are the numbers of a float64 column, and the
    integers up to 2^53 in magnitude. *)
Definition exact_numbers (df : DataFrame) (column : string) : bool :=
  forallb (fun v => match v with Num q => Qeq_bool (float q) q | _ => true end)
    (series df column).

(** Every column has the object dtype. *)
Definition purely_categorical (df : DataFrame) : bool :=
  forallb (fun nd => dtype_eqb (snd nd) object) (columns df).

(** No row has a missing value in any column. *)
Definition no_missing (df : DataFrame) : bool :=
  forallb (fun r =>
             forallb (fun column => notna (row_get (columns df) column r))
               (map fst (columns df)))
          (rows df).

(** The style radio stands at "Multiselect": it was not touched, or it was
    set to that option. *)
Definition multiselect_style (ss : session_state) : Prop :=
  ss !! "filter_style" = None ∨ ss !! "filter_style" = Some (WStr "Multiselect").

(** Every column has a name of its own, and no multiselect gets the key of
    the style radio: no object column is called "style". *)
Definition well_keyed (df : DataFrame) : bool :=
  bool_decide (NoDup (map fst (columns df)))
  && match col_dtype (columns df) "style" with
     | Some object => false
     | _ => true
     end.

(** A stored value is one the control of the column takes: chosen values
    that are among the options, a pair within the bounds, at most two dates
    within the bounds. *)
Definition admissible (df : DataFrame) (column : string) (sel : wvalue) : bool :=
  match sel with
  | WList values => forallb (isin (unique (dropna (series df column)))) values
  | WRange lo hi =>
      match series_min (series df column), series_max (series df column) with
      | Some min_val, Some max_val =>
          Qle_bool min_val lo && Qle_bool lo hi && Qle_bool hi max_val
      | _, _ => false
      end
  | WDates ds =>
      match ts_min (dropna (series df column)), ts_max (dropna (series df column)) with
      | Some lo, Some hi =>
          (length ds <=? 2)%nat
          && forallb (fun d => (date_of_ts lo <=? d)%Z && (d <=? date_of_ts hi)%Z) ds
      | _, _ => false
      end
  | _ => false
  end.

(** Whatever the state holds under the key of a rendered control is of the
    control's kind and admissible. *)
Definition admissible_state (df : DataFrame) (ss : session_state) : bool :=
  forallb (fun column =>
             match control_key df column, col_dtype (columns df) column with
             | Some key, Some d =>
                 match ss !! key with
                 | Some sel =>
                     kind_matches (classify d column) sel && admissible df column sel
                 | None => true
                 end
             | _, _ => true
             end)
          (map fst (columns df)).

(** Whatever the state holds under the key of a rendered slider or date
    range is that control's full range, its default. *)
Definition full_ranges (df : DataFrame) (ss : session_state) : bool :=
  forallb (fun column =>
             match control_key df column, col_dtype (columns df) column with
             | Some key, Some d =>
                 match classify d column, ss !! key with
                 | Categorical, _ | _, None => true
                 | Numeric, Some (WRange lo hi) =>
                     match series_min (series df column), series_max (series df column) with
                     | Some min_val, Some max_val =>
                         Qeq_bool lo min_val && Qeq_bool hi max_val
                     | _, _ => false
                     end
                 | Temporal, Some (WDates ds) =>
                     match ts_min (dropna (series df column)),
                           ts_max (dropna (series df column)) with
                     | Some lo, Some hi =>
                         bool_decide (ds = [date_of_ts lo; date_of_ts hi])
                     | _, _ => false
                     end
                 | _, _ => false
                 end
             | _, _ => true
             end)
          (map fst (columns df)).

(** Is the box of a value ticked: what the state holds for the box, and by
    default whether the value's text is among the stored selection. *)
Definition ticked (L : Lib) (column : string) (ss : session_state) (value : cell)
    : bool :=
  default (isin (get_list ss ("filter_" ++ column)) (Str (py_str L value)))
    (ss !! ("checkbox_" ++ column ++ "_" ++ py_str L value) ≫= as_bool).

(** Whatever the state holds under the key of a rendered control, every row
    of the table lies inside it. *)
Definition all_inside (df : DataFrame) (ss : session_state) : Prop :=
  ∀ column key sel r,
    control_key df column = Some key → ss !! key = Some sel → r ∈ rows df →
    in_selection (row_get (columns df) column r) sel.

(** ** The classification rules of the specification

    A second classifier, written after the words of the specification
    (section 3) and not after the code: a column is numeric when all its
    present values are parseable as a real number, temporal when its name
    contains a date-like token and its values parse as calendar dates, and
    categorical otherwise.  A text parses as a number when it is a decimal
    numeral, and as a calendar date when it is a valid day written
    YYYY-MM-DD. *)
Module Spec.

Definition is_digit (a : ascii) : bool :=
  let n := nat_of_ascii a in (48 <=? n)%nat && (n <=? 57)%nat.

Definition digit (a : ascii) : nat := nat_of_ascii a - 48.

Fixpoint all_digits (s : string) : bool :=
  match s with
  | EmptyString => true
  | String a s' => is_digit a && all_digits s'
  end.

Fixpoint has_digit (s : string) : bool :=
  match s with
  | EmptyString => false
  | String a s' => is_digit a || has_digit s'
  end.

(** digits, then possibly a point and digits *)
Fixpoint digits_point_digits (s : string) : bool :=
  match s with
  | EmptyString => true
  | String a s' =>
      if is_digit a then digits_point_digits s'
      else Ascii.eqb a "."%char && all_digits s'
  end.

Definition is_number (s : string) : bool :=
  let body :=
    match s with
    | String a s' => if Ascii.eqb a "-"%char || Ascii.eqb a "+"%char then s' else s
    | EmptyString => s
    end in
  has_digit body && digits_point_digits body.

Definition is_leap (y : nat) : bool :=
  (y mod 4 =? 0)%nat && (negb (y mod 100 =? 0)%nat || (y mod 400 =? 0)%nat).

Definition days_in_month (y m : nat) : nat :=
  match m with
  | 1 | 3 | 5 | 7 | 8 | 10 | 12 => 31
  | 4 | 6 | 9 | 11 => 30
  | 2 => if is_leap y then 29 else 28
  | _ => 0
  end.

Definition is_calendar_date (s : string) : bool :=
  match s with
  | String y1 (String y2 (String y3 (String y4 (String dash1
      (String m1 (String m2 (String dash2 (String d1 (String d2 EmptyString))))))))) =>
      forallb is_digit [y1; y2; y3; y4; m1; m2; d1; d2]
      && Ascii.eqb dash1 "-"%char && Ascii.eqb dash2 "-"%char
      && (let y := digit y1 * 1000 + digit y2 * 100 + digit y3 * 10 + digit y4 in
          let m := digit m1 * 10 + digit m2 in
          let d := digit d1 * 10 + digit d2 in
          (1 <=? d)%nat && (d <=? days_in_month y m)%nat)
  | _ => false
  end.

Definition parses_as_number (c : cell) : bool :=
  match c with
  | Num _ => true
  | Str s => is_number s
  | _ => false
  end.

Definition parses_as_date (c : cell) : bool :=
  match c with
  | Ts _ | DateObj _ => true
  | Str s => is_calendar_date s
  | _ => false
  end.

Definition classify (name : string) (values : list cell) : ColumnKind :=
  let present := dropna values in
  if (0 <? length present)%nat && forallb parses_as_number present then Numeric
  else if Py.contains "date" (Py.lower name)
          && (0 <? length present)%nat && forallb parses_as_date present then Temporal
  else Categorical.

End Spec.

(** The numeric fields of the form with a minimum of zero, and the two
    angle fields, each under the key it is stored under. *)
Definition size_fields (f : AddRowForm) : list (string * Q) :=
  [ ("Pipe OD", pipe_od f);
    ("Pipe Wall Thickness", pipe_wall f);
    ("Coating Thickness", coating_thickness f);
    ("Steel Density", steel_density f);
    ("Coating Density", coating_density f);
    ("Clad Thickness", clad_thickness f);
    ("Water Depth", water_depth f) ].

Definition angle_fields (f : AddRowForm) : list (string * Q) :=
  [ ("Estimated Optimal JLT Angle", estimated_angle f);
    ("JLT Angle", jlt_angle f) ].

(** ** Sample data *)

(** A stand-in for the routines taken as given, to evaluate the model where
    the result does not depend on them. *)
Definition plain : Lib :=
  {| repr := fun _ => ""; infer := fun _ _ => ([], []) |}.

(** The table of the filtering scenario. *)
Definition scenario_table : DataFrame :=
  {| columns := [("Country", object); ("Pipe OD", numeric)];
     rows := [ [Str "A"; Num 10]; [Str "A"; Num 20]; [Str "B"; Num 30] ] |}.

(** A numeric column with a missing value between two numbers. *)
Definition od_with_gap : DataFrame :=
  {| columns := [("Pipe OD", numeric)];
     rows := [ [Num 10]; [NaN]; [Num 20] ] |}.

(** An int64 column with values beyond 2^53. *)
Definition big_od : DataFrame :=
  {| columns := [("Pipe OD", numeric)];
     rows := [ [Num 9007199254740995]; [Num 9007199254741092] ] |}.

(** A categorical column with a missing value. *)
Definition country_with_gap : DataFrame :=
  {| columns := [("Country", object)];
     rows := [ [Str "A"]; [NaN] ] |}.

(** A purely categorical table without missing values. *)
Definition vessels : DataFrame :=
  {| columns := [("Country", object); ("Vessel", object)];
     rows := [ [Str "A"; Str "V1"]; [Str "B"; Str "V2"]; [Str "A"; Str "V2"] ] |}.

(** A session in which the slider of "Pipe OD" was narrowed to [15, 30]. *)
Definition narrowed_od : session_state :=
  <["slider_Pipe OD" := WRange 15 30]> ∅.

(** A date column as [read_csv] delivers it: text, dtype object. *)
Definition installation_dates : DataFrame :=
  {| columns := [("Installation Date", object)];
     rows := [ [Str "2024-01-15"]; [Str "2024-03-02"] ] |}.

(** An uploaded sheet with a header only; the second name ends in a space. *)
Definition header_only : DataFrame :=
  {| columns := [("a", object); ("a ", object)]; rows := [] |}.

(** A fresh process: nothing in the session, no file, storage writable. *)
Definition fresh_world : World :=
  {| session := ∅; files := ∅; writable := true; shown := [] |}.

(** The scenario table in the session, on storage that cannot be written. *)
Definition read_only_world : World :=
  {| session := {["pipeline_data" := WFrame scenario_table]}; files := ∅;
     writable := false; shown := [] |}.

(** A form with both mandatory fields, every size left at zero and a
    negative JLT angle. *)
Definition negative_angle_form : AddRowForm :=
  {| country := "C"; project := "X"; vessel := ""; pipe_type := ""; line_type := "";
     pipe_od := 0; pipe_wall := 0; coating_thickness := 0; steel_density := 0;
     coating_density := 0; clad_thickness := 0; vessel_name := "";
     water_depth := 0; estimated_angle := 0; jlt_angle := (-5);
     installation_date := 19737 |}.

(** The same form with the project left blank. *)
Definition blank_project_form : AddRowForm :=
  {| country := "C"; project := ""; vessel := ""; pipe_type := ""; line_type := "";
     pipe_od := 0; pipe_wall := 0; coating_thickness := 0; steel_density := 0;
     coating_density := 0; clad_thickness := 0; vessel_name := "";
     water_depth := 0; estimated_angle := 0; jlt_angle := (-5);
     installation_date := 19737 |}.

(** A session in the checkbox style in which the box of country "A" was
    ticked. *)
Definition ticked_country_A : session_state :=
  <["checkbox_Country_A" := WBool true]> (<["filter_style" := WStr "Checkboxes"]> ∅).

(** Both selections of the scenario at once. *)
Definition country_A_and_narrowed_od : session_state :=
  <["filter_Country" := WList [Str "A"]]> narrowed_od.

(** ** The main content area: indicators, distribution, export *)

(** ['name' in df.columns] *)
Definition has_column (df : DataFrame) (name : string) : bool :=
  existsb (fun nd => String.eqb (fst nd) name) (columns df).

(** [Series.nunique()]: the number of distinct present values *)
Definition nunique (s : list cell) : nat := length (unique (dropna s)).

(** [df[name].nunique() if name in df.columns else 0] *)
Definition unique_count (df : DataFrame) (name : string) : nat :=
  if has_column df name then nunique (series df name) else 0%nat.

Record Indicators : Type := {
  total_lines : nat;         (* "Total Pipeline Lines" *)
  unique_projects : nat;     (* "Unique Projects" *)
  unique_vessels : nat;      (* "Unique Vessels" *)
  unique_countries : nat     (* "Countries" *)
}.

Definition key_indicators (filtered_df : DataFrame) : Indicators :=
  {| total_lines := length (rows filtered_df);
     unique_projects := unique_count filtered_df "Project";
     unique_vessels := unique_count filtered_df "Vessel";
     unique_countries := unique_count filtered_df "Country" |}.

(** How often a value occurs in a series. *)
Definition count_of (v : cell) (s : list cell) : nat :=
  length (List.filter (cell_eqb v) s).

(** Insertion by decreasing count, in front of the entries of the same
    count. *)
Fixpoint insert_by_count (e : cell * nat) (l : list (cell * nat)) : list (cell * nat) :=
  match l with
  | [] => [e]
  | e' :: l' =>
      if (snd e' <=? snd e)%nat then e :: l else e' :: insert_by_count e l'
  end.

(** [Series.value_counts()]: the present values with their counts, the most
    frequent first.  Values of the same count are kept here in order of
    first appearance; nothing below depends on their order. *)
Definition value_counts (s : list cell) : list (cell * nat) :=
  foldr insert_by_count []
    (map (fun v => (v, count_of v (dropna s))) (unique (dropna s))).

(** [(count / len(filtered_df)) * 100]; [None] for the division by zero. *)
Definition percentage (count n : nat) : option Q :=
  if (n =? 0)%nat then None
  else Some ((inject_Z (Z.of_nat count) / inject_Z (Z.of_nat n)) * 100)%Q.

(** The "Distribution Details" column: for every pipe type its count and
    its share of the filtered lines; [None] when the section is not
    rendered. *)
Definition distribution_details (filtered_df : DataFrame)
    : option (list (cell * nat * option Q)) :=
  if has_column filtered_df "Pipe Type"
     && negb (forallb isna (series filtered_df "Pipe Type"))
  then
    Some (map (fun e => (fst e, snd e, percentage (snd e) (length (rows filtered_df))))
            (value_counts (series filtered_df "Pipe Type")))
  else None.

(** What the main content area shows for a loaded table. *)
Record Content : Type := {
  indicators : Indicators;
  details : option (list (cell * nat * option Q));
  showing : nat * nat;              (* "Showing n of m total records" *)
  csv_data : file;                  (* the download button's data *)
  table : DataFrame;                (* st.dataframe(filtered_df) *)
  state : session_state
}.

(** The main content area of [main]: [None] is the welcome text shown for an
    empty table.  (The summary statistics of [describe] are left out.) *)
Definition main_content (L : Lib) (df : DataFrame) (ss : session_state)
    : option Content :=
  if negb (empty df) then
    let '(filtered_df, ss') := create_filter_sidebar L df ss in
    Some {| indicators := key_indicators filtered_df;
            details := distribution_details filtered_df;
            showing := (length (rows filtered_df), length (rows df));
            csv_data := to_csv L filtered_df;
            table := filtered_df;
            state := ss' |}
  else None.

(** The records of a file (none for text that is not CSV). *)
Definition records_of (f : file) : list (list string) :=
  match f with
  | Malformed => []
  | Csv _ records => records
  end.

Definition header_of (f : file) : list string :=
  match f with
  | Malformed => []
  | Csv header _ => header
  end.

(** A table with pipe types, one of them missing. *)
Definition pipe_types : DataFrame :=
  {| columns := [("Project", object); ("Pipe Type", object)];
     rows := [ [Str "P1"; Str "Rigid"]; [Str "P1"; Str "Flexible"];
               [Str "P2"; Str "Rigid"]; [Str "P3"; NaN] ] |}.

(** A session in which country "A" was chosen in the multiselect. *)
Definition country_A : session_state :=
  <["filter_Country" := WList [Str "A"]]> ∅.

(** [a in s] for a character *)
Fixpoint has_char (a : ascii) (s : string) : bool :=
  match s with
  | EmptyString => false
  | String c s' => Ascii.eqb c a || has_char a s'
  end.

(** A header field with a line break in it, a space in front and a
    no-break space (U+00A0) behind. *)
Definition pipe_od_header : string :=
  " Pipe" ++ String "010"%char "OD" ++ Py.bytes [194; 160]%nat.

(** A first start with the sample file on disk. *)
Definition sample_world : World :=
  {| session := ∅;
     files := {["data/sample_pipeline_data.csv" := Csv [pipe_od_header; "Country"] [] ]};
     writable := true; shown := [] |}.

(** ** Conversion to float *)

(** Small numbers and doubles stay; integers beyond 2^53 move to the
    nearest double, to the even one in a tie. *)
Example float_exact :
  float 10 = 10%Q ∧ float (1 # 2) = (1 # 2)%Q ∧ float (-5) = (-5)%Q ∧ float 0 = 0%Q
  ∧ float 9007199254740992 = 9007199254740992%Q.
Proof. by vm_compute. Qed.

Example float_rounds :
  float 9007199254740993 = 9007199254740992%Q
  ∧ float 9007199254740995 = 9007199254740996%Q
  ∧ float (-9007199254740995) = (-9007199254740996)%Q
  ∧ float 9223372036854775807 = 9223372036854775808%Q.
Proof. by vm_compute. Qed.

Lemma round_half_even_bounds (x : Q) :
  (Qfloor x ≤ round_half_even x ≤ Qfloor x + 1)%Z.
Proof.
  unfold round_half_even. destruct (_ ?= _)%Q; [destruct (Z.even _)|..]; lia.
Qed.

Lemma round_half_even_mono (x y : Q) :
  (x <= y)%Q → (round_half_even x ≤ round_half_even y)%Z.
Proof.
  intros Hxy. pose proof (Qfloor_resp_le x y Hxy) as Hf.
  pose proof (round_half_even_bounds x) as Hx.
  pose proof (round_half_even_bounds y) as Hy.
  destruct (decide (Qfloor x = Qfloor y)) as [E|E]; [|lia].
  clear Hx Hy Hf. unfold round_half_even. rewrite <- E.
  assert (x - inject_Z (Qfloor x) <= y - inject_Z (Qfloor x))%Q as Hr.
  { by apply Qplus_le_l. }
  destruct (x - inject_Z (Qfloor x) ?= 1 # 2)%Q eqn:Cx;
    destruct (y - inject_Z (Qfloor x) ?= 1 # 2)%Q eqn:Cy;
    try (destruct (Z.even (Qfloor x))); try lia; exfalso;
    repeat match goal with
    | H : (_ ?= _)%Q = Eq |- _ => apply Qeq_alt in H
    | H : (_ ?= _)%Q = Lt |- _ => apply Qlt_alt in H
    | H : (_ ?= _)%Q = Gt |- _ => apply Qgt_alt in H
    end.
  all: try (rewrite Cx in Hr; by apply Qle_not_lt in Hr).
  all: try (rewrite Cy in Hr; by apply Qle_not_lt in Hr).
  all: apply (Qle_not_lt _ _ Hr); by apply Qlt_trans with (1 # 2)%Q.
Qed.

Lemma round_half_even_Z (n : Z) : round_half_even (inject_Z n) = n.
Proof.
  unfold round_half_even. rewrite Qfloor_Z.
  assert ((inject_Z n - inject_Z n ?= 1 # 2)%Q = Lt) as ->; [|done].
  apply Qlt_alt. unfold Qminus.
  pose proof (Qplus_opp_r (inject_Z n)) as H. by rewrite H.
Qed.

Lemma pow2_pos (e : Z) : (0 < inject_Z (2 ^ e))%Q ∨ (e < 0)%Z.
Proof.
  destruct (decide (0 ≤ e)%Z); [left|right; lia].
  change 0%Q with (inject_Z 0). rewrite <- Zlt_Qlt. by apply Z.pow_pos_nonneg.
Qed.

Lemma Qdiv_le_mono (x y p : Q) : (0 < p)%Q → (x <= y)%Q → (x / p <= y / p)%Q.
Proof.
  intros Hp Hxy. unfold Qdiv. apply Qmult_le_compat_r; [done|].
  by apply Qlt_le_weak, Qinv_lt_0_compat.
Qed.

Lemma float_units_mono (x y : Q) :
  (0 <= x)%Q → (x <= y)%Q → (float_units x ≤ float_units y)%Z.
Proof.
  intros Hx Hxy. unfold float_units.
  pose proof (Qfloor_resp_le _ _ Hx) as Hfx. change (Qfloor 0) with 0%Z in Hfx.
  pose proof (Qfloor_resp_le _ _ Hxy) as Hf.
  pose proof (Z.log2_le_mono _ _ Hf) as Hl.
  set (ex := Z.max 0 (Z.log2 (Qfloor x) - 52)).
  set (ey := Z.max 0 (Z.log2 (Qfloor y) - 52)).
  assert (0 ≤ ex ≤ ey)%Z as [Hex Hexy] by lia.
  assert (0 < inject_Z (2 ^ ex))%Q as Hpx by (destruct (pow2_pos ex); [done|lia]).
  assert (0 < inject_Z (2 ^ ey))%Q as Hpy by (destruct (pow2_pos ey); [done|lia]).
  destruct (decide (ex = ey)) as [E|E].
  - rewrite <- E. apply Z.mul_le_mono_nonneg_r; [by apply Z.pow_nonneg|].
    apply round_half_even_mono. by apply Qdiv_le_mono.
  - assert (ey = Z.log2 (Qfloor y) - 52)%Z as Hey by lia.
    assert (0 < Qfloor y)%Z as Hfy.
    { destruct (decide (0 < Qfloor y)%Z); [done|].
      rewrite Z.log2_nonpos in * by lia. lia. }
    pose proof (Z.log2_spec _ Hfy) as [Hlo _].
    assert (2 ^ 52 ≤ round_half_even (y / inject_Z (2 ^ ey)))%Z as Hy52.
    { rewrite <- (round_half_even_Z (2 ^ 52)). apply round_half_even_mono.
      apply Qle_shift_div_l; [done|].
      rewrite <- inject_Z_mult, <- Z.pow_add_r by lia.
      apply Qle_trans with (inject_Z (Qfloor y)); [|apply Qfloor_le].
      rewrite <- Zle_Qle. replace (52 + ey)%Z with (Z.log2 (Qfloor y)) by lia. done. }
    assert (round_half_even (x / inject_Z (2 ^ ex)) ≤ 2 ^ 53)%Z as Hx53.
    { rewrite <- (round_half_even_Z (2 ^ 53)). apply round_half_even_mono.
      apply Qle_shift_div_r; [done|].
      rewrite <- inject_Z_mult, <- Z.pow_add_r by lia.
      apply Qle_trans with (inject_Z (Qfloor x + 1)); [apply Qlt_le_weak, Qlt_floor|].
      rewrite <- Zle_Qle.
      assert (Qfloor x < 2 ^ (53 + ex))%Z; [|lia].
      destruct (decide (0 < Qfloor x)%Z) as [Hp|Hp].
      - pose proof (Z.log2_spec _ Hp) as [_ Hhi].
        eapply Z.lt_le_trans; [exact Hhi|]. apply Z.pow_le_mono_r; lia.
      - assert (0 < 2 ^ (53 + ex))%Z by (apply Z.pow_pos_nonneg; lia). lia. }
    apply Z.le_trans with (2 ^ 53 * 2 ^ ex)%Z.
    { apply Z.mul_le_mono_nonneg_r; [by apply Z.pow_nonneg|done]. }
    apply Z.le_trans with (2 ^ 52 * 2 ^ ey)%Z.
    { rewrite <- !Z.pow_add_r by lia. apply Z.pow_le_mono_r; lia. }
    apply Z.mul_le_mono_nonneg_r; [by apply Z.pow_nonneg|done].
Qed.

Lemma float_units_nonneg (x : Q) : (0 <= x)%Q → (0 ≤ float_units x)%Z.
Proof.
  intros Hx. by apply (float_units_mono 0 x).
Qed.

Lemma float_abs_units (x : Q) :
  (float_abs x == inject_Z (float_units (x * inject_Z (2 ^ 1074))) / inject_Z (2 ^ 1074))%Q.
Proof. unfold float_abs. by rewrite Qred_correct. Qed.

Lemma float_abs_mono (x y : Q) :
  (0 <= x)%Q → (x <= y)%Q → (float_abs x <= float_abs y)%Q.
Proof.
  intros Hx Hxy. rewrite !float_abs_units.
  assert (0 < inject_Z (2 ^ 1074))%Q as Hk by done.
  apply Qdiv_le_mono; [done|]. rewrite <- Zle_Qle.
  apply float_units_mono.
  - apply Qmult_le_0_compat; [done|by apply Qlt_le_weak].
  - apply Qmult_le_compat_r; [done|by apply Qlt_le_weak].
Qed.

Lemma float_abs_nonneg (x : Q) : (0 <= x)%Q → (0 <= float_abs x)%Q.
Proof.
  intros Hx. rewrite float_abs_units.
  apply Qle_shift_div_l; [done|]. rewrite Qmult_0_l.
  change 0%Q with (inject_Z 0). rewrite <- Zle_Qle.
  apply float_units_nonneg.
  apply Qmult_le_0_compat; [done|done].
Qed.

(** The conversion to float is monotone. *)
Lemma float_mono (x y : Q) : (x <= y)%Q → (float x <= float y)%Q.
Proof.
  intros Hxy. unfold float.
  destruct (Qle_bool 0 x) eqn:Ex, (Qle_bool 0 y) eqn:Ey.
  - apply Qle_bool_iff in Ex. by apply float_abs_mono.
  - apply Qle_bool_iff in Ex. exfalso.
    assert (Qle_bool 0 y = true); [|congruence].
    apply Qle_bool_iff. by apply Qle_trans with x.
  - apply Qle_bool_iff in Ey.
    apply Qle_trans with 0%Q; [|by apply float_abs_nonneg].
    assert (0 <= float_abs (- x))%Q as H.
    { apply float_abs_nonneg.
      assert (¬ (0 <= x)%Q) as Hn by (rewrite <- Qle_bool_iff; congruence).
      apply Qnot_le_lt in Hn. apply Qlt_le_weak in Hn.
      apply Qopp_le_compat in Hn. done. }
    apply Qopp_le_compat in H. done.
  - apply Qopp_le_compat. apply float_abs_mono.
    + assert (¬ (0 <= y)%Q) as Hn by (rewrite <- Qle_bool_iff; congruence).
      apply Qnot_le_lt in Hn. apply Qlt_le_weak in Hn.
      apply Qopp_le_compat in Hn. done.
    + by apply Qopp_le_compat.
Qed.

Lemma round_half_even_comp (x y : Q) : (x == y)%Q → round_half_even x = round_half_even y.
Proof.
  intros E. apply Z.le_antisymm; apply round_half_even_mono; rewrite E; apply Qle_refl.
Qed.

Lemma float_units_integer (z : Z) :
  (0 ≤ z < 2 ^ 53)%Z →
  float_units (inject_Z z * inject_Z (2 ^ 1074)) = (z * 2 ^ 1074)%Z.
Proof.
  intros [Hz Hlt]. unfold float_units.
  assert (Qfloor (inject_Z z * inject_Z (2 ^ 1074)) = (z * 2 ^ 1074)%Z) as ->.
  { rewrite <- inject_Z_mult. apply Qfloor_Z. }
  destruct (decide (z = 0%Z)) as [->|Hne]; [by vm_compute|].
  assert (0 < z)%Z as Hpos by lia.
  rewrite Z.log2_mul_pow2 by lia.
  assert (Z.log2 z < 53)%Z as Hlog by (apply Z.log2_lt_pow2; lia).
  pose proof (Z.log2_nonneg z) as Hnn.
  rewrite Z.max_r by lia.
  set (e := (1074 + Z.log2 z - 52)%Z).
  assert (0 < inject_Z (2 ^ e))%Q as Hpe.
  { change 0%Q with (inject_Z 0). rewrite <- Zlt_Qlt. apply Z.pow_pos_nonneg; lia. }
  assert (z * 2 ^ 1074 = z * 2 ^ (52 - Z.log2 z) * 2 ^ e)%Z as Hsplit.
  { rewrite <- Z.mul_assoc, <- Z.pow_add_r by lia. do 2 f_equal. lia. }
  rewrite (round_half_even_comp _ (inject_Z (z * 2 ^ (52 - Z.log2 z)))).
  - by rewrite round_half_even_Z, <- Hsplit.
  - rewrite <- inject_Z_mult, Hsplit, inject_Z_mult.
    apply Qdiv_mult_l. intros E. rewrite E in Hpe. by apply Qlt_irrefl in Hpe.
Qed.

Lemma Qred_inject_Z (z : Z) : Qred (inject_Z z) = inject_Z z.
Proof.
  unfold Qred, inject_Z.
  pose proof (Z.ggcd_gcd z 1) as Hg.
  pose proof (Z.ggcd_correct_divisors z 1) as Hd.
  destruct (Z.ggcd z 1) as [g [aa bb]]. simpl in *.
  rewrite Z.gcd_1_r in Hg. subst g. destruct Hd as [Ha Hb].
  rewrite Z.mul_1_l in Ha, Hb. by subst.
Qed.

Lemma float_abs_integer (z : Z) :
  (0 ≤ z ≤ 2 ^ 53)%Z → float_abs (inject_Z z) = inject_Z z.
Proof.
  intros [Hz Hle]. destruct (decide (z = 2 ^ 53)%Z) as [->|Hne]; [by vm_compute|].
  unfold float_abs. rewrite float_units_integer by lia.
  transitivity (Qred (inject_Z z)); [|apply Qred_inject_Z].
  apply Qred_complete. rewrite inject_Z_mult.
  apply Qdiv_mult_l. done.
Qed.

(** An integer up to 2^53 in magnitude is a double: the conversion leaves
    it as it is. *)
Lemma float_integer (z : Z) :
  (Z.abs z ≤ 2 ^ 53)%Z → float (inject_Z z) = inject_Z z.
Proof.
  intros Hz. unfold float.
  destruct (Qle_bool 0 (inject_Z z)) eqn:E.
  - apply Qle_bool_iff in E. change 0%Q with (inject_Z 0) in E.
    rewrite <- Zle_Qle in E. apply float_abs_integer. lia.
  - assert (z < 0)%Z as Hneg.
    { destruct (decide (0 ≤ z)%Z) as [H|H]; [|lia].
      assert (Qle_bool 0 (inject_Z z) = true); [|congruence].
      apply Qle_bool_iff. change 0%Q with (inject_Z 0). by rewrite <- Zle_Qle. }
    change (- inject_Z z)%Q with (inject_Z (- z)).
    rewrite float_abs_integer by lia.
    unfold inject_Z, Qopp; simpl. by rewrite Z.opp_involutive.
Qed.

(** ** Filtering only selects rows *)

Lemma filter_sublist {A : Type} (p : A → bool) (l : list A) :
  List.filter p l `sublist_of` l.
Proof.
  induction l as [|x l IH]; simpl.
  - constructor.
  - destruct (p x); [by apply sublist_skip|by apply sublist_cons].
Qed.

Lemma narrows_refl (a : DataFrame) : narrows a a.
Proof. by split. Qed.

Lemma narrows_trans (a b c : DataFrame) : narrows a b → narrows b c → narrows a c.
Proof.
  intros [Hc1 Hr1] [Hc2 Hr2]. split; [congruence|by etrans].
Qed.

Lemma mask_rows_narrows (df : DataFrame) (mask : list cell → bool) :
  narrows df (mask_rows df mask).
Proof. split; [done|apply filter_sublist]. Qed.

Lemma categorical_filter_narrows L style df column fd ss :
  narrows fd (categorical_filter L style df column (fd, ss)).1.
Proof.
  unfold categorical_filter.
  destruct (0 <? _)%nat; [|apply narrows_refl].
  destruct (if String.eqb style "Multiselect" then _ else _) as [[|v vs] ss'];
    simpl; [apply narrows_refl|apply mask_rows_narrows].
Qed.

Lemma numeric_filter_narrows df column fd ss :
  narrows fd (numeric_filter df column (fd, ss)).1.
Proof.
  unfold numeric_filter.
  destruct (negb (forallb _ _)); [|apply narrows_refl].
  destruct (series_min _) as [mn|]; [|apply narrows_refl].
  destruct (series_max _) as [mx|]; [|apply narrows_refl].
  destruct (negb (Qeq_bool _ _)); [|apply narrows_refl].
  destruct (slider _ _ _) as [rg ss']. apply mask_rows_narrows.
Qed.

Lemma date_filter_narrows df column fd ss :
  narrows fd (date_filter df column (fd, ss)).1.
Proof.
  unfold date_filter.
  destruct (0 <? _)%nat; [|apply narrows_refl].
  destruct (ts_min _) as [lo|]; [|apply narrows_refl].
  destruct (ts_max _) as [hi|]; [|apply narrows_refl].
  destruct (date_input _ _ _) as [[|a [|b [|c ds]]] ss'];
    simpl; first [apply narrows_refl|apply mask_rows_narrows].
Qed.

Lemma filter_column_narrows L style df acc column :
  narrows acc.1 (filter_column L style df acc column).1.
Proof.
  destruct acc as [fd ss]. unfold filter_column.
  destruct (col_dtype _ _) as [d|]; [|apply narrows_refl].
  destruct (classify d column);
    auto using categorical_filter_narrows, numeric_filter_narrows,
      date_filter_narrows, narrows_refl.
Qed.

Lemma filter_columns_narrows L style df names acc :
  narrows acc.1 (foldl (filter_column L style df) acc names).1.
Proof.
  revert acc. induction names as [|c names IH]; intros acc; simpl.
  - apply narrows_refl.
  - eapply narrows_trans; [apply filter_column_narrows|apply IH].
Qed.

(** C2. For every table and every session state, the frame
    [create_filter_sidebar] returns has the table's rows as a subsequence
    (same order, none repeated) and the table's columns, all of them. *)
Theorem filtered_is_row_subsequence (L : Lib) (df : DataFrame) (ss : session_state) :
  rows (create_filter_sidebar L df ss).1 `sublist_of` rows df
  ∧ columns (create_filter_sidebar L df ss).1 = columns df.
Proof.
  unfold create_filter_sidebar.
  destruct (radio _ _ _) as [style ss1].
  by pose proof (filter_columns_narrows L style df (map fst (columns df)) (df, ss1))
    as [Hc Hr].
Qed.

(** The filtering scenario of the specification, run on the model. *)
Example scenario_country_A :
  rows (create_filter_sidebar plain scenario_table
          (<["filter_Country" := WList [Str "A"]]> ∅)).1
  = [ [Str "A"; Num 10]; [Str "A"; Num 20] ].
Proof. by vm_compute. Qed.

Example scenario_od_15_30 :
  rows (create_filter_sidebar plain scenario_table narrowed_od).1
  = [ [Str "A"; Num 20]; [Str "B"; Num 30] ].
Proof. by vm_compute. Qed.

(** Selections combine by conjunction; the row (A, 20) satisfies both. *)
Example scenario_combined :
  rows (create_filter_sidebar plain scenario_table country_A_and_narrowed_od).1
  = [ [Str "A"; Num 20] ].
Proof. by vm_compute. Qed.

(** ** Widgets and the session state *)

Lemma widget_value {A : Type} (proj : wvalue → option A) (inj : A → wvalue)
    (key : string) (default : A) (ss : session_state) :
  (∀ a, proj (inj a) = Some a) →
  (widget proj inj key default ss).2 !! key ≫= proj
  = Some (widget proj inj key default ss).1.
Proof.
  intros Hinj. unfold widget.
  destruct (ss !! key ≫= proj) as [v|] eqn:E; simpl; [done|].
  by rewrite lookup_insert_eq; simpl.
Qed.

Lemma widget_frame {A : Type} (proj : wvalue → option A) (inj : A → wvalue)
    (key : string) (default : A) (ss : session_state) (k : string) :
  k ≠ key → (widget proj inj key default ss).2 !! k = ss !! k.
Proof.
  intros Hk. unfold widget.
  destruct (ss !! key ≫= proj); simpl; [done|].
  by rewrite lookup_insert_ne.
Qed.

Lemma as_str_Some (o : option wvalue) (s : string) :
  o ≫= as_str = Some s → o = Some (WStr s).
Proof. destruct o as [[]|]; simpl; congruence. Qed.

Lemma as_list_Some (o : option wvalue) (l : list cell) :
  o ≫= as_list = Some l → o = Some (WList l).
Proof. destruct o as [[]|]; simpl; congruence. Qed.

Lemma as_range_Some (o : option wvalue) (p : Q * Q) :
  o ≫= as_range = Some p → o = Some (WRange p.1 p.2).
Proof. destruct o as [[]|]; simpl; try congruence. by intros [= <-]. Qed.

Lemma as_dates_Some (o : option wvalue) (ds : list Z) :
  o ≫= as_dates = Some ds → o = Some (WDates ds).
Proof. destruct o as [[]|]; simpl; congruence. Qed.

Lemma checkboxes_frame L column values acc (k : string) :
  (∀ x, k ≠ "checkbox_" ++ column ++ "_" ++ x) →
  (foldl (λ acc value,
      let '(selected_values, ss) := acc in
      let '(ticked, ss') :=
        checkbox ("checkbox_" ++ column ++ "_" ++ py_str L value)
          (isin (get_list ss ("filter_" ++ column)) (Str (py_str L value))) ss in
      (if ticked then (selected_values ++ [value])%list else selected_values, ss'))
     acc values).2 !! k = acc.2 !! k.
Proof.
  intros Hk. revert acc.
  induction values as [|v values IH]; intros [sel ss]; simpl; [done|].
  destruct (checkbox _ _ ss) as [ticked ss1] eqn:E.
  rewrite IH. simpl.
  change ss1 with (ticked, ss1).2. rewrite <- E.
  apply widget_frame, Hk.
Qed.

(** A pass for one column touches only that column's keys. *)
Lemma filter_column_frame L style df column acc (k : string) :
  k ≠ "filter_" ++ column → k ≠ "slider_" ++ column → k ≠ "date_" ++ column →
  (∀ x, k ≠ "checkbox_" ++ column ++ "_" ++ x) →
  (filter_column L style df acc column).2 !! k = acc.2 !! k.
Proof.
  intros Hf Hs Hd Hc. destruct acc as [fd ss]. unfold filter_column.
  destruct (col_dtype _ _) as [d|]; [|done].
  destruct (classify d column); [| | |done].
  - unfold categorical_filter.
    destruct (0 <? _)%nat; [|done].
    destruct (String.eqb style "Multiselect").
    + destruct (multiselect _ _ ss) as [sel ss'] eqn:E.
      assert (ss' !! k = ss !! k) as Hk.
      { change ss' with (sel, ss').2. rewrite <- E. by apply widget_frame. }
      by destruct sel.
    + pose proof (checkboxes_frame L column (unique (dropna (series df column)))
                    ([], ss) k Hc) as Hk.
      unfold checkboxes. simpl in Hk.
      destruct (foldl _ _ _) as [sel ss'].
      simpl in Hk. destruct sel; simpl; by rewrite lookup_insert_ne.
  - unfold numeric_filter.
    destruct (negb (forallb _ _)); [|done].
    destruct (series_min _) as [mn|]; [|done].
    destruct (series_max _) as [mx|]; [|done].
    destruct (negb (Qeq_bool _ _)); [|done].
    destruct (slider _ _ ss) as [rg ss'] eqn:E. simpl.
    change ss' with (rg, ss').2. rewrite <- E. by apply widget_frame.
  - unfold date_filter.
    destruct (0 <? _)%nat; [|done].
    destruct (ts_min _) as [lo|]; [|done].
    destruct (ts_max _) as [hi|]; [|done].
    destruct (date_input _ _ ss) as [ds ss'] eqn:E.
    assert (ss' !! k = ss !! k) as Hk.
    { change ss' with (ds, ss').2. rewrite <- E. by apply widget_frame. }
    by destruct ds as [|a [|b [|c ds]]].
Qed.

(** The key of a column's control is not touched by another column's pass. *)
Lemma control_key_other df column key other :
  control_key df column = Some key → other ≠ column →
  key ≠ "filter_" ++ other ∧ key ≠ "slider_" ++ other ∧ key ≠ "date_" ++ other
  ∧ ∀ x, key ≠ "checkbox_" ++ other ++ "_" ++ x.
Proof.
  intros Hkey Hne. unfold control_key in Hkey.
  destruct (col_dtype _ _) as [d|]; [|done].
  destruct (classify d column); [| | |done].
  - destruct (0 <? _)%nat; [|done]. injection Hkey as <-.
    repeat split; try intros x; cbv [String.append] in *; congruence.
  - destruct (negb (forallb _ _)); [|done].
    destruct (series_min _); [|done]. destruct (series_max _); [|done].
    destruct (negb (Qeq_bool _ _)); [|done]. injection Hkey as <-.
    repeat split; try intros x; cbv [String.append] in *; congruence.
  - destruct (0 <? _)%nat; [|done].
    destruct (ts_min _); [|done]. destruct (ts_max _); [|done].
    injection Hkey as <-.
    repeat split; try intros x; cbv [String.append] in *; congruence.
Qed.

Lemma control_key_cases (df : DataFrame) (column key : string) :
  control_key df column = Some key →
  key = "filter_" ++ column ∨ key = "slider_" ++ column ∨ key = "date_" ++ column.
Proof.
  unfold control_key.
  destruct (col_dtype _ _) as [d|]; [|done].
  destruct (classify d column); [| | |done].
  - destruct (0 <? _)%nat; [|done]. intros [= <-]. auto.
  - destruct (negb (forallb _ _)); [|done].
    destruct (series_min _); [|done]. destruct (series_max _); [|done].
    destruct (negb (Qeq_bool _ _)); [|done]. intros [= <-]. auto.
  - destruct (0 <? _)%nat; [|done].
    destruct (ts_min _); [|done]. destruct (ts_max _); [|done].
    intros [= <-]. auto.
Qed.

Lemma control_key_inj (df : DataFrame) (c1 c2 key : string) :
  control_key df c1 = Some key → control_key df c2 = Some key → c1 = c2.
Proof.
  intros H1 H2. destruct (decide (c1 = c2)) as [|Hne]; [done|].
  destruct (control_key_other df c1 key c2 H1) as (Hf & Hs & Hd & _); [done|].
  by destruct (control_key_cases df c2 key H2) as [?|[?|?]].
Qed.

(** ** Retained rows lie inside the selections *)

Lemma elem_of_mask_rows (df : DataFrame) (mask : list cell → bool) (r : list cell) :
  r ∈ rows (mask_rows df mask) ↔ r ∈ rows df ∧ mask r = true.
Proof.
  unfold mask_rows; simpl. rewrite !list_elem_of_In. apply filter_In.
Qed.

Lemma in_range (lo hi : Q) (v : cell) :
  ge_num lo v && le_num hi v = true
  ↔ ∃ q, v = Num q ∧ (lo <= float q)%Q ∧ (float q <= hi)%Q.
Proof.
  rewrite andb_true_iff. split.
  - destruct v as [| |q| |]; simpl; intros [Hlo Hhi]; try done.
    exists q. by rewrite <- !Qle_bool_iff.
  - intros (q & -> & Hlo & Hhi); simpl. by rewrite !Qle_bool_iff.
Qed.

Lemma in_date_range (start stop : Z) (v : cell) :
  ge_date start v && le_date stop v = true
  ↔ ∃ t, v = Ts t ∧ (start ≤ date_of_ts t)%Z ∧ (date_of_ts t ≤ stop)%Z.
Proof.
  rewrite andb_true_iff. split.
  - destruct v as [| | |t|]; simpl; intros [Hlo Hhi]; try done.
    exists t. split; [done|]. split; by apply Z.leb_le.
  - intros (t & -> & Hlo & Hhi); simpl. split; by apply Z.leb_le.
Qed.

Lemma categorical_filter_respects L style df column fd ss :
  columns fd = columns df →
  (0 <? length (unique (dropna (series df column))))%nat = true →
  ∃ selected,
    (categorical_filter L style df column (fd, ss)).2 !! ("filter_" ++ column)
    = Some (WList selected)
    ∧ ∀ r, r ∈ rows (categorical_filter L style df column (fd, ss)).1 →
           in_selection (row_get (columns df) column r) (WList selected).
Proof.
  intros Hcols Hguard. unfold categorical_filter. rewrite Hguard.
  assert (∃ selected ss',
    (if String.eqb style "Multiselect"
     then multiselect ("filter_" ++ column) (get_list ss ("filter_" ++ column)) ss
     else let '(selected_values, ss') :=
            checkboxes L column (unique (dropna (series df column))) ss in
          (selected_values, <["filter_" ++ column := WList selected_values]> ss'))
    = (selected, ss') ∧ ss' !! ("filter_" ++ column) = Some (WList selected))
    as (selected & ss' & -> & Hkey).
  { destruct (String.eqb style "Multiselect").
    - destruct (multiselect _ _ ss) as [sel ss'] eqn:E. exists sel, ss'.
      split; [done|]. apply as_list_Some.
      change ss' with (sel, ss').2. change sel with (sel, ss').1 at 2.
      rewrite <- E. by apply widget_value.
    - destruct (checkboxes _ _ _ _) as [sel ss'].
      exists sel, (<["filter_" ++ column := WList sel]> ss').
      split; [done|]. apply lookup_insert_eq. }
  exists selected. destruct selected as [|v vs]; simpl; (split; [done|]).
  - done.
  - intros r [_ Hr]%elem_of_mask_rows. by rewrite <- Hcols.
Qed.

Lemma numeric_filter_respects df column fd ss min_val max_val :
  columns fd = columns df →
  negb (forallb isna (series df column)) = true →
  series_min (series df column) = Some min_val →
  series_max (series df column) = Some max_val →
  negb (Qeq_bool min_val max_val) = true →
  ∃ lo hi,
    (numeric_filter df column (fd, ss)).2 !! ("slider_" ++ column) = Some (WRange lo hi)
    ∧ ∀ r, r ∈ rows (numeric_filter df column (fd, ss)).1 →
           in_selection (row_get (columns df) column r) (WRange lo hi).
Proof.
  intros Hcols H1 H2 H3 H4. unfold numeric_filter. rewrite H1, H2, H3, H4.
  destruct (slider _ _ ss) as [rg ss'] eqn:E. exists rg.1, rg.2. simpl. split.
  - apply as_range_Some.
    change ss' with (rg, ss').2. change rg with (rg, ss').1 at 2.
    rewrite <- E. apply widget_value. by intros [].
  - intros r [_ Hr]%elem_of_mask_rows. rewrite <- Hcols. by apply in_range.
Qed.

Lemma date_filter_respects df column fd ss lo hi :
  columns fd = columns df →
  (0 <? length (dropna (series df column)))%nat = true →
  ts_min (dropna (series df column)) = Some lo →
  ts_max (dropna (series df column)) = Some hi →
  ∃ ds,
    (date_filter df column (fd, ss)).2 !! ("date_" ++ column) = Some (WDates ds)
    ∧ ∀ r, r ∈ rows (date_filter df column (fd, ss)).1 →
           in_selection (row_get (columns df) column r) (WDates ds).
Proof.
  intros Hcols H1 H2 H3. unfold date_filter. rewrite H1, H2, H3.
  destruct (date_input _ _ ss) as [ds ss'] eqn:E. exists ds.
  assert (ss' !! ("date_" ++ column) = Some (WDates ds)) as Hkey.
  { apply as_dates_Some.
    change ss' with (ds, ss').2. change ds with (ds, ss').1 at 2.
    rewrite <- E. by apply widget_value. }
  destruct ds as [|a [|b [|c ds]]]; simpl; (split; [done|]); try done.
  intros r [_ Hr]%elem_of_mask_rows. rewrite <- Hcols. by apply in_date_range.
Qed.

Lemma filter_column_respects L style df column acc key :
  columns acc.1 = columns df →
  control_key df column = Some key →
  ∃ sel,
    (filter_column L style df acc column).2 !! key = Some sel
    ∧ ∀ r, r ∈ rows (filter_column L style df acc column).1 →
           in_selection (row_get (columns df) column r) sel.
Proof.
  destruct acc as [fd ss]. simpl. intros Hcols Hkey.
  unfold control_key in Hkey. unfold filter_column.
  destruct (col_dtype _ _) as [d|]; [|done].
  destruct (classify d column); [| | |done].
  - destruct (0 <? _)%nat eqn:H1; [|done]. injection Hkey as <-.
    destruct (categorical_filter_respects L style df column fd ss Hcols H1)
      as (sel & ? & ?). by exists (WList sel).
  - destruct (negb (forallb _ _)) eqn:H1; [|done].
    destruct (series_min _) as [mn|] eqn:H2; [|done].
    destruct (series_max _) as [mx|] eqn:H3; [|done].
    destruct (negb (Qeq_bool _ _)) eqn:H4; [|done]. injection Hkey as <-.
    destruct (numeric_filter_respects df column fd ss mn mx Hcols H1 H2 H3 H4)
      as (lo & hi & ? & ?). by exists (WRange lo hi).
  - destruct (0 <? _)%nat eqn:H1; [|done].
    destruct (ts_min _) as [lo|] eqn:H2; [|done].
    destruct (ts_max _) as [hi|] eqn:H3; [|done]. injection Hkey as <-.
    destruct (date_filter_respects df column fd ss lo hi Hcols H1 H2 H3)
      as (ds & ? & ?). by exists (WDates ds).
Qed.

Lemma filter_column_respected L style df passed acc column :
  respected df passed acc →
  respected df (passed ++ [column]) (filter_column L style df acc column).
Proof.
  intros [Hcols Hinv].
  destruct (filter_column_narrows L style df acc column) as [Hc Hr].
  split; [congruence|].
  intros c key Hin Hkey.
  destruct (decide (c = column)) as [->|Hne].
  - by apply filter_column_respects.
  - apply elem_of_app in Hin as [Hin|Hin%list_elem_of_singleton]; [|done].
    destruct (Hinv c key Hin Hkey) as (sel & Hsel & Hrows).
    exists sel. split.
    + destruct (control_key_other df c key column Hkey) as (? & ? & ? & ?); [done|].
      by rewrite filter_column_frame.
    + intros r Hrin. apply Hrows. by eapply sublist_subseteq.
Qed.

Lemma filter_columns_respected L style df names passed acc :
  respected df passed acc →
  respected df (passed ++ names) (foldl (filter_column L style df) acc names).
Proof.
  revert passed acc. induction names as [|c names IH]; intros passed acc Hinv; simpl.
  - by rewrite app_nil_r.
  - replace (passed ++ c :: names)%list with ((passed ++ [c]) ++ names)%list
      by by rewrite <- app_assoc.
    by apply IH, filter_column_respected.
Qed.

Lemma col_dtype_elem (cols : list (string * dtype)) (c : string) (d : dtype) :
  col_dtype cols c = Some d → c ∈ map fst cols.
Proof.
  induction cols as [|[n d'] cols IH]; simpl; [done|].
  destruct (String.eqb n c) eqn:E.
  - apply String.eqb_eq in E as ->. intros _. apply list_elem_of_here.
  - intros H. apply list_elem_of_further. by apply IH.
Qed.

Lemma control_key_elem (df : DataFrame) (column key : string) :
  control_key df column = Some key → column ∈ map fst (columns df).
Proof.
  unfold control_key. destruct (col_dtype _ _) as [d|] eqn:E; [|done].
  intros _. by eapply col_dtype_elem.
Qed.

(** C1 (amended). For every table and every session state, take the frame
    and the state a run of [create_filter_sidebar] returns.  Every row of
    the frame lies, for every column the run renders a control for, inside
    the selection that control holds: among the chosen values of a
    categorical column, with its number, as the float the comparison makes
    of it, within the closed interval of a numeric one, with its date within
    the closed date interval of a temporal one.  A categorical selection
    that is empty restricts nothing ([in_selection] is true of it). *)
Theorem retained_rows_in_selection (L : Lib) (df : DataFrame) (ss : session_state)
    (r : list cell) (column key : string) (sel : wvalue) :
  r ∈ rows (create_filter_sidebar L df ss).1 →
  control_key df column = Some key →
  (create_filter_sidebar L df ss).2 !! key = Some sel →
  in_selection (row_get (columns df) column r) sel.
Proof.
  unfold create_filter_sidebar.
  destruct (radio _ _ _) as [style ss1].
  intros Hr Hkey Hsel.
  destruct (filter_columns_respected L style df (map fst (columns df)) [] (df, ss1))
    as [_ Hinv].
  { split; [done|]. intros ? ? Hin. by apply elem_of_nil in Hin. }
  destruct (Hinv column key) as (sel' & Hsel' & Hrows); [|done|].
  { simpl. by eapply control_key_elem. }
  rewrite Hsel in Hsel'. injection Hsel' as <-. by apply Hrows.
Qed.

(** The theorem at the scenario table, with the slider narrowed to
    [15, 30]: the row (A, 20) is retained and lies inside. *)
Lemma retained_rows_in_selection_witness :
  [Str "A"; Num 20] ∈ rows (create_filter_sidebar plain scenario_table narrowed_od).1
  ∧ control_key scenario_table "Pipe OD" = Some "slider_Pipe OD"
  ∧ (create_filter_sidebar plain scenario_table narrowed_od).2 !! "slider_Pipe OD"
    = Some (WRange 15 30)
  ∧ in_selection (row_get (columns scenario_table) "Pipe OD" [Str "A"; Num 20])
      (WRange 15 30).
Proof.
  assert ([Str "A"; Num 20]
          ∈ rows (create_filter_sidebar plain scenario_table narrowed_od).1) as Hr.
  { apply list_elem_of_In. vm_compute. auto. }
  assert (control_key scenario_table "Pipe OD" = Some "slider_Pipe OD") as Hkey
    by reflexivity.
  assert ((create_filter_sidebar plain scenario_table narrowed_od).2 !! "slider_Pipe OD"
          = Some (WRange 15 30)) as Hsel by (vm_compute; reflexivity).
  split; [exact Hr|]. split; [exact Hkey|]. split; [exact Hsel|].
  exact (retained_rows_in_selection plain scenario_table narrowed_od
           [Str "A"; Num 20] "Pipe OD" "slider_Pipe OD" (WRange 15 30) Hr Hkey Hsel).
Defined.

(** C1, the claim as stated fails for integers beyond 2^53: with nothing
    selected the slider of [big_od] holds the floats of the least and the
    greatest number, and the row of the least number is retained although
    the number is below the interval. *)
Lemma big_number_below_its_range :
  [Num 9007199254740995] ∈ rows (create_filter_sidebar plain big_od ∅).1
  ∧ (create_filter_sidebar plain big_od ∅).2 !! "slider_Pipe OD"
    = Some (WRange 9007199254740996 9007199254741092)
  ∧ ¬ (9007199254740996 <= 9007199254740995)%Q.
Proof.
  split; [apply list_elem_of_In; vm_compute; auto|].
  split; [by vm_compute|]. intros H. by vm_compute in H.
Qed.

(** In the Multiselect style a selection that is stored when the run starts
    is the one the control holds when it ends, unless its key is the
    radio's. *)
Lemma filter_column_keeps_stored L df acc column column' key d sel :
  control_key df column = Some key →
  col_dtype (columns df) column = Some d →
  kind_matches (classify d column) sel = true →
  acc.2 !! key = Some sel →
  (filter_column L "Multiselect" df acc column').2 !! key = Some sel.
Proof.
  intros Hkey Hd Hkind Hsel.
  destruct (decide (column = column')) as [<-|Hne].
  - destruct acc as [fd ss]. simpl in Hsel.
    unfold control_key in Hkey. unfold filter_column. rewrite Hd in *.
    destruct (classify d column); [| | |done].
    + destruct sel as [l| | | | |]; try done.
      unfold categorical_filter. destruct (0 <? _)%nat; [|done].
      injection Hkey as <-.
      change (String.eqb "Multiselect" "Multiselect") with true. cbv iota.
      unfold multiselect, widget. rewrite Hsel. simpl. by destruct l.
    + destruct sel as [|lo hi| | | |]; try done.
      unfold numeric_filter. destruct (negb (forallb _ _)); [|done].
      destruct (series_min _); [|done]. destruct (series_max _); [|done].
      destruct (negb (Qeq_bool _ _)); [|done]. injection Hkey as <-.
      unfold slider, widget. by rewrite Hsel.
    + destruct sel as [| |ds| | |]; try done.
      unfold date_filter. destruct (0 <? _)%nat; [|done].
      destruct (ts_min _); [|done]. destruct (ts_max _); [|done].
      injection Hkey as <-.
      unfold date_input, widget. rewrite Hsel. simpl.
      by destruct ds as [|a [|b [|c ds]]].
  - destruct (control_key_other df column key column' Hkey) as (? & ? & ? & ?);
      [done|].
    by rewrite filter_column_frame.
Qed.

Lemma multiselect_style_radio (ss : session_state) :
  multiselect_style ss →
  radio "filter_style" "Multiselect" ss = ("Multiselect", ss)
  ∨ radio "filter_style" "Multiselect" ss
    = ("Multiselect", <["filter_style" := WStr "Multiselect"]> ss).
Proof.
  unfold radio, widget. intros [-> | ->]; simpl; auto.
Qed.

Lemma stored_selection_kept L df ss column key d sel :
  multiselect_style ss →
  key ≠ "filter_style" →
  control_key df column = Some key →
  col_dtype (columns df) column = Some d →
  kind_matches (classify d column) sel = true →
  ss !! key = Some sel →
  (create_filter_sidebar L df ss).2 !! key = Some sel.
Proof.
  intros Hstyle Hne Hkey Hd Hkind Hsel.
  unfold create_filter_sidebar.
  destruct (radio "filter_style" "Multiselect" ss) as [style ss1] eqn:E.
  assert (style = "Multiselect" ∧ ss1 !! key = Some sel) as [-> Hsel1].
  { destruct (multiselect_style_radio ss Hstyle) as [E'|E'];
      rewrite E' in E; injection E as <- <-; [done|].
    by rewrite lookup_insert_ne. }
  clear E. generalize (df, ss1) (Hsel1 : (df, ss1).2 !! key = Some sel).
  induction (map fst (columns df)) as [|c names IH]; intros acc Hacc; simpl; [done|].
  apply IH. by eapply filter_column_keeps_stored.
Qed.

(** ** Rows with a missing number are dropped *)

(** What one pass establishes of the rows holds of the final rows. *)
Lemma filter_columns_established L style df (P : list cell → Prop) column names acc :
  (∀ acc', columns acc'.1 = columns df →
           ∀ r, r ∈ rows (filter_column L style df acc' column).1 → P r) →
  column ∈ names →
  columns acc.1 = columns df →
  ∀ r, r ∈ rows (foldl (filter_column L style df) acc names).1 → P r.
Proof.
  intros Hstep. revert acc.
  induction names as [|c names IH]; intros acc Hin Hcols r Hr; simpl in *.
  - by apply elem_of_nil in Hin.
  - destruct (decide (column = c)) as [<-|Hne].
    + apply (Hstep acc Hcols).
      destruct (filter_columns_narrows L style df names
                  (filter_column L style df acc column)) as [_ Hsub].
      by eapply sublist_subseteq.
    + apply elem_of_cons in Hin as [?|Hin]; [done|].
      apply (IH (filter_column L style df acc c)); [done| |done].
      destruct (filter_column_narrows L style df acc c) as [Hc _]. congruence.
Qed.

Lemma series_min_notna (s : list cell) (q : Q) :
  series_min s = Some q → negb (forallb isna s) = true.
Proof.
  unfold series_min. intros H.
  assert (numbers s ≠ []) as Hne by (by destruct (numbers s)).
  clear H. induction s as [|[] s IH]; simpl in *; auto.
Qed.

(** C10. In a table with a numeric column whose minimum and maximum differ,
    whatever the session state holds for the column's slider (nothing, so
    that the slider stands at its full range, or any pair), no row whose
    value in that column is missing is in the filtered frame. *)
Theorem missing_number_rows_excluded (L : Lib) (df : DataFrame) (ss : session_state)
    (column : string) (min_val max_val : Q) (r : list cell) :
  col_dtype (columns df) column = Some numeric →
  series_min (series df column) = Some min_val →
  series_max (series df column) = Some max_val →
  ¬ (min_val == max_val)%Q →
  isna (row_get (columns df) column r) = true →
  r ∉ rows (create_filter_sidebar L df ss).1.
Proof.
  intros Hd Hmin Hmax Hne Hna Hr.
  unfold create_filter_sidebar in Hr.
  destruct (radio _ _ _) as [style ss1].
  assert (∃ q, row_get (columns df) column r = Num q) as [q Hq];
    [|by rewrite Hq in Hna].
  clear Hna. revert r Hr.
  apply (filter_columns_established L style df _ column); [|by eapply col_dtype_elem|done].
  intros [fd ss'] Hcols r. simpl in Hcols.
  unfold filter_column. rewrite Hd. simpl.
  assert (negb (Qeq_bool min_val max_val) = true) as Hneb.
  { apply negb_true_iff, not_true_is_false. by rewrite Qeq_bool_iff. }
  destruct (numeric_filter_respects df column fd ss' min_val max_val Hcols
              (series_min_notna _ _ Hmin) Hmin Hmax Hneb) as (lo & hi & _ & Hrows).
  intros Hr. destruct (Hrows r Hr) as (q & ? & _). by exists q.
Qed.

(** The theorem at [od_with_gap] with nothing selected: the row without a
    number is not in the result. *)
Lemma missing_number_rows_excluded_witness :
  col_dtype (columns od_with_gap) "Pipe OD" = Some numeric
  ∧ series_min (series od_with_gap "Pipe OD") = Some 10%Q
  ∧ series_max (series od_with_gap "Pipe OD") = Some 20%Q
  ∧ ¬ (10 == 20)%Q
  ∧ isna (row_get (columns od_with_gap) "Pipe OD" [NaN]) = true
  ∧ [NaN] ∉ rows (create_filter_sidebar plain od_with_gap ∅).1.
Proof.
  assert (¬ (10 == 20)%Q) as Hne by (intros H; vm_compute in H; discriminate H).
  repeat (split; [first [reflexivity|exact Hne]|]).
  apply (missing_number_rows_excluded plain od_with_gap ∅ "Pipe OD" 10%Q 20%Q [NaN]);
    first [reflexivity|exact Hne].
Defined.

(** ** Selections that restrict nothing *)

Lemma filter_all {A : Type} (p : A → bool) (l : list A) :
  (∀ x, x ∈ l → p x = true) → List.filter p l = l.
Proof.
  intros H. apply forallb_filter_id, forallb_forall.
  intros x Hx. by apply H, list_elem_of_In.
Qed.

Lemma mask_rows_all (df : DataFrame) (mask : list cell → bool) :
  (∀ r, r ∈ rows df → mask r = true) → mask_rows df mask = df.
Proof.
  intros H. destruct df as [cols rws]. unfold mask_rows; simpl in *.
  by rewrite filter_all.
Qed.

Lemma Qle_bool_false (a b : Q) : Qle_bool a b = false → (b <= a)%Q.
Proof.
  intros H. apply Qlt_le_weak, Qnot_le_lt. rewrite <- Qle_bool_iff. congruence.
Qed.

Lemma foldl_Qminb_le (a : Q) (l : list Q) :
  (foldl Qminb a l <= a)%Q ∧ ∀ x, x ∈ l → (foldl Qminb a l <= x)%Q.
Proof.
  revert a. induction l as [|b l IH]; intros a; simpl.
  - split; [apply Qle_refl|]. intros x Hx. by apply elem_of_nil in Hx.
  - destruct (IH (Qminb a b)) as [H1 H2].
    assert ((Qminb a b <= a)%Q ∧ (Qminb a b <= b)%Q) as [Ha Hb].
    { unfold Qminb. destruct (Qle_bool a b) eqn:E.
      - split; [apply Qle_refl|by apply Qle_bool_iff].
      - split; [by apply Qle_bool_false|apply Qle_refl]. }
    split; [by eapply Qle_trans|].
    intros x [->|Hx]%elem_of_cons; [by eapply Qle_trans|by apply H2].
Qed.

Lemma foldl_Qmaxb_ge (a : Q) (l : list Q) :
  (a <= foldl Qmaxb a l)%Q ∧ ∀ x, x ∈ l → (x <= foldl Qmaxb a l)%Q.
Proof.
  revert a. induction l as [|b l IH]; intros a; simpl.
  - split; [apply Qle_refl|]. intros x Hx. by apply elem_of_nil in Hx.
  - destruct (IH (Qmaxb a b)) as [H1 H2].
    assert ((a <= Qmaxb a b)%Q ∧ (b <= Qmaxb a b)%Q) as [Ha Hb].
    { unfold Qmaxb. destruct (Qle_bool a b) eqn:E.
      - split; [by apply Qle_bool_iff|apply Qle_refl].
      - split; [apply Qle_refl|by apply Qle_bool_false]. }
    split; [by eapply Qle_trans|].
    intros x [->|Hx]%elem_of_cons; [by eapply Qle_trans|by apply H2].
Qed.

Lemma elem_of_numbers (s : list cell) (q : Q) : Num q ∈ s → q ∈ numbers s.
Proof.
  induction s as [|c s IH]; intros H; [by apply elem_of_nil in H|].
  apply elem_of_cons in H as [<-|H]; simpl; [apply list_elem_of_here|].
  destruct c; auto. by apply list_elem_of_further, IH.
Qed.

(** The bounds of the slider, the floats of the minimum and the maximum of
    the series, bound the floats of its numbers. *)
Lemma series_bounds (s : list cell) (min_val max_val q : Q) :
  series_min s = Some min_val → series_max s = Some max_val → Num q ∈ s →
  (min_val <= float q)%Q ∧ (float q <= max_val)%Q.
Proof.
  unfold series_min, series_max. intros Hmin Hmax Hq%elem_of_numbers.
  destruct (numbers s) as [|a l]; [done|].
  injection Hmin as <-. injection Hmax as <-.
  destruct (foldl_Qminb_le a l) as [? ?], (foldl_Qmaxb_ge a l) as [? ?].
  split; apply float_mono; apply elem_of_cons in Hq as [->|Hq]; auto.
Qed.

Lemma foldl_Zmin_le (a : Z) (l : list Z) :
  (foldl Z.min a l ≤ a)%Z ∧ ∀ x, x ∈ l → (foldl Z.min a l ≤ x)%Z.
Proof.
  revert a. induction l as [|b l IH]; intros a; simpl.
  - split; [lia|]. intros x Hx. by apply elem_of_nil in Hx.
  - destruct (IH (Z.min a b)) as [H1 H2]. split; [lia|].
    intros x [->|Hx]%elem_of_cons; [lia|by apply H2].
Qed.

Lemma foldl_Zmax_ge (a : Z) (l : list Z) :
  (a ≤ foldl Z.max a l)%Z ∧ ∀ x, x ∈ l → (x ≤ foldl Z.max a l)%Z.
Proof.
  revert a. induction l as [|b l IH]; intros a; simpl.
  - split; [lia|]. intros x Hx. by apply elem_of_nil in Hx.
  - destruct (IH (Z.max a b)) as [H1 H2]. split; [lia|].
    intros x [->|Hx]%elem_of_cons; [lia|by apply H2].
Qed.

Lemma elem_of_timestamps (s : list cell) (t : Z) : Ts t ∈ s → t ∈ timestamps s.
Proof.
  induction s as [|c s IH]; intros H; [by apply elem_of_nil in H|].
  apply elem_of_cons in H as [<-|H]; simpl; [apply list_elem_of_here|].
  destruct c; auto. by apply list_elem_of_further, IH.
Qed.

Lemma date_of_ts_mono (s t : Z) : (s ≤ t)%Z → (date_of_ts s ≤ date_of_ts t)%Z.
Proof. intros H. unfold date_of_ts. by apply Z.div_le_mono. Qed.

(** The first and the last date of a series bound the dates of its
    timestamps. *)
Lemma ts_bounds (s : list cell) (lo hi t : Z) :
  ts_min s = Some lo → ts_max s = Some hi → Ts t ∈ s →
  (date_of_ts lo ≤ date_of_ts t)%Z ∧ (date_of_ts t ≤ date_of_ts hi)%Z.
Proof.
  unfold ts_min, ts_max. intros Hmin Hmax Ht%elem_of_timestamps.
  destruct (timestamps s) as [|a l]; [done|].
  injection Hmin as <-. injection Hmax as <-.
  destruct (foldl_Zmin_le a l) as [? ?], (foldl_Zmax_ge a l) as [? ?].
  split; apply date_of_ts_mono;
    apply elem_of_cons in Ht as [->|Ht]; auto.
Qed.

Lemma elem_of_series (df : DataFrame) (column : string) (r : list cell) :
  r ∈ rows df → row_get (columns df) column r ∈ series df column.
Proof. intros H. unfold series. by apply list_elem_of_fmap_2. Qed.

Lemma elem_of_dropna (s : list cell) (c : cell) :
  c ∈ dropna s ↔ c ∈ s ∧ notna c = true.
Proof. unfold dropna. rewrite !list_elem_of_In. apply filter_In. Qed.

Lemma range_complete_rows (df : DataFrame) (column key : string) (d : dtype)
    (r : list cell) :
  range_complete df = true →
  control_key df column = Some key → col_dtype (columns df) column = Some d →
  r ∈ rows df → present_for d (row_get (columns df) column r) = true.
Proof.
  unfold range_complete. rewrite forallb_forall. intros H Hkey Hd Hr.
  specialize (H column). rewrite Hkey, Hd in H.
  rewrite forallb_forall in H. apply H.
  - apply list_elem_of_In. by eapply col_dtype_elem.
  - by apply list_elem_of_In.
Qed.

Lemma all_inside_insert (df : DataFrame) (ss : session_state) (key : string)
    (v : wvalue) :
  all_inside df ss →
  (∀ column r, control_key df column = Some key → r ∈ rows df →
               in_selection (row_get (columns df) column r) v) →
  all_inside df (<[key := v]> ss).
Proof.
  intros Hin Hv column key' sel r Hkey Hsel Hr.
  destruct (decide (key = key')) as [<-|Hne].
  - rewrite lookup_insert_eq in Hsel. injection Hsel as <-. by apply Hv.
  - rewrite lookup_insert_ne in Hsel by done. by eapply Hin.
Qed.

(** In the Multiselect style, a pass over a state of which every row is
    inside leaves the frame as it is. *)
Lemma filter_column_all_inside L df acc column :
  range_complete df = true → acc.1 = df → all_inside df acc.2 →
  (filter_column L "Multiselect" df acc column).1 = df
  ∧ all_inside df (filter_column L "Multiselect" df acc column).2.
Proof.
  destruct acc as [fd ss]. simpl. intros Hrc -> Hin.
  unfold filter_column.
  destruct (col_dtype _ _) as [d|] eqn:Hd; [|done].
  destruct (classify d column) eqn:Hk; [| | |done].
  - unfold categorical_filter.
    destruct (0 <? _)%nat eqn:Hg; [|done].
    assert (control_key df column = Some ("filter_" ++ column)) as Hkey.
    { unfold control_key. by rewrite Hd, Hk, Hg. }
    change (String.eqb "Multiselect" "Multiselect") with true. cbv iota.
    unfold multiselect, widget, get_list.
    destruct (ss !! ("filter_" ++ column) ≫= as_list) as [sel|] eqn:E; simpl.
    + apply as_list_Some in E.
      destruct sel as [|v vs]; [done|]. split; [|done].
      apply mask_rows_all. intros r Hr. by apply (Hin column _ _ r Hkey E).
    + split; [done|]. apply all_inside_insert; [done|]. by intros.
  - unfold numeric_filter.
    destruct (negb (forallb _ _)) eqn:H1; [|done].
    destruct (series_min _) as [mn|] eqn:H2; [|done].
    destruct (series_max _) as [mx|] eqn:H3; [|done].
    destruct (negb (Qeq_bool _ _)) eqn:H4; [|done].
    assert (control_key df column = Some ("slider_" ++ column)) as Hkey.
    { unfold control_key. by rewrite Hd, Hk, H1, H2, H3, H4. }
    assert (d = numeric) as ->.
    { unfold classify, is_numeric_dtype in Hk. destruct d; simpl in Hk; try done.
      by destruct (Py.contains _ _). }
    assert (∀ r, r ∈ rows df →
              in_selection (row_get (columns df) column r) (WRange mn mx)) as Hdef.
    { intros r Hr.
      pose proof (range_complete_rows df column _ numeric r Hrc Hkey Hd Hr) as Hp.
      destruct (row_get (columns df) column r) as [| |q| |] eqn:Hv; try done.
      exists q. split; [done|].
      apply (series_bounds (series df column)); [done..|].
      rewrite <- Hv. by apply elem_of_series. }
    unfold slider, widget.
    destruct (ss !! ("slider_" ++ column) ≫= as_range) as [rg|] eqn:E; simpl.
    + apply as_range_Some in E. split; [|done].
      apply mask_rows_all. intros r Hr. apply in_range.
      by apply (Hin column _ _ r Hkey E).
    + split.
      * apply mask_rows_all. intros r Hr. apply in_range. by apply Hdef.
      * apply all_inside_insert; [done|]. intros c r Hc Hr.
        rewrite (control_key_inj df c column _ Hc Hkey). by apply Hdef.
  - unfold date_filter.
    destruct (0 <? _)%nat eqn:H1; [|done].
    destruct (ts_min _) as [lo|] eqn:H2; [|done].
    destruct (ts_max _) as [hi|] eqn:H3; [|done].
    assert (control_key df column = Some ("date_" ++ column)) as Hkey.
    { unfold control_key. by rewrite Hd, Hk, H1, H2, H3. }
    assert (d = datetime64) as ->.
    { unfold classify, is_numeric_dtype in Hk. by destruct d. }
    assert (∀ r, r ∈ rows df →
              in_selection (row_get (columns df) column r)
                (WDates [date_of_ts lo; date_of_ts hi])) as Hdef.
    { intros r Hr.
      pose proof (range_complete_rows df column _ datetime64 r Hrc Hkey Hd Hr) as Hp.
      destruct (row_get (columns df) column r) as [| | |t|] eqn:Hv; try done.
      exists t. split; [done|].
      apply (ts_bounds (dropna (series df column))); [done..|].
      apply elem_of_dropna. split; [|done].
      rewrite <- Hv. by apply elem_of_series. }
    unfold date_input, widget.
    destruct (ss !! ("date_" ++ column) ≫= as_dates) as [ds|] eqn:E; simpl.
    + apply as_dates_Some in E.
      destruct ds as [|a [|b [|c ds]]]; simpl; (split; [|done]); try done.
      apply mask_rows_all. intros r Hr. apply in_date_range.
      by apply (Hin column _ _ r Hkey E).
    + split.
      * apply mask_rows_all. intros r Hr. apply in_date_range. by apply Hdef.
      * apply all_inside_insert; [done|]. intros c r Hc Hr.
        rewrite (control_key_inj df c column _ Hc Hkey). by apply Hdef.
Qed.

Lemma filter_columns_all_inside L df names acc :
  range_complete df = true → acc.1 = df → all_inside df acc.2 →
  (foldl (filter_column L "Multiselect" df) acc names).1 = df.
Proof.
  intros Hrc. revert acc. induction names as [|c names IH]; intros acc Hdf Hin; simpl.
  - done.
  - destruct (filter_column_all_inside L df acc c Hrc Hdf Hin) as [? ?]. by apply IH.
Qed.

(** With the radio at "Multiselect" and every row inside whatever the state
    holds, the filter returns the table. *)
Lemma all_inside_identity L df ss :
  range_complete df = true → multiselect_style ss → all_inside df ss →
  (create_filter_sidebar L df ss).1 = df.
Proof.
  intros Hrc Hstyle Hin. unfold create_filter_sidebar.
  destruct (multiselect_style_radio ss Hstyle) as [-> | ->].
  - by apply filter_columns_all_inside.
  - apply filter_columns_all_inside; [done..|].
    apply all_inside_insert; [done|]. by intros.
Qed.

(** ** No selection, and "Clear All" *)

Lemma clear_keys_lookup_Some (key : string → string) (l : list string)
    (ss : session_state) (k : string) (v : wvalue) :
  foldl (λ ss col, delete (key col) ss) ss l !! k = Some v → ss !! k = Some v.
Proof.
  revert ss. induction l as [|c l IH]; intros ss; simpl; [done|].
  intros H%IH. by apply lookup_delete_Some in H as [_ ?].
Qed.

Lemma clear_keys_lookup_None (key : string → string) (l : list string)
    (ss : session_state) (column : string) :
  column ∈ l → foldl (λ ss col, delete (key col) ss) ss l !! key column = None.
Proof.
  revert ss. induction l as [|c l IH]; intros ss Hin; simpl.
  - by apply elem_of_nil in Hin.
  - destruct (decide (column = c)) as [<-|Hne].
    + destruct (foldl _ _ _ !! key column) as [v|] eqn:E; [|done].
      apply clear_keys_lookup_Some in E. by rewrite lookup_delete_eq in E.
    + apply elem_of_cons in Hin as [?|Hin]; [done|]. by apply IH.
Qed.

Lemma clear_all_lookup (df : DataFrame) (ss : session_state) (k : string) :
  clear_all df ss !! k = None ∨ clear_all df ss !! k = ss !! k.
Proof.
  destruct (clear_all df ss !! k) as [v|] eqn:E; [right|by left].
  unfold clear_all in E. by apply clear_keys_lookup_Some in E.
Qed.

Lemma control_key_dtype (df : DataFrame) (column key : string) :
  control_key df column = Some key →
  ∃ d, col_dtype (columns df) column = Some d
       ∧ match classify d column with
         | Categorical => key = "filter_" ++ column
         | Numeric => key = "slider_" ++ column ∧ d = numeric
         | Temporal => key = "date_" ++ column ∧ d = datetime64
         | NoControl => False
         end.
Proof.
  unfold control_key. destruct (col_dtype _ _) as [d|]; [|done].
  intros H. exists d. split; [done|].
  destruct (classify d column) eqn:Hk; [| | |done].
  - destruct (0 <? _)%nat; [|done]. by injection H as <-.
  - destruct (negb (forallb _ _)); [|done].
    destruct (series_min _); [|done]. destruct (series_max _); [|done].
    destruct (negb (Qeq_bool _ _)); [|done]. injection H as <-. split; [done|].
    unfold classify, is_numeric_dtype in Hk. destruct d; simpl in Hk; try done.
    by destruct (Py.contains _ _).
  - destruct (0 <? _)%nat; [|done].
    destruct (ts_min _); [|done]. destruct (ts_max _); [|done].
    injection H as <-. split; [done|].
    unfold classify, is_numeric_dtype in Hk. by destruct d.
Qed.

(** Sliders and date ranges that stand at their full range hold every row
    of a table without missing values in their columns. *)
Lemma full_ranges_inside (df : DataFrame) (ss : session_state) (column key : string)
    (sel : wvalue) (r : list cell) :
  range_complete df = true → full_ranges df ss = true →
  control_key df column = Some key → key ≠ "filter_" ++ column →
  ss !! key = Some sel → r ∈ rows df →
  in_selection (row_get (columns df) column r) sel.
Proof.
  intros Hrc Hfull Hkey Hne Hsel Hr.
  unfold full_ranges in Hfull. rewrite forallb_forall in Hfull.
  specialize (Hfull column). rewrite Hkey, Hsel in Hfull.
  destruct (control_key_dtype df column key Hkey) as (d & Hd & Hkind).
  rewrite Hd in Hfull.
  pose proof (range_complete_rows df column key d r Hrc Hkey Hd Hr) as Hp.
  assert (column ∈ map fst (columns df)) as Hin by by eapply control_key_elem.
  apply list_elem_of_In, Hfull in Hin. clear Hfull.
  destruct (classify d column); [done| | |done].
  - destruct Hkind as [_ ->].
    destruct sel as [|lo hi| | | |]; try done.
    destruct (series_min _) as [mn|] eqn:Hmin; [|done].
    destruct (series_max _) as [mx|] eqn:Hmax; [|done].
    apply andb_true_iff in Hin as [Hlo%Qeq_bool_iff Hhi%Qeq_bool_iff].
    destruct (row_get (columns df) column r) as [| |q| |] eqn:Hv; try done.
    exists q. split; [done|]. rewrite Hlo, Hhi.
    apply (series_bounds (series df column)); [done..|].
    rewrite <- Hv. by apply elem_of_series.
  - destruct Hkind as [_ ->].
    destruct sel as [| |ds| | |]; try done.
    destruct (ts_min _) as [lo|] eqn:Hmin; [|done].
    destruct (ts_max _) as [hi|] eqn:Hmax; [|done].
    apply bool_decide_eq_true in Hin as ->.
    destruct (row_get (columns df) column r) as [| | |t|] eqn:Hv; try done.
    exists t. split; [done|].
    apply (ts_bounds (dropna (series df column))); [done..|].
    apply elem_of_dropna. split; [|done].
    rewrite <- Hv. by apply elem_of_series.
Qed.

(** C3 (amended). Take a table whose columns have names of their own, none
    of them an object column called "style", and in which no column with a
    rendered slider or date range has a missing value.  On the empty
    session state [create_filter_sidebar] returns the table unchanged; and
    so it does on the state "Clear All" leaves, when the radio stands at
    "Multiselect" and every slider and date range the state holds stands at
    its full range ("Clear All" deletes the categorical entries only). *)
Theorem no_selection_returns_table (L : Lib) (df : DataFrame) :
  well_keyed df = true →
  range_complete df = true →
  (create_filter_sidebar L df ∅).1 = df
  ∧ ∀ ss : session_state,
      multiselect_style ss →
      full_ranges df ss = true →
      (create_filter_sidebar L df (clear_all df ss)).1 = df.
Proof.
  intros _ Hrc. split.
  - apply all_inside_identity; [done|by left|].
    intros column key sel r _ H. by rewrite lookup_empty in H.
  - intros ss Hstyle Hfull. apply all_inside_identity; [done| |].
    + destruct (clear_all_lookup df ss "filter_style") as [E|E]; [by left|].
      unfold multiselect_style. by rewrite E.
    + intros column key sel r Hkey Hsel Hr.
      destruct (decide (key = "filter_" ++ column)) as [->|Hne].
      * unfold clear_all in Hsel.
        rewrite (clear_keys_lookup_None (λ col, "filter_" ++ col)) in Hsel; [done|].
        by eapply control_key_elem.
      * unfold clear_all in Hsel. apply clear_keys_lookup_Some in Hsel.
        by apply (full_ranges_inside df ss column key).
Qed.

(** C3, the claim as stated fails: with no selection at all, the row of
    [od_with_gap] whose number is missing is dropped. *)
Lemma no_selection_drops_missing :
  (create_filter_sidebar plain od_with_gap ∅).1
  = {| columns := [("Pipe OD", numeric)]; rows := [ [Num 10]; [Num 20] ] |}
  ∧ (create_filter_sidebar plain od_with_gap ∅).1 ≠ od_with_gap.
Proof. split; [by vm_compute|]. by vm_compute. Qed.

(** The amended statement at the scenario table: with nothing selected, and
    after "Clear All" on the state left by a run in which country A was
    chosen (it holds the style, the chosen country and the slider at its
    full range). *)
Lemma no_selection_returns_table_witness :
  well_keyed scenario_table = true
  ∧ range_complete scenario_table = true
  ∧ (create_filter_sidebar plain scenario_table ∅).1 = scenario_table
  ∧ multiselect_style (create_filter_sidebar plain scenario_table country_A).2
  ∧ full_ranges scenario_table (create_filter_sidebar plain scenario_table country_A).2
    = true
  ∧ (create_filter_sidebar plain scenario_table
       (clear_all scenario_table
          (create_filter_sidebar plain scenario_table country_A).2)).1
    = scenario_table.
Proof.
  assert (well_keyed scenario_table = true) as Hk by (vm_compute; reflexivity).
  assert (range_complete scenario_table = true) as Hrc by (vm_compute; reflexivity).
  assert (multiselect_style (create_filter_sidebar plain scenario_table country_A).2)
    as Hstyle by (right; vm_compute; reflexivity).
  assert (full_ranges scenario_table
            (create_filter_sidebar plain scenario_table country_A).2 = true)
    as Hfull by (vm_compute; reflexivity).
  destruct (no_selection_returns_table plain scenario_table Hk Hrc) as [Hnone Hclear].
  split; [exact Hk|]. split; [exact Hrc|]. split; [exact Hnone|].
  split; [exact Hstyle|]. split; [exact Hfull|].
  exact (Hclear _ Hstyle Hfull).
Defined.

(** "Clear All" leaves a narrowed slider and the ticked checkboxes as they
    are, hence the side conditions above. *)
Example clear_all_keeps_slider :
  rows (create_filter_sidebar plain scenario_table
          (clear_all scenario_table narrowed_od)).1
  = [ [Str "A"; Num 20]; [Str "B"; Num 30] ].
Proof. by vm_compute. Qed.

Example clear_all_keeps_checkboxes :
  rows (create_filter_sidebar plain scenario_table
          (clear_all scenario_table
             (create_filter_sidebar plain scenario_table ticked_country_A).2)).1
  = [ [Str "A"; Num 10]; [Str "A"; Num 20] ].
Proof. by vm_compute. Qed.

(** ** "Select All" *)

Lemma cell_eqb_refl (a : cell) : cell_eqb a a = true.
Proof.
  destruct a; simpl; auto using String.eqb_refl, Qeq_bool_refl, Z.eqb_refl.
Qed.

Lemma cell_eqb_sym (a b : cell) : cell_eqb a b = true → cell_eqb b a = true.
Proof.
  destruct a, b; simpl; try done.
  - by rewrite String.eqb_sym.
  - apply Qeq_bool_sym.
  - by rewrite Z.eqb_sym.
  - by rewrite Z.eqb_sym.
Qed.

Lemma cell_eqb_trans (a b c : cell) :
  cell_eqb a b = true → cell_eqb b c = true → cell_eqb a c = true.
Proof.
  destruct a, b, c; simpl; try done.
  - intros ->%String.eqb_eq. done.
  - apply Qeq_bool_trans.
  - intros ->%Z.eqb_eq. done.
  - intros ->%Z.eqb_eq. done.
Qed.

(** Every value of a series is among its distinct values. *)
Lemma isin_unique (s : list cell) (v : cell) : v ∈ s → isin (unique s) v = true.
Proof.
  unfold isin. induction s as [|x s IH]; intros Hv; [by apply elem_of_nil in Hv|].
  simpl. destruct (cell_eqb v x) eqn:E; [done|]. simpl.
  apply elem_of_cons in Hv as [->|Hv]; [by rewrite cell_eqb_refl in E|].
  apply existsb_exists in IH as (y & Hy & Hvy); [|done].
  apply existsb_exists. exists y. split; [|done].
  apply filter_In. split; [done|].
  apply negb_true_iff, not_true_is_false. intros Hxy.
  rewrite (cell_eqb_trans v y x) in E; [done..|by apply cell_eqb_sym].
Qed.

Lemma in_selection_list (values : list cell) (v : cell) :
  isin values v = true → in_selection v (WList values).
Proof. by destruct values. Qed.

Lemma select_keys_kept (cond : string → bool) (val : string → wvalue)
    (l : list string) (ss : session_state) (column : string) :
  ss !! ("filter_" ++ column) = Some (val column) →
  foldl (λ ss col, if cond col then <["filter_" ++ col := val col]> ss else ss) ss l
    !! ("filter_" ++ column) = Some (val column).
Proof.
  revert ss. induction l as [|c l IH]; intros ss H; simpl; [done|].
  apply IH. destruct (cond c); [|done].
  destruct (decide (c = column)) as [->|Hne]; [by rewrite lookup_insert_eq|].
  rewrite lookup_insert_ne; [done|].
  cbv [String.append]. congruence.
Qed.

Lemma select_keys_lookup (cond : string → bool) (val : string → wvalue)
    (l : list string) (ss : session_state) (column : string) :
  column ∈ l → cond column = true →
  foldl (λ ss col, if cond col then <["filter_" ++ col := val col]> ss else ss) ss l
    !! ("filter_" ++ column) = Some (val column).
Proof.
  revert ss. induction l as [|c l IH]; intros ss Hin Hc; simpl.
  - by apply elem_of_nil in Hin.
  - destruct (decide (column = c)) as [<-|Hne].
    + apply select_keys_kept. rewrite Hc. by rewrite lookup_insert_eq.
    + apply elem_of_cons in Hin as [?|Hin]; [done|]. by apply IH.
Qed.

Lemma select_keys_other (cond : string → bool) (val : string → wvalue)
    (l : list string) (ss : session_state) (k : string) (v : wvalue) :
  (∀ col, v ≠ val col) →
  foldl (λ ss col, if cond col then <["filter_" ++ col := val col]> ss else ss) ss l
    !! k = Some v →
  ss !! k = Some v.
Proof.
  intros Hv. revert ss. induction l as [|c l IH]; intros ss; simpl; [done|].
  intros H%IH. destruct (cond c); [|done].
  destruct (decide ("filter_" ++ c = k)) as [<-|Hne].
  - rewrite lookup_insert_eq in H. injection H as <-. by destruct (Hv c).
  - by rewrite lookup_insert_ne in H.
Qed.

Lemma purely_categorical_dtype (df : DataFrame) (column : string) (d : dtype) :
  purely_categorical df = true → col_dtype (columns df) column = Some d → d = object.
Proof.
  unfold purely_categorical. intros H.
  induction (columns df) as [|[n d'] cols IH]; simpl in *; [done|].
  apply andb_true_iff in H as [Hd H].
  destruct (String.eqb n column); [|by apply IH].
  intros [= <-]. by destruct d'.
Qed.

Lemma purely_categorical_complete (df : DataFrame) :
  purely_categorical df = true → range_complete df = true.
Proof.
  intros H. unfold range_complete. apply forallb_forall. intros column _.
  destruct (control_key df column); [|done].
  destruct (col_dtype _ _) as [d|] eqn:Hd; [|done].
  rewrite (purely_categorical_dtype df column d H Hd).
  by apply forallb_forall.
Qed.

Lemma no_missing_rows (df : DataFrame) (column : string) (r : list cell) :
  no_missing df = true → column ∈ map fst (columns df) → r ∈ rows df →
  notna (row_get (columns df) column r) = true.
Proof.
  unfold no_missing. rewrite forallb_forall. intros H Hc Hr.
  apply list_elem_of_In, H in Hr. rewrite forallb_forall in Hr.
  by apply Hr, list_elem_of_In.
Qed.

Lemma object_column_listed (cols : list (string * dtype)) (column : string) :
  col_dtype cols column = Some object →
  existsb (λ nd, String.eqb nd.1 column && dtype_eqb nd.2 object) cols = true.
Proof.
  induction cols as [|[n d] cols IH]; simpl; [done|].
  destruct (String.eqb n column); simpl.
  - by intros [= ->].
  - intros H. by rewrite IH.
Qed.

Lemma select_keys_frame (cond : string → bool) (val : string → wvalue)
    (l : list string) (ss : session_state) (k : string) :
  (∀ c, c ∈ l → cond c = true → k ≠ "filter_" ++ c) →
  foldl (λ ss col, if cond col then <["filter_" ++ col := val col]> ss else ss) ss l
    !! k = ss !! k.
Proof.
  revert ss. induction l as [|c l IH]; intros ss H; simpl; [done|].
  rewrite IH by (intros; apply H; [by apply list_elem_of_further|done]).
  destruct (cond c) eqn:E; [|done].
  apply lookup_insert_ne. intros E'. by apply (H c); [apply list_elem_of_here|..].
Qed.

Lemma well_keyed_style (df : DataFrame) :
  well_keyed df = true → col_dtype (columns df) "style" ≠ Some object.
Proof.
  unfold well_keyed. intros [_ H]%andb_true_iff E. by rewrite E in H.
Qed.

Lemma col_dtype_Some (cols : list (string * dtype)) (c : string) :
  c ∈ map fst cols → is_Some (col_dtype cols c).
Proof.
  induction cols as [|[n d] cols IH]; simpl; intros H; [by apply elem_of_nil in H|].
  destruct (String.eqb n c) eqn:E; [done|].
  apply elem_of_cons in H as [->|H]; [by rewrite String.eqb_refl in E|by apply IH].
Qed.

(** C4 (amended). For every purely categorical table without missing
    values whose columns have names of their own, none of them "style",
    pressing "Select All" and filtering with the state it leaves (in the
    Multiselect style) returns the table unchanged. *)
Theorem select_all_returns_table (L : Lib) (df : DataFrame) (ss : session_state) :
  well_keyed df = true →
  purely_categorical df = true →
  no_missing df = true →
  multiselect_style ss →
  (create_filter_sidebar L df (select_all df ss)).1 = df.
Proof.
  intros Hkeys Hcat Hfull Hstyle.
  apply all_inside_identity; [by apply purely_categorical_complete| |].
  - assert (select_all df ss !! "filter_style" = ss !! "filter_style") as E.
    { unfold select_all. apply select_keys_frame. intros c Hc _ Heq.
      assert (c = "style") as -> by (cbv [String.append] in Heq; congruence).
      destruct (col_dtype_Some (columns df) "style" Hc) as [d Hd].
      apply (well_keyed_style df Hkeys).
      by rewrite Hd, (purely_categorical_dtype df "style" d Hcat Hd). }
    unfold multiselect_style. by rewrite E.
  - intros column key sel r Hkey Hsel Hr.
    pose proof (control_key_elem df column key Hkey) as Hin.
    unfold control_key in Hkey.
    destruct (col_dtype _ _) as [d|] eqn:Hd; [|done].
    pose proof (purely_categorical_dtype df column d Hcat Hd) as ->.
    simpl in Hkey. destruct (0 <? _)%nat; [|done]. injection Hkey as <-.
    unfold select_all in Hsel.
    rewrite (select_keys_lookup
               (λ col, existsb (λ nd, String.eqb nd.1 col && dtype_eqb nd.2 object)
                         (columns df))
               (λ col, WList (unique (dropna (series df col))))) in Hsel;
      [|done|by apply object_column_listed].
    injection Hsel as <-.
    apply in_selection_list, isin_unique, elem_of_dropna.
    split; [by apply elem_of_series|by apply no_missing_rows].
Qed.

(** C4, the claim as stated fails: after "Select All" the row of
    [country_with_gap] whose country is missing is dropped. *)
Lemma select_all_drops_missing :
  purely_categorical country_with_gap = true
  ∧ (create_filter_sidebar plain country_with_gap (select_all country_with_gap ∅)).1
    = {| columns := [("Country", object)]; rows := [ [Str "A"] ] |}
  ∧ (create_filter_sidebar plain country_with_gap (select_all country_with_gap ∅)).1
    ≠ country_with_gap.
Proof. split; [reflexivity|]. split; by vm_compute. Qed.

(** The amended statement at a table of countries and vessels. *)
Lemma select_all_returns_table_witness :
  well_keyed vessels = true
  ∧ purely_categorical vessels = true
  ∧ no_missing vessels = true
  ∧ multiselect_style ∅
  ∧ (create_filter_sidebar plain vessels (select_all vessels ∅)).1 = vessels.
Proof.
  assert (well_keyed vessels = true) as Hk by (vm_compute; reflexivity).
  assert (multiselect_style ∅) as Hstyle by (left; reflexivity).
  split; [exact Hk|]. split; [reflexivity|]. split; [reflexivity|].
  split; [exact Hstyle|].
  exact (select_all_returns_table plain vessels ∅ Hk eq_refl eq_refl Hstyle).
Defined.

(** ** Classification *)

(** C5. The claim fails on the code at a date column held as text, the way
    [read_csv] delivers it and the way the form's own date is stored: the
    loop tests the object dtype first, takes the categorical branch and
    renders a multiselect, where the rules of the specification say
    temporal.  The date branch is reached by datetime64 columns only. *)
Theorem text_date_column_is_categorical :
  col_dtype (columns installation_dates) "Installation Date" = Some object
  ∧ classify object "Installation Date" = Categorical
  ∧ Spec.classify "Installation Date" (series installation_dates "Installation Date")
    = Temporal
  ∧ control_key installation_dates "Installation Date" = Some "filter_Installation Date"
  ∧ (create_filter_sidebar plain installation_dates ∅).2 !! "date_Installation Date" = None
  ∧ (∀ name, classify object name = Categorical)
  ∧ (∀ f, col_dtype (columns (frame_of_record (new_data f))) "Installation Date"
          = Some object).
Proof.
  repeat split; try by vm_compute.
Qed.

(** ** The dataset store *)

Lemma pipeline_data_set (df : DataFrame) (w : World) :
  pipeline_data (set_pipeline_data df w) = Some df.
Proof. unfold pipeline_data, set_pipeline_data; simpl. by rewrite lookup_insert_eq. Qed.

(** C6 (amended). For every table with at least one row and one column,
    an upload that is saved, followed by [load_pipeline_data], returns the
    table with its column names cleaned (line breaks to spaces, trimmed). *)
Theorem upload_then_load (L : Lib) (new_df : DataFrame) (w : World) :
  writable w = true →
  empty new_df = false →
  (load_pipeline_data L (upload L (Some new_df) w)).1 = clean_columns new_df.
Proof.
  intros Hw Hne. unfold upload, save_pipeline_data. rewrite Hw.
  unfold load_pipeline_data, pipeline_data; simpl.
  rewrite lookup_insert_eq; simpl.
  replace (empty (clean_columns new_df)) with (empty new_df); [by rewrite Hne|].
  unfold empty, clean_columns; simpl. by destruct (columns new_df).
Qed.

(** C6, the claim as stated fails for a table without rows: it is read
    back from the file, and [read_csv] renames the repeated name. *)
Lemma header_only_renamed :
  clean_columns header_only = {| columns := [("a", object); ("a", object)]; rows := [] |}
  ∧ (load_pipeline_data plain (upload plain (Some header_only) fresh_world)).1
    = {| columns := [("a", object); ("a.1", object)]; rows := [] |}
  ∧ (load_pipeline_data plain (upload plain (Some header_only) fresh_world)).1
    ≠ clean_columns header_only.
Proof. repeat split; by vm_compute. Qed.

(** The amended statement at the scenario table in a fresh process. *)
Lemma upload_then_load_witness :
  writable fresh_world = true
  ∧ empty scenario_table = false
  ∧ (load_pipeline_data plain (upload plain (Some scenario_table) fresh_world)).1
    = clean_columns scenario_table.
Proof.
  split; [reflexivity|]. split; [reflexivity|].
  apply (upload_then_load plain scenario_table fresh_world); reflexivity.
Defined.

Lemma load_from_files_ext (L : Lib) (w w' : World) :
  files w' = files w → (load_from_files L w').1 = (load_from_files L w).1.
Proof.
  intros H. unfold load_from_files. rewrite H.
  destruct (files w !! "data/pipeline_data.csv") as [f|].
  { by destruct (read_csv L f). }
  destruct (files w !! "data/sample_pipeline_data.csv") as [f|]; [|done].
  by destruct (read_csv L f).
Qed.

Lemma load_ext (L : Lib) (w w' : World) :
  session w' = session w → files w' = files w →
  (load_pipeline_data L w').1 = (load_pipeline_data L w).1.
Proof.
  intros Hs Hf. unfold load_pipeline_data, pipeline_data. rewrite Hs.
  destruct (session w !! "pipeline_data" ≫= as_frame) as [df|];
    [destruct (negb (empty df)); [done|]|]; by apply load_from_files_ext.
Qed.

Lemma load_from_files_files (L : Lib) (w : World) :
  files (load_from_files L w).2 = files w.
Proof.
  unfold load_from_files.
  destruct (files w !! "data/pipeline_data.csv") as [f|].
  { by destruct (read_csv L f). }
  destruct (files w !! "data/sample_pipeline_data.csv") as [f|]; [|done].
  by destruct (read_csv L f).
Qed.

Lemma load_files (L : Lib) (w : World) : files (load_pipeline_data L w).2 = files w.
Proof.
  unfold load_pipeline_data.
  destruct (pipeline_data w) as [df|];
    [destruct (negb (empty df)); [done|]|]; apply load_from_files_files.
Qed.

Lemma load_writable (L : Lib) (w : World) :
  writable (load_pipeline_data L w).2 = writable w.
Proof.
  unfold load_pipeline_data, load_from_files.
  destruct (pipeline_data w) as [df|]; [destruct (negb (empty df)); [done|]|];
    (destruct (files w !! "data/pipeline_data.csv") as [f|];
     [by destruct (read_csv L f)|];
     destruct (files w !! "data/sample_pipeline_data.csv") as [f|]; [|done];
     by destruct (read_csv L f)).
Qed.

(** Loading again gives the table that was loaded. *)
Lemma load_again (L : Lib) (w : World) :
  (load_pipeline_data L (load_pipeline_data L w).2).1 = (load_pipeline_data L w).1.
Proof.
  assert (∀ df, (load_from_files L w).1 = df →
            (load_pipeline_data L (set_pipeline_data df w)).1 = df) as Hset.
  { intros df Hdf. unfold load_pipeline_data. rewrite pipeline_data_set.
    destruct (negb (empty df)); [done|].
    rewrite <- Hdf. by apply load_from_files_ext. }
  assert (load_pipeline_data L w = load_from_files L w →
          (load_pipeline_data L (load_from_files L w).2).1 = (load_from_files L w).1)
    as Hfiles.
  { intros Hload. unfold load_from_files in *.
    destruct (files w !! "data/pipeline_data.csv") as [f|].
    { destruct (read_csv L f) as [df|]; simpl in *; [by apply Hset|].
      rewrite (load_ext L w (show _ w)) by done. by rewrite Hload. }
    destruct (files w !! "data/sample_pipeline_data.csv") as [f|].
    { destruct (read_csv L f) as [df|]; simpl in *; [by apply Hset|].
      rewrite (load_ext L w (show _ w)) by done. by rewrite Hload. }
    simpl in *. by apply Hset. }
  unfold load_pipeline_data at 2 3.
  destruct (pipeline_data w) as [df|] eqn:E.
  - destruct (negb (empty df)) eqn:E'.
    + simpl. unfold load_pipeline_data. by rewrite E, E'.
    + apply Hfiles. unfold load_pipeline_data. by rewrite E, E'.
  - apply Hfiles. unfold load_pipeline_data. by rewrite E.
Qed.

(** C7. On storage that cannot be written, [save_pipeline_data] returns
    [False] and reports the error, and leaves the session's table and the
    files as they were; so does an upload.  A new row is refused in the same
    way: the error is reported, no file changes, a table held in the session
    stays there, and [load_pipeline_data] returns afterwards what it
    returned before. *)
Theorem failed_save_keeps_table (L : Lib) (w : World) :
  writable w = false →
  (∀ df,
     (save_pipeline_data L df w).1 = false
     ∧ error "Error saving data" ∈ shown (save_pipeline_data L df w).2
     ∧ session (save_pipeline_data L df w).2 = session w
     ∧ files (save_pipeline_data L df w).2 = files w)
  ∧ (∀ new_df,
       error "Error saving data" ∈ shown (upload L (Some new_df) w)
       ∧ session (upload L (Some new_df) w) = session w
       ∧ files (upload L (Some new_df) w) = files w)
  ∧ (∀ new_data,
       error "Error saving data" ∈ shown (add_new_pipeline_row L new_data w)
       ∧ files (add_new_pipeline_row L new_data w) = files w
       ∧ (∀ df, pipeline_data w = Some df → empty df = false →
                pipeline_data (add_new_pipeline_row L new_data w) = Some df)
       ∧ (load_pipeline_data L (add_new_pipeline_row L new_data w)).1
         = (load_pipeline_data L w).1).
Proof.
  intros Hw. split; [|split].
  - intros df. unfold save_pipeline_data. rewrite Hw. simpl.
    split; [done|]. split; [|done].
    apply elem_of_app. right. apply list_elem_of_here.
  - intros new_df. unfold upload, save_pipeline_data. rewrite Hw. simpl.
    split; [|done].
    apply elem_of_app. left. apply elem_of_app. right. apply list_elem_of_here.
  - intros new_data. unfold add_new_pipeline_row.
    destruct (load_pipeline_data L w) as [df0 w1] eqn:Hload.
    assert (writable w1 = false) as Hw1.
    { change w1 with (df0, w1).2. rewrite <- Hload. by rewrite load_writable. }
    unfold save_pipeline_data. rewrite Hw1. simpl.
    split; [|split; [|split]].
    + apply elem_of_app. left. apply elem_of_app. right. apply list_elem_of_here.
    + change w1 with (df0, w1).2. rewrite <- Hload. apply load_files.
    + intros df Hdf Hne. unfold load_pipeline_data in Hload.
      rewrite Hdf, Hne in Hload. simpl in Hload. by injection Hload as <- <-.
    + rewrite (load_ext L w1) by done.
      change w1 with (df0, w1).2. change df0 with (df0, w1).1 at 2.
      rewrite <- Hload. apply load_again.
Qed.

(** The theorem on storage that cannot be written, with the scenario table
    in the session: the table is still there after the refused row. *)
Lemma failed_save_keeps_table_witness :
  writable read_only_world = false
  ∧ pipeline_data
      (add_new_pipeline_row plain (new_data negative_angle_form) read_only_world)
    = Some scenario_table.
Proof.
  split; [reflexivity|].
  destruct (failed_save_keeps_table plain read_only_world) as (_ & _ & Hadd);
    [reflexivity|].
  destruct (Hadd (new_data negative_angle_form)) as (_ & _ & Hkeep & _).
  apply Hkeep; reflexivity.
Defined.

(** A row appended to the scenario table: four rows, and the new row has
    no value in the column it does not name. *)
Example append_scenario :
  let w := add_new_pipeline_row plain [("Country", Str "C"); ("Project", Str "X")]
             (upload plain (Some scenario_table) fresh_world) in
  (rows <$> pipeline_data w)
  = Some [ [Str "A"; Num 10; NaN]; [Str "A"; Num 20; NaN]; [Str "B"; Num 30; NaN];
           [Str "C"; NaN; Str "X"] ].
Proof. by vm_compute. Qed.

(** ** Manual row entry *)

(** C8 (amended). In the record a submitted form stores, each of the seven
    numeric fields with a minimum of zero is the empty text when the entered
    value is zero or less and the number otherwise; each of the two JLT
    angle fields is the empty text exactly when the entered value is zero,
    and the number otherwise, negative angles included. *)
Theorem numeric_fields_stored (f : AddRowForm) :
  Forall (λ kx, record_get (new_data f) kx.1
                = Some (if Qle_bool kx.2 0 then Str "" else Num kx.2))
    (size_fields f)
  ∧ Forall (λ kx, record_get (new_data f) kx.1
                  = Some (if Qeq_bool kx.2 0 then Str "" else Num kx.2))
      (angle_fields f).
Proof.
  split; repeat apply List.Forall_cons; try apply List.Forall_nil; simpl;
    unfold if_positive, if_nonzero;
    match goal with |- context [negb ?b] => by destruct b end.
Qed.

(** C8, the claim as stated fails for the angle fields: a negative JLT
    angle is stored as the number. *)
Lemma negative_angle_stored :
  (jlt_angle negative_angle_form <= 0)%Q
  ∧ record_get (new_data negative_angle_form) "JLT Angle" = Some (Num (-5))
  ∧ record_get (new_data negative_angle_form) "JLT Angle" ≠ Some (Str "").
Proof.
  split; [by apply Qle_bool_iff|]. split; [reflexivity|]. by vm_compute.
Qed.

(** C9. A form whose country or project is blank is rejected: the submit
    shows the error and changes nothing else, so the session (the table and
    its rows with it) and the files are as before. *)
Theorem blank_mandatory_field_rejected (L : Lib) (f : AddRowForm) (w : World) :
  country f = "" ∨ project f = "" →
  submit_add_row L f w = show (error "Country and Project are required fields.") w
  ∧ session (submit_add_row L f w) = session w
  ∧ files (submit_add_row L f w) = files w
  ∧ pipeline_data (submit_add_row L f w) = pipeline_data w.
Proof.
  intros H. unfold submit_add_row.
  assert (truthy (country f) && truthy (project f) = false) as ->; [|done].
  unfold truthy. destruct H as [-> | ->]; simpl; [done|apply andb_false_r].
Qed.

(** The theorem at a form with a blank project, the scenario table in the
    session. *)
Lemma blank_mandatory_field_rejected_witness :
  (country blank_project_form = "" ∨ project blank_project_form = "")
  ∧ pipeline_data (submit_add_row plain blank_project_form read_only_world)
    = Some scenario_table.
Proof.
  assert (country blank_project_form = "" ∨ project blank_project_form = "") as H
    by (right; reflexivity).
  split; [exact H|].
  destruct (blank_mandatory_field_rejected plain blank_project_form read_only_world H)
    as (_ & _ & _ & ->).
  reflexivity.
Defined.

(** ** The main content area *)

Lemma length_filter_le {A : Type} (p : A → bool) (l : list A) :
  (length (List.filter p l) ≤ length l)%nat.
Proof.
  induction l as [|x l IH]; simpl; [done|]. destruct (p x); simpl; lia.
Qed.

Lemma length_unique_le (s : list cell) : (length (unique s) ≤ length s)%nat.
Proof.
  induction s as [|x s IH]; simpl; [done|].
  pose proof (length_filter_le (λ y, negb (cell_eqb x y)) (unique s)). lia.
Qed.

Lemma nunique_le (df : DataFrame) (name : string) :
  (nunique (series df name) ≤ length (rows df))%nat.
Proof.
  unfold nunique, series, dropna.
  pose proof (length_unique_le (List.filter notna (map (row_get (columns df) name) (rows df)))).
  pose proof (length_filter_le notna (map (row_get (columns df) name) (rows df))).
  rewrite length_map in *. lia.
Qed.

Lemma unique_count_le (df : DataFrame) (name : string) :
  (unique_count df name ≤ length (rows df))%nat.
Proof.
  unfold unique_count. destruct (has_column df name); [apply nunique_le|lia].
Qed.

(** X1. Whenever the content area is rendered, the line count is the number
    of rows of the filtered table and is at most the table's ("Showing n of
    m" has n <= m), and none of the three unique counts exceeds the line
    count. *)
Theorem indicators_bounded (L : Lib) (df : DataFrame) (ss : session_state)
    (c : Content) :
  main_content L df ss = Some c →
  total_lines (indicators c) = length (rows (table c))
  ∧ showing c = (total_lines (indicators c), length (rows df))
  ∧ (total_lines (indicators c) ≤ length (rows df))%nat
  ∧ (unique_projects (indicators c) ≤ total_lines (indicators c))%nat
  ∧ (unique_vessels (indicators c) ≤ total_lines (indicators c))%nat
  ∧ (unique_countries (indicators c) ≤ total_lines (indicators c))%nat.
Proof.
  unfold main_content. destruct (negb (empty df)); [|done].
  pose proof (filter_columns_narrows L) as Hn.
  destruct (create_filter_sidebar L df ss) as [fd ss'] eqn:E.
  intros [= <-]. simpl.
  assert (rows fd `sublist_of` rows df) as Hsub.
  { change fd with (fd, ss').1. rewrite <- E. unfold create_filter_sidebar.
    destruct (radio _ _ _) as [style ss1]. apply (Hn style df _ (df, ss1)). }
  repeat split; auto using unique_count_le. by apply sublist_length.
Qed.

Lemma indicators_bounded_witness :
  (λ c, (unique_projects (indicators c), total_lines (indicators c), showing c))
    <$> main_content plain pipe_types ∅
  = Some (3, 4, (4, 4))%nat
  ∧ (λ c, bool_decide (unique_projects (indicators c) ≤ total_lines (indicators c))%nat)
      <$> main_content plain pipe_types ∅
    = Some true.
Proof.
  split; [by vm_compute|].
  destruct (main_content plain pipe_types ∅) as [c|] eqn:E; [|by vm_compute in E].
  simpl. f_equal. apply bool_decide_eq_true.
  by destruct (indicators_bounded plain pipe_types ∅ c E) as (_ & _ & _ & ? & _).
Defined.

Lemma elem_of_insert_by_count (x e : cell * nat) (l : list (cell * nat)) :
  x ∈ insert_by_count e l ↔ x = e ∨ x ∈ l.
Proof.
  induction l as [|e' l IH]; simpl.
  - rewrite list_elem_of_singleton. split; [auto|]. intros [?|H]; [done|].
    by apply elem_of_nil in H.
  - destruct (_ <=? _)%nat.
    + by rewrite elem_of_cons.
    + rewrite !elem_of_cons, IH. tauto.
Qed.

Lemma elem_of_value_counts (s : list cell) (v : cell) (n : nat) :
  (v, n) ∈ value_counts s ↔ v ∈ unique (dropna s) ∧ n = count_of v (dropna s).
Proof.
  unfold value_counts.
  induction (unique (dropna s)) as [|u us IH]; simpl.
  - split; [intros H; by apply elem_of_nil in H|].
    intros [H _]. by apply elem_of_nil in H.
  - rewrite elem_of_insert_by_count, IH, elem_of_cons. split.
    + intros [[= -> ->]|[? ?]]; auto.
    + intros [[->|?] ->]; auto.
Qed.

Lemma elem_of_unique (s : list cell) (v : cell) : v ∈ unique s → v ∈ s.
Proof.
  induction s as [|x s IH]; simpl; [done|].
  intros [->|H]%elem_of_cons; [apply list_elem_of_here|].
  apply list_elem_of_further, IH.
  apply list_elem_of_In in H. apply filter_In in H as [H _].
  by apply list_elem_of_In.
Qed.

Lemma count_of_pos (v : cell) (s : list cell) : v ∈ s → (1 ≤ count_of v s)%nat.
Proof.
  unfold count_of. induction s as [|x s IH]; intros H; [by apply elem_of_nil in H|].
  simpl. apply elem_of_cons in H as [<-|H].
  - rewrite cell_eqb_refl. simpl. lia.
  - specialize (IH H). destruct (cell_eqb v x); simpl; lia.
Qed.

Lemma percentage_bounds (count n : nat) :
  (1 ≤ count)%nat → (count ≤ n)%nat →
  ∃ q, percentage count n = Some q ∧ (0 < q)%Q ∧ (q <= 100)%Q.
Proof.
  intros H1 Hn. unfold percentage.
  destruct (n =? 0)%nat eqn:E; [apply Nat.eqb_eq in E; lia|].
  eexists. split; [done|].
  assert (0 < inject_Z (Z.of_nat n))%Q as Hpos.
  { change 0%Q with (inject_Z 0). rewrite <- Zlt_Qlt. lia. }
  split.
  - apply Qmult_lt_0_compat; [|done].
    apply Qlt_shift_div_l; [done|]. rewrite Qmult_0_l.
    change 0%Q with (inject_Z 0). rewrite <- Zlt_Qlt. lia.
  - apply Qle_trans with (1 * 100)%Q; [|by apply Qle_bool_iff].
    apply Qmult_le_compat_r; [|done].
    apply Qle_shift_div_r; [done|]. rewrite Qmult_1_l.
    rewrite <- Zle_Qle. lia.
Qed.

(** X2. When the distribution section is rendered the filtered table has a
    row, so no share divides by zero: every entry is a present pipe type of
    the table with the number of its lines, between 1 and the line count,
    and a share above 0 and at most 100; and every present pipe type has an
    entry. *)
Theorem distribution_shares (filtered_df : DataFrame)
    (entries : list (cell * nat * option Q)) :
  distribution_details filtered_df = Some entries →
  rows filtered_df ≠ []
  ∧ (∀ v n p, (v, n, p) ∈ entries →
       notna v = true
       ∧ v ∈ series filtered_df "Pipe Type"
       ∧ n = count_of v (dropna (series filtered_df "Pipe Type"))
       ∧ (1 ≤ n ≤ length (rows filtered_df))%nat
       ∧ ∃ q, p = Some q ∧ (0 < q)%Q ∧ (q <= 100)%Q)
  ∧ (∀ v, v ∈ series filtered_df "Pipe Type" → notna v = true →
       ∃ v' n p, (v', n, p) ∈ entries ∧ cell_eqb v v' = true).
Proof.
  unfold distribution_details.
  destruct (has_column _ _ && negb (forallb isna _)) eqn:Hguard; [|done].
  intros [= <-]. apply andb_true_iff in Hguard as [_ Hna].
  split; [|split].
  - intros Hrows. unfold series in Hna. by rewrite Hrows in Hna.
  - intros v0 n0 p0 Hin.
    apply list_elem_of_fmap in Hin as ([v n] & Heq & Hin).
    simpl in Heq. injection Heq as -> -> ->.
    apply elem_of_value_counts in Hin as [Hv ->].
    apply elem_of_unique in Hv. pose proof Hv as Hv'.
    apply elem_of_dropna in Hv as [Hv Hnotna].
    assert (count_of v (dropna (series filtered_df "Pipe Type"))
            ≤ length (rows filtered_df))%nat as Hle.
    { unfold count_of, dropna, series.
      pose proof (length_filter_le (cell_eqb v)
        (List.filter notna (map (row_get (columns filtered_df) "Pipe Type")
                              (rows filtered_df)))).
      pose proof (length_filter_le notna
        (map (row_get (columns filtered_df) "Pipe Type") (rows filtered_df))).
      rewrite length_map in *. lia. }
    pose proof (count_of_pos v _ Hv').
    repeat split; try done. by apply percentage_bounds.
  - intros v Hv Hnotna.
    assert (isin (unique (dropna (series filtered_df "Pipe Type"))) v = true) as Hisin.
    { apply isin_unique, elem_of_dropna. by split. }
    apply existsb_exists in Hisin as (v' & Hv' & Heq).
    exists v', (count_of v' (dropna (series filtered_df "Pipe Type"))), 
      (percentage (count_of v' (dropna (series filtered_df "Pipe Type")))
         (length (rows filtered_df))).
    split; [|done].
    apply list_elem_of_fmap. eexists (v', _). split; [done|].
    apply elem_of_value_counts. split; [by apply list_elem_of_In|done].
Qed.

Lemma distribution_shares_witness :
  distribution_details pipe_types
  = Some [ (Str "Rigid", 2%nat, Some (200 # 4)%Q); (Str "Flexible", 1%nat, Some (100 # 4)%Q) ]
  ∧ rows pipe_types ≠ [].
Proof.
  assert (distribution_details pipe_types
          = Some [ (Str "Rigid", 2%nat, Some (200 # 4)%Q);
                   (Str "Flexible", 1%nat, Some (100 # 4)%Q) ]) as E by by vm_compute.
  split; [exact E|].
  by destruct (distribution_shares pipe_types _ E) as [? _].
Defined.

(** X3. The export of the filtered table has the table's column names, in
    the table's order, as its header, one record per retained row, and its
    records are a subsequence of the records the whole table would
    export. *)
Theorem export_matches_table (L : Lib) (df : DataFrame) (ss : session_state)
    (c : Content) :
  main_content L df ss = Some c →
  csv_data c = to_csv L (table c)
  ∧ header_of (csv_data c) = map fst (columns df)
  ∧ length (records_of (csv_data c)) = (showing c).1
  ∧ records_of (csv_data c) `sublist_of` records_of (to_csv L df).
Proof.
  unfold main_content. destruct (negb (empty df)); [|done].
  pose proof (filter_columns_narrows L) as Hn.
  destruct (create_filter_sidebar L df ss) as [fd ss'] eqn:E.
  intros [= <-]. simpl.
  assert (narrows df fd) as [Hcols Hsub].
  { change fd with (fd, ss').1. rewrite <- E. unfold create_filter_sidebar.
    destruct (radio _ _ _) as [style ss1]. apply (Hn style df _ (df, ss1)). }
  split; [done|]. split; [by rewrite Hcols|]. split; [by rewrite length_map|].
  by apply (fmap_sublist (map (to_field L))).
Qed.

Lemma export_matches_table_witness :
  csv_data <$> main_content plain vessels country_A
  = Some (Csv ["Country"; "Vessel"] [ ["A"; "V1"]; ["A"; "V2"] ])
  ∧ (λ c, header_of (csv_data c)) <$> main_content plain vessels country_A
    = Some (map fst (columns vessels)).
Proof.
  split; [by vm_compute|].
  destruct (main_content plain vessels country_A) as [c|] eqn:E; [|by vm_compute in E].
  simpl. f_equal.
  by destruct (export_matches_table plain vessels country_A c E) as (_ & ? & _).
Defined.

(** ** Loading *)

(** X4. Loading never writes a file or changes whether the storage can be
    written, and loading a second time returns the table the first load
    returned. *)
Theorem load_is_stable (L : Lib) (w : World) :
  files (load_pipeline_data L w).2 = files w
  ∧ writable (load_pipeline_data L w).2 = writable w
  ∧ (load_pipeline_data L (load_pipeline_data L w).2).1 = (load_pipeline_data L w).1.
Proof. auto using load_files, load_writable, load_again. Qed.

(** X5. A load never fails: either the returned table is the one the
    session holds afterwards and nothing is reported, or a file could not
    be read, in which case the empty frame is returned, the error is
    reported and the session is left as it was. *)
Theorem load_returns_session_table (L : Lib) (w : World) :
  (pipeline_data (load_pipeline_data L w).2 = Some (load_pipeline_data L w).1
   ∧ shown (load_pipeline_data L w).2 = shown w)
  ∨ ((load_pipeline_data L w).1 = no_frame
     ∧ session (load_pipeline_data L w).2 = session w
     ∧ shown (load_pipeline_data L w).2 = (shown w ++ [error "Error loading data"])%list).
Proof.
  unfold load_pipeline_data.
  assert ((pipeline_data (load_from_files L w).2 = Some (load_from_files L w).1
           ∧ shown (load_from_files L w).2 = shown w)
          ∨ ((load_from_files L w).1 = no_frame
             ∧ session (load_from_files L w).2 = session w
             ∧ shown (load_from_files L w).2
               = (shown w ++ [error "Error loading data"])%list)) as Hfiles.
  { unfold load_from_files.
    destruct (files w !! "data/pipeline_data.csv") as [f|].
    { destruct (read_csv L f) as [df|]; simpl; [left|right]; [|done].
      by rewrite pipeline_data_set. }
    destruct (files w !! "data/sample_pipeline_data.csv") as [f|].
    { destruct (read_csv L f) as [df|]; simpl; [left|right]; [|done].
      by rewrite pipeline_data_set. }
    left. simpl. by rewrite pipeline_data_set. }
  destruct (pipeline_data w) as [df|] eqn:E; [|done].
  destruct (negb (empty df)); [|done]. by left.
Qed.

(** X6. A first start, with no table in the session and neither file on
    disk, is not an error: the load returns the table of the sixteen default
    columns without rows and keeps it in the session, nothing is reported
    and no file is created; for this table the page shows the welcome text
    instead of filters and indicators. *)
Theorem first_start_gives_default_table (L : Lib) (w : World) (ss : session_state) :
  pipeline_data w = None →
  files w !! "data/pipeline_data.csv" = None →
  files w !! "data/sample_pipeline_data.csv" = None →
  (load_pipeline_data L w).1 = frame_of_columns default_columns
  ∧ map fst (columns (load_pipeline_data L w).1) = default_columns
  ∧ length (columns (load_pipeline_data L w).1) = 16%nat
  ∧ rows (load_pipeline_data L w).1 = []
  ∧ pipeline_data (load_pipeline_data L w).2 = Some (frame_of_columns default_columns)
  ∧ shown (load_pipeline_data L w).2 = shown w
  ∧ files (load_pipeline_data L w).2 = files w
  ∧ main_content L (load_pipeline_data L w).1 ss = None.
Proof.
  intros Hs H1 H2. unfold load_pipeline_data, load_from_files.
  rewrite Hs, H1, H2. simpl. by rewrite pipeline_data_set.
Qed.

Lemma first_start_gives_default_table_witness :
  pipeline_data fresh_world = None
  ∧ (load_pipeline_data plain fresh_world).1 = frame_of_columns default_columns.
Proof.
  split; [reflexivity|].
  by destruct (first_start_gives_default_table plain fresh_world ∅) as [? _].
Defined.

(** ** Appending a row *)

Lemma col_dtype_None (cols : list (string * dtype)) (c : string) :
  col_dtype cols c = None ↔ c ∉ map fst cols.
Proof.
  split.
  - intros E H. apply col_dtype_Some in H as [d H]. congruence.
  - intros H. destruct (col_dtype cols c) as [d|] eqn:E; [|done].
    by apply col_dtype_elem in E.
Qed.

Lemma row_get_absent (cols : list (string * dtype)) (c : string) (r : list cell) :
  col_dtype cols c = None → row_get cols c r = NaN.
Proof.
  unfold row_get. intros H.
  assert (col_index cols c = None) as ->; [|done].
  induction cols as [|[n d] cols IH]; simpl in *; [done|].
  destruct (String.eqb n c); [done|]. by rewrite IH.
Qed.

(** Reading column [c] off a row that was laid out along [cols]. *)
Lemma row_get_laid_out (cols : list (string * dtype)) (f : string * dtype → cell)
    (c : string) :
  row_get cols c (map f cols)
  = match col_dtype cols c with Some d => f (c, d) | None => NaN end.
Proof.
  unfold row_get. induction cols as [|[n d] cols IH]; simpl; [done|].
  destruct (String.eqb n c) eqn:E.
  - by apply String.eqb_eq in E as ->.
  - destruct (col_index cols c) as [i|]; simpl in *; [done|].
    by destruct (col_dtype cols c).
Qed.

Lemma names_filter (p : string → bool) (cols : list (string * dtype)) :
  map fst (List.filter (λ nd, p nd.1) cols) = List.filter p (map fst cols).
Proof.
  induction cols as [|[n d] cols IH]; simpl; [done|].
  destruct (p n); simpl; by rewrite IH.
Qed.

(** The columns of a concatenation: those of the first part, then the ones
    only the second part has. *)
Lemma concat_names (a b : DataFrame) :
  map fst (columns (concat a b))
  = (map fst (columns a)
     ++ List.filter (λ k, bool_decide (k ∉ map fst (columns a))) (map fst (columns b)))%list.
Proof.
  unfold concat; simpl. rewrite List.map_app, List.map_map. simpl.
  rewrite <- names_filter.
  replace (List.filter (λ nd : string * dtype,
             bool_decide (nd.1 ∉ map fst (columns a))) (columns b))
    with (List.filter (λ nd : string * dtype,
            negb (bool_decide (is_Some (col_dtype (columns a) nd.1)))) (columns b));
    [done|].
  apply List.filter_ext. intros [n d]; simpl.
  destruct (col_dtype (columns a) n) as [d'|] eqn:E.
  - rewrite bool_decide_eq_true_2 by done. symmetry. apply bool_decide_eq_false.
    intros H. apply H. by eapply col_dtype_elem.
  - rewrite bool_decide_eq_false_2 by (by intros [? ?]).
    symmetry. apply bool_decide_eq_true. by apply col_dtype_None.
Qed.

(** In a concatenation, a column that one part has is a column of the
    result. *)
Lemma concat_has_columns (a b : DataFrame) (c : string) :
  col_dtype (columns (concat a b)) c = None →
  col_dtype (columns a) c = None ∧ col_dtype (columns b) c = None.
Proof.
  rewrite !col_dtype_None, concat_names, not_elem_of_app.
  intros [Ha Hb]. split; [done|]. intros H. apply Hb.
  apply list_elem_of_In, filter_In. split; [by apply list_elem_of_In|].
  by apply bool_decide_eq_true.
Qed.

Lemma upcast_kept (d : dtype) (v : cell) : kept_as v (upcast d v).
Proof.
  destruct d, v; simpl; try by left. right. eauto.
Qed.

(** A column of a concatenation: the values of the first part, then those
    of the second, a number possibly converted to float. *)
Lemma concat_series (a b : DataFrame) (c : string) :
  ∃ kept added,
    series (concat a b) c = (kept ++ added)%list
    ∧ Forall2 kept_as (series a c) kept
    ∧ Forall2 kept_as (series b c) added.
Proof.
  unfold series.
  set (joined := λ (d : dtype) (v : cell),
         match rows a, rows b with _ :: _, _ :: _ => upcast d v | _, _ => v end).
  assert (∀ d v, kept_as v (joined d v)) as Hjoined.
  { intros d v. unfold joined. destruct (rows a); [by left|].
    destruct (rows b); [by left|apply upcast_kept]. }
  assert (rows (concat a b)
          = (map (λ r, map (λ nd, joined nd.2 (row_get (columns a) nd.1 r))
                         (columns (concat a b))) (rows a)
             ++ map (λ r, map (λ nd, joined nd.2 (row_get (columns b) nd.1 r))
                          (columns (concat a b))) (rows b))%list) as -> by done.
  rewrite List.map_app, !List.map_map.
  eexists _, _. split; [done|].
  split; apply Forall2_fmap, Forall_Forall2_diag, Forall_forall; intros r _.
  - rewrite (row_get_laid_out _ (λ nd, joined nd.2 (row_get (columns a) nd.1 r))).
    destruct (col_dtype (columns (concat a b)) c) eqn:E; [apply Hjoined|].
    destruct (concat_has_columns a b c E) as [Ha _].
    rewrite row_get_absent by done. by left.
  - rewrite (row_get_laid_out _ (λ nd, joined nd.2 (row_get (columns b) nd.1 r))).
    destruct (col_dtype (columns (concat a b)) c) eqn:E; [apply Hjoined|].
    destruct (concat_has_columns a b c E) as [_ Hb].
    rewrite row_get_absent by done. by left.
Qed.

Lemma frame_of_record_get (d : list (string * cell)) (c : string) :
  row_get (columns (frame_of_record d)) c (map snd d) = default NaN (record_get d c).
Proof.
  unfold frame_of_record, row_get; simpl.
  induction d as [|[k v] d IH]; simpl; [done|].
  destruct (String.eqb k c); [done|].
  destruct (col_index _ c) as [i|]; simpl in *; [done|].
  by rewrite <- IH.
Qed.

(** A table with a record behind it: the names, the number of rows, and
    every column read by its name. *)
Lemma concat_record (old : DataFrame) (new_data : list (string * cell)) :
  map fst (columns (concat old (frame_of_record new_data)))
  = (map fst (columns old)
     ++ List.filter (λ k, bool_decide (k ∉ map fst (columns old))) (map fst new_data))%list
  ∧ length (rows (concat old (frame_of_record new_data))) = S (length (rows old))
  ∧ ∀ c, ∃ kept v,
      series (concat old (frame_of_record new_data)) c = (kept ++ [v])%list
      ∧ Forall2 kept_as (series old c) kept
      ∧ kept_as (default NaN (record_get new_data c)) v.
Proof.
  split; [|split].
  - rewrite concat_names. unfold frame_of_record; simpl. by rewrite List.map_map.
  - unfold concat; simpl. rewrite length_app, !length_map. simpl. lia.
  - intros c. destruct (concat_series old (frame_of_record new_data) c)
      as (kept & added & -> & Hkept & Hadded).
    unfold series in Hadded at 1.
    change (rows (frame_of_record new_data)) with [map snd new_data] in Hadded.
    cbn [map] in Hadded. rewrite frame_of_record_get in Hadded.
    apply Forall2_cons_inv_l in Hadded as (v & added' & Hv & Hnil & ->).
    apply Forall2_nil_inv_l in Hnil as ->.
    by exists kept, v.
Qed.

Lemma append_on_writable (L : Lib) (new_data : list (string * cell)) (w : World) :
  writable w = true →
  pipeline_data (add_new_pipeline_row L new_data w)
  = Some (concat (load_pipeline_data L w).1 (frame_of_record new_data))
  ∧ files (add_new_pipeline_row L new_data w) !! "data/pipeline_data.csv"
    = Some (to_csv L (concat (load_pipeline_data L w).1 (frame_of_record new_data)))
  ∧ success "New record added successfully!" ∈ shown (add_new_pipeline_row L new_data w).
Proof.
  intros Hw. unfold add_new_pipeline_row.
  destruct (load_pipeline_data L w) as [df0 w1] eqn:Hload.
  assert (writable w1 = true) as Hw1.
  { change w1 with (df0, w1).2. rewrite <- Hload. by rewrite load_writable. }
  unfold save_pipeline_data. rewrite Hw1. cbn [fst snd].
  split; [|split].
  - unfold pipeline_data, show, set_pipeline_data; simpl. by rewrite lookup_insert_eq.
  - unfold show, set_pipeline_data, write_file; simpl. by rewrite lookup_insert_eq.
  - unfold show; simpl. apply elem_of_app. right. apply list_elem_of_here.
Qed.

(** X7. On storage that can be written, a record added to a loaded table
    whose columns have names of their own gives a table that is kept in the
    session and written to the data file, the same table in both
    (write-through), and success is reported.  The table has the columns of
    the loaded one followed by the record's keys that are new, and one row
    more.  Read by any column name, it has the values of the loaded table
    followed by the record's value, missing when the record has no such key;
    a number is there as it was or as its float. *)
Theorem append_adds_the_row (L : Lib) (new_data : list (string * cell)) (w : World) :
  writable w = true →
  NoDup (map fst (columns (load_pipeline_data L w).1)) →
  NoDup (map fst new_data) →
  ∃ new : DataFrame,
    pipeline_data (add_new_pipeline_row L new_data w) = Some new
    ∧ files (add_new_pipeline_row L new_data w) !! "data/pipeline_data.csv"
      = Some (to_csv L new)
    ∧ success "New record added successfully!" ∈ shown (add_new_pipeline_row L new_data w)
    ∧ map fst (columns new)
      = (map fst (columns (load_pipeline_data L w).1)
         ++ List.filter (λ k, bool_decide (k ∉ map fst (columns (load_pipeline_data L w).1)))
              (map fst new_data))%list
    ∧ length (rows new) = S (length (rows (load_pipeline_data L w).1))
    ∧ ∀ c, ∃ kept v,
        series new c = (kept ++ [v])%list
        ∧ Forall2 kept_as (series (load_pipeline_data L w).1 c) kept
        ∧ kept_as (default NaN (record_get new_data c)) v.
Proof.
  intros Hw _ _.
  destruct (append_on_writable L new_data w Hw) as (? & ? & ?).
  destruct (concat_record (load_pipeline_data L w).1 new_data) as (? & ? & ?).
  by eexists.
Qed.

(** The theorem at the scenario table, uploaded in a fresh process, and a
    record with a country and a project: four rows, and the new row has no
    number in the column the record does not name. *)
Lemma append_adds_the_row_witness :
  writable (upload plain (Some scenario_table) fresh_world) = true
  ∧ ∃ new : DataFrame,
      pipeline_data
        (add_new_pipeline_row plain [("Country", Str "C"); ("Project", Str "X")]
           (upload plain (Some scenario_table) fresh_world)) = Some new
      ∧ map fst (columns new) = ["Country"; "Pipe OD"; "Project"]
      ∧ length (rows new) = 4%nat
      ∧ ∃ kept, series new "Pipe OD" = (kept ++ [NaN])%list
                ∧ Forall2 kept_as [Num 10; Num 20; Num 30] kept.
Proof.
  assert (writable (upload plain (Some scenario_table) fresh_world) = true) as Hw
    by reflexivity.
  assert (NoDup (map fst (columns (load_pipeline_data plain
            (upload plain (Some scenario_table) fresh_world)).1))) as Hold.
  { apply (bool_decide_unpack _). by vm_compute. }
  assert (NoDup (map fst [("Country", Str "C"); ("Project", Str "X")])) as Hnew.
  { apply (bool_decide_unpack _). by vm_compute. }
  split; [exact Hw|].
  destruct (append_adds_the_row plain [("Country", Str "C"); ("Project", Str "X")]
              (upload plain (Some scenario_table) fresh_world) Hw Hold Hnew)
    as (new & Hsession & _ & _ & Hnames & Hlen & Hrows).
  exists new. split; [exact Hsession|]. split; [exact Hnames|]. split; [exact Hlen|].
  destruct (Hrows "Pipe OD") as (kept & v & Hseries & Hkept & [->|(q & Hq & _)]);
    [by exists kept|discriminate Hq].
Defined.

Lemma new_data_get (f : AddRowForm) (k : string) (v : cell) :
  (k, v) ∈ new_data f → record_get (new_data f) k = Some v.
Proof.
  unfold new_data. intros H.
  repeat (apply elem_of_cons in H as [[= -> ->]|H]; [reflexivity|]).
  by apply elem_of_nil in H.
Qed.

(** X8. A form with both mandatory fields filled in, submitted on storage
    that can be written to a table whose columns have names of their own,
    adds exactly one row, the last, and that row holds under each of the
    form's sixteen keys what the form stored there, a number as it was
    entered or as its float, the country and the project as entered; the
    columns are those of the table followed by the form's keys the table
    did not have. *)
Theorem accepted_form_is_appended (L : Lib) (f : AddRowForm) (w : World) :
  country f ≠ "" → project f ≠ "" → writable w = true →
  NoDup (map fst (columns (load_pipeline_data L w).1)) →
  ∃ new : DataFrame,
    pipeline_data (submit_add_row L f w) = Some new
    ∧ length (rows new) = S (length (rows (load_pipeline_data L w).1))
    ∧ map fst (columns new)
      = (map fst (columns (load_pipeline_data L w).1)
         ++ List.filter (λ k, bool_decide (k ∉ map fst (columns (load_pipeline_data L w).1)))
              default_columns)%list
    ∧ (∀ k v, (k, v) ∈ new_data f →
         ∃ v', series new k !! length (rows (load_pipeline_data L w).1) = Some v'
               ∧ kept_as v v')
    ∧ series new "Country" !! length (rows (load_pipeline_data L w).1)
      = Some (Str (country f))
    ∧ series new "Project" !! length (rows (load_pipeline_data L w).1)
      = Some (Str (project f)).
Proof.
  intros Hc Hp Hw _. unfold submit_add_row.
  assert (truthy (country f) && truthy (project f) = true) as ->.
  { unfold truthy. apply andb_true_iff.
    split; apply negb_true_iff, String.eqb_neq; done. }
  destruct (append_on_writable L (new_data f) w Hw) as (? & _ & _).
  destruct (concat_record (load_pipeline_data L w).1 (new_data f))
    as (Hnames & Hlen & Hrows).
  assert (∀ k v, (k, v) ∈ new_data f →
            ∃ v', series (concat (load_pipeline_data L w).1 (frame_of_record (new_data f))) k
                    !! length (rows (load_pipeline_data L w).1) = Some v'
                  ∧ kept_as v v') as Hrow.
  { intros k v Hin. destruct (Hrows k) as (kept & v' & -> & Hkept & Hv).
    apply Forall2_length in Hkept. unfold series in Hkept at 1.
    rewrite length_map in Hkept. rewrite Hkept.
    rewrite lookup_app_r by lia. rewrite Nat.sub_diag.
    rewrite (new_data_get f k v Hin) in Hv. by exists v'. }
  eexists. split; [done|]. split; [done|]. split; [done|]. split; [done|].
  split.
  - destruct (Hrow "Country" (Str (country f))) as (v' & -> & [->|(q & Hq & _)]);
      [apply list_elem_of_In; simpl; tauto|done|done].
  - destruct (Hrow "Project" (Str (project f))) as (v' & -> & [->|(q & Hq & _)]);
      [apply list_elem_of_In; simpl; tauto|done|done].
Qed.

(** The theorem at the scenario table and a form with a negative angle:
    the fourth row holds the project as entered. *)
Lemma accepted_form_is_appended_witness :
  country negative_angle_form ≠ "" ∧ project negative_angle_form ≠ ""
  ∧ ∃ new : DataFrame,
      pipeline_data (submit_add_row plain negative_angle_form
                       (upload plain (Some scenario_table) fresh_world)) = Some new
      ∧ length (rows new) = 4%nat
      ∧ series new "Project" !! 3%nat = Some (Str "X").
Proof.
  assert (country negative_angle_form ≠ "") as Hc by done.
  assert (project negative_angle_form ≠ "") as Hp by done.
  split; [exact Hc|]. split; [exact Hp|].
  assert (writable (upload plain (Some scenario_table) fresh_world) = true) as Hw
    by reflexivity.
  assert (NoDup (map fst (columns (load_pipeline_data plain
            (upload plain (Some scenario_table) fresh_world)).1))) as Hold.
  { apply (bool_decide_unpack _). by vm_compute. }
  destruct (accepted_form_is_appended plain negative_angle_form
              (upload plain (Some scenario_table) fresh_world) Hc Hp Hw Hold)
    as (new & Hsession & Hlen & _ & _ & _ & Hproject).
  exists new. split; [exact Hsession|]. split; [exact Hlen|]. exact Hproject.
Defined.

(** X9. The first row entered by the form on a first start (no table in the
    session, neither file on disk) gives a table with exactly the sixteen
    default columns, in their order, and that one row: the keys of the
    form's record are the default columns, so no column is added. *)
Theorem first_row_keeps_default_schema (L : Lib) (f : AddRowForm) (w : World) :
  country f ≠ "" → project f ≠ "" → writable w = true →
  pipeline_data w = None →
  files w !! "data/pipeline_data.csv" = None →
  files w !! "data/sample_pipeline_data.csv" = None →
  map fst (new_data f) = default_columns
  ∧ (λ df, (map fst (columns df), rows df))
      <$> pipeline_data (submit_add_row L f w)
    = Some (default_columns, [map snd (new_data f)]).
Proof.
  intros Hc Hp Hw Hs H1 H2. split; [done|].
  unfold submit_add_row.
  assert (truthy (country f) && truthy (project f) = true) as ->.
  { unfold truthy. apply andb_true_iff.
    split; apply negb_true_iff, String.eqb_neq; done. }
  destruct (append_on_writable L (new_data f) w Hw) as (-> & _ & _).
  unfold load_pipeline_data, load_from_files. rewrite Hs, H1, H2.
  reflexivity.
Qed.

Lemma first_row_keeps_default_schema_witness :
  country negative_angle_form ≠ "" ∧ project negative_angle_form ≠ ""
  ∧ (λ df, map fst (columns df))
      <$> pipeline_data (submit_add_row plain negative_angle_form fresh_world)
    = Some default_columns.
Proof.
  assert (country negative_angle_form ≠ "") as Hc by done.
  assert (project negative_angle_form ≠ "") as Hp by done.
  split; [exact Hc|]. split; [exact Hp|].
  destruct (first_row_keeps_default_schema plain negative_angle_form fresh_world Hc Hp
              eq_refl eq_refl eq_refl eq_refl) as [_ H].
  destruct (pipeline_data _) as [df|]; [|done].
  simpl in *. by injection H as -> _.
Defined.

(** ** Cleaning column names *)

Lemma string_app_cons (a : ascii) (s t : string) : String a s ++ t = String a (s ++ t).
Proof. reflexivity. Qed.

Lemma string_app_nil_r (s : string) : s ++ "" = s.
Proof. induction s as [|a s IH]; [done|]. by rewrite string_app_cons, IH. Qed.

Lemma string_app_assoc (s t u : string) : (s ++ t) ++ u = s ++ (t ++ u).
Proof. induction s as [|a s IH]; [done|]. by rewrite !string_app_cons, IH. Qed.

Lemma string_app_length (s t : string) :
  String.length (s ++ t) = (String.length s + String.length t)%nat.
Proof. induction s as [|a s IH]; [done|]. rewrite string_app_cons. simpl. by rewrite IH. Qed.

Lemma string_length_ind (P : string → Prop) :
  (∀ s, (∀ t, (String.length t < String.length s)%nat → P t) → P s) → ∀ s, P s.
Proof.
  intros H s. remember (String.length s) as n eqn:E. revert s E.
  induction n as [n IH] using lt_wf_ind. intros s ->.
  apply H. intros t Ht. by apply (IH (String.length t)).
Qed.

Lemma has_char_app (a : ascii) (s t : string) :
  has_char a (s ++ t) = has_char a s || has_char a t.
Proof.
  induction s as [|c s IH]; [done|]. rewrite string_app_cons. simpl.
  by rewrite IH, orb_assoc.
Qed.

Lemma replace_removes (a b : ascii) (s : string) :
  a ≠ b → has_char a (Py.replace a b s) = false.
Proof.
  intros Hne. induction s as [|c s IH]; simpl; [done|].
  rewrite IH, orb_false_r.
  destruct (Ascii.eqb c a) eqn:E; [|done].
  apply Ascii.eqb_neq. congruence.
Qed.

Lemma replace_absent (a b : ascii) (s : string) :
  has_char a s = false → Py.replace a b s = s.
Proof.
  induction s as [|c s IH]; simpl; [done|].
  intros [-> H]%orb_false_iff. by rewrite IH.
Qed.

(** A character of [Py.whitespace] is not empty, and [lstrip] removes it
    from the front. *)
Lemma whitespace_front (ws t : string) :
  ws ∈ Py.whitespace →
  (1 ≤ String.length ws)%nat ∧ Py.lstrip (ws ++ t) = Py.lstrip t.
Proof.
  unfold Py.whitespace. cbn [map]. intros H.
  repeat (apply elem_of_cons in H as [->|H]; [split; [simpl; lia|reflexivity]|]).
  by apply elem_of_nil in H.
Qed.

Lemma ascii_of_code (a : ascii) (n : nat) : nat_of_ascii a = n → a = ascii_of_nat n.
Proof. intros <-. by rewrite ascii_nat_embedding. Qed.

Lemma isspace_whitespace (a : ascii) :
  Py.isspace a = true → String a "" ∈ Py.whitespace.
Proof.
  unfold Py.isspace. intros H.
  assert (nat_of_ascii a ∈ [9; 10; 11; 12; 13; 28; 29; 30; 31; 32]%nat) as Hn.
  { apply orb_true_iff in H as [[H1 H2]%andb_true_iff|[H1 H2]%andb_true_iff];
      apply Nat.leb_le in H1, H2; apply list_elem_of_In; simpl; lia. }
  repeat (apply elem_of_cons in Hn as [Hn|Hn];
          [apply ascii_of_code in Hn as ->; apply list_elem_of_In; vm_compute; tauto|]).
  by apply elem_of_nil in Hn.
Qed.

Lemma isspace2_whitespace (a b : ascii) :
  Py.isspace2 a b = true → String a (String b "") ∈ Py.whitespace.
Proof.
  unfold Py.isspace2. intros [Ha Hb]%andb_true_iff.
  apply Nat.eqb_eq, ascii_of_code in Ha as ->.
  apply orb_true_iff in Hb as [Hb|Hb];
    apply Nat.eqb_eq, ascii_of_code in Hb as ->;
    apply list_elem_of_In; vm_compute; tauto.
Qed.

Lemma isspace3_whitespace (a b c : ascii) :
  Py.isspace3 a b c = true → String a (String b (String c "")) ∈ Py.whitespace.
Proof.
  unfold Py.isspace3. intros H.
  assert ((nat_of_ascii a, nat_of_ascii b, nat_of_ascii c)
          ∈ [ (225, 154, 128); (226, 128, 128); (226, 128, 129); (226, 128, 130);
              (226, 128, 131); (226, 128, 132); (226, 128, 133); (226, 128, 134);
              (226, 128, 135); (226, 128, 136); (226, 128, 137); (226, 128, 138);
              (226, 128, 168); (226, 128, 169); (226, 128, 175); (226, 129, 159);
              (227, 128, 128) ]%nat) as Hn.
  { repeat match goal with
           | H : _ || _ = true |- _ => apply orb_true_iff in H as [H|H]
           | H : _ && _ = true |- _ => apply andb_true_iff in H as [? ?]
           | H : (_ =? _)%nat = true |- _ => apply Nat.eqb_eq in H as ->
           | H : (_ <=? _)%nat = true |- _ => apply Nat.leb_le in H
           end;
      try (apply list_elem_of_In; simpl; tauto).
    assert (nat_of_ascii c ∈ seq 128 11) as Hc.
    { apply list_elem_of_In, in_seq. lia. }
    simpl in Hc.
    repeat (apply elem_of_cons in Hc as [->|Hc];
            [apply list_elem_of_In; simpl; tauto|]).
    by apply elem_of_nil in Hc. }
  repeat (apply elem_of_cons in Hn as [Hn|Hn];
          [injection Hn as Ha Hb Hc;
           apply ascii_of_code in Ha as ->, Hb as ->, Hc as ->;
           apply list_elem_of_In; vm_compute; tauto|]).
  by apply elem_of_nil in Hn.
Qed.

(** One step of [lstrip]: it stops, or it removes a white-space character
    from the front. *)
Lemma lstrip_cases (s : string) :
  Py.lstrip s = s
  ∨ ∃ ws t, ws ∈ Py.whitespace ∧ s = ws ++ t ∧ Py.lstrip s = Py.lstrip t.
Proof.
  destruct s as [|a s1]; [by left|]. cbn [Py.lstrip].
  destruct (Py.isspace a) eqn:E1.
  { right. exists (String a ""), s1. by split; [apply isspace_whitespace|]. }
  destruct s1 as [|b s2]; [by left|].
  destruct (Py.isspace2 a b) eqn:E2.
  { right. exists (String a (String b "")), s2. by split; [apply isspace2_whitespace|]. }
  destruct s2 as [|c s3]; [by left|].
  destruct (Py.isspace3 a b c) eqn:E3; [|by left].
  right. exists (String a (String b (String c ""))), s3.
  by split; [apply isspace3_whitespace|].
Qed.

Lemma lstrip_length (s : string) : (String.length (Py.lstrip s) ≤ String.length s)%nat.
Proof.
  induction s as [s IH] using string_length_ind.
  destruct (lstrip_cases s) as [->|(ws & t & Hws & -> & ->)]; [done|].
  destruct (whitespace_front ws t Hws) as [Hlen _].
  rewrite string_app_length. specialize (IH t). rewrite string_app_length in IH. lia.
Qed.

Lemma lstrip_lstrip (s : string) : Py.lstrip (Py.lstrip s) = Py.lstrip s.
Proof.
  induction s as [s IH] using string_length_ind.
  destruct (lstrip_cases s) as [E|(ws & t & Hws & -> & E)]; [by rewrite !E|].
  destruct (whitespace_front ws t Hws) as [Hlen _].
  rewrite E. apply IH. rewrite string_app_length. lia.
Qed.

(** [lstrip] removes a prefix ... *)
Lemma lstrip_suffix (s : string) : ∃ p, s = p ++ Py.lstrip s.
Proof.
  induction s as [s IH] using string_length_ind.
  destruct (lstrip_cases s) as [E|(ws & t & Hws & -> & E)].
  { exists "". by rewrite E. }
  destruct (whitespace_front ws t Hws) as [Hlen _].
  destruct (IH t) as [p Hp]; [rewrite string_app_length; lia|].
  exists (ws ++ p). rewrite E, string_app_assoc. by rewrite <- Hp.
Qed.

(** ... and what is left does not begin with white space. *)
Lemma lstrip_front (s ws t : string) :
  ws ∈ Py.whitespace → Py.lstrip s ≠ ws ++ t.
Proof.
  intros Hws E. destruct (whitespace_front ws t Hws) as [Hlen Hstrip].
  pose proof (lstrip_lstrip s) as Hfix. rewrite E, Hstrip in Hfix.
  pose proof (lstrip_length t) as Hle.
  rewrite Hfix, string_app_length in Hle. lia.
Qed.

Lemma lstrip_fixed (s : string) :
  (∀ ws t, ws ∈ Py.whitespace → s ≠ ws ++ t) → Py.lstrip s = s.
Proof.
  intros H. destruct (lstrip_cases s) as [E|(ws & t & Hws & E & _)]; [done|].
  by destruct (H ws t Hws).
Qed.

(** A string of white space only ends with a white-space character, when
    it is not empty. *)
Lemma all_space_back (s : string) :
  Py.lstrip s = "" → s = "" ∨ ∃ p ws, ws ∈ Py.whitespace ∧ s = p ++ ws.
Proof.
  induction s as [s IH] using string_length_ind. intros Hs.
  destruct (lstrip_cases s) as [E|(ws & t & Hws & -> & E)].
  { left. by rewrite <- E. }
  destruct (whitespace_front ws t Hws) as [Hlen _]. right.
  destruct (IH t) as [->|(p & ws' & Hws' & ->)];
    [rewrite string_app_length; lia|by rewrite <- E| |].
  - exists "", ws. by rewrite string_app_nil_r.
  - exists (ws ++ p), ws'. by rewrite string_app_assoc.
Qed.

Lemma all_space_app (s t : string) :
  Py.lstrip s = "" → Py.lstrip (s ++ t) = Py.lstrip t.
Proof.
  induction s as [s IH] using string_length_ind. intros Hs.
  destruct (lstrip_cases s) as [E|(ws & u & Hws & -> & E)].
  { rewrite E in Hs. by rewrite Hs. }
  destruct (whitespace_front ws u Hws) as [Hlen _].
  destruct (whitespace_front ws (u ++ t) Hws) as [_ Hfront].
  rewrite string_app_assoc, Hfront.
  apply IH; [rewrite string_app_length; lia|by rewrite <- E].
Qed.

Lemma rstrip_cons (a : ascii) (s : string) :
  Py.rstrip (String a s)
  = match Py.lstrip (String a s) with
    | EmptyString => EmptyString
    | String _ _ => String a (Py.rstrip s)
    end.
Proof. reflexivity. Qed.

(** [rstrip] removes a suffix of white space ... *)
Lemma rstrip_prefix (s : string) : ∃ t, s = Py.rstrip s ++ t ∧ Py.lstrip t = "".
Proof.
  induction s as [|a s (t & Ht & Hspace)]; [by exists ""|].
  rewrite rstrip_cons. destruct (Py.lstrip (String a s)) eqn:E.
  - by exists (String a s).
  - exists t. split; [|done]. rewrite string_app_cons. by rewrite <- Ht.
Qed.

(** ... and what is left does not end with white space. *)
Lemma rstrip_back (s p ws : string) :
  ws ∈ Py.whitespace → Py.rstrip s ≠ p ++ ws.
Proof.
  intros Hws. destruct (whitespace_front ws "" Hws) as [Hlen _].
  revert p. induction s as [|a s IH]; intros p E.
  - simpl in E. apply (f_equal String.length) in E.
    rewrite string_app_length in E. simpl in E. lia.
  - destruct (rstrip_prefix (String a s)) as (t & Ht & Hspace).
    rewrite rstrip_cons in E, Ht.
    destruct (Py.lstrip (String a s)) as [|c r] eqn:El.
    + apply (f_equal String.length) in E.
      rewrite string_app_length in E. simpl in E. lia.
    + destruct p as [|a' p].
      * change ("" ++ ws) with ws in E. rewrite E in Ht.
        destruct (whitespace_front ws t Hws) as [_ Hfront].
        rewrite Ht, Hfront, Hspace in El. done.
      * rewrite string_app_cons in E. injection E as _ E. by apply (IH p).
Qed.

Lemma rstrip_fixed (s : string) :
  (∀ p ws, ws ∈ Py.whitespace → s ≠ p ++ ws) → Py.rstrip s = s.
Proof.
  intros H. destruct (rstrip_prefix s) as (t & Ht & Hspace).
  destruct (all_space_back t Hspace) as [->|(p & ws & Hws & ->)].
  - by rewrite string_app_nil_r in Ht.
  - destruct (H (Py.rstrip s ++ p) ws Hws). by rewrite string_app_assoc.
Qed.

(** What [strip] returns neither begins nor ends with a white-space
    character. *)
Lemma strip_trimmed (s ws t : string) :
  ws ∈ Py.whitespace → Py.strip s ≠ ws ++ t ∧ Py.strip s ≠ t ++ ws.
Proof.
  intros Hws. unfold Py.strip. split; [|by apply rstrip_back].
  intros E. destruct (rstrip_prefix (Py.lstrip s)) as (u & Hu & _).
  rewrite E, string_app_assoc in Hu. by apply lstrip_front in Hu.
Qed.

Lemma strip_fixed (s : string) :
  (∀ ws t, ws ∈ Py.whitespace → s ≠ ws ++ t ∧ s ≠ t ++ ws) → Py.strip s = s.
Proof.
  intros H. unfold Py.strip.
  rewrite lstrip_fixed by (intros ws t Hws; by destruct (H ws t Hws)).
  apply rstrip_fixed. intros p ws Hws. by destruct (H ws p Hws).
Qed.

Lemma strip_has_char (a : ascii) (s : string) :
  has_char a s = false → has_char a (Py.strip s) = false.
Proof.
  intros H. unfold Py.strip.
  destruct (lstrip_suffix s) as [p Hp].
  destruct (rstrip_prefix (Py.lstrip s)) as (t & Ht & _).
  rewrite Hp, Ht, !has_char_app in H.
  by apply orb_false_iff in H as [_ [H _]%orb_false_iff].
Qed.

Lemma clean_name_no_line_break (col : string) :
  has_char "010"%char (clean_name col) = false.
Proof.
  unfold clean_name. by apply strip_has_char, replace_removes.
Qed.

Lemma clean_name_trimmed (col ws t : string) :
  ws ∈ Py.whitespace → clean_name col ≠ ws ++ t ∧ clean_name col ≠ t ++ ws.
Proof. apply strip_trimmed. Qed.

Lemma clean_name_clean (col : string) : clean_name (clean_name col) = clean_name col.
Proof.
  unfold clean_name at 1.
  rewrite replace_absent by apply clean_name_no_line_break.
  apply strip_fixed. intros ws t Hws. by apply clean_name_trimmed.
Qed.

(** X10. The cleaning of column names that an upload and the sample file go
    through leaves no line break in a name and no white-space character,
    ASCII or not, at either end of it; cleaning a cleaned table changes
    nothing; the rows and the dtypes are not touched. *)
Theorem clean_columns_normal (df : DataFrame) :
  Forall (λ nd, has_char "010"%char nd.1 = false
                ∧ ∀ ws t, ws ∈ Py.whitespace → nd.1 ≠ ws ++ t ∧ nd.1 ≠ t ++ ws)
    (columns (clean_columns df))
  ∧ clean_columns (clean_columns df) = clean_columns df
  ∧ rows (clean_columns df) = rows df
  ∧ map snd (columns (clean_columns df)) = map snd (columns df).
Proof.
  split; [|split; [|split]].
  - unfold clean_columns; simpl. apply Forall_forall.
    intros nd Hin. apply list_elem_of_fmap in Hin as ([n d] & -> & _). simpl.
    split; [apply clean_name_no_line_break|]. intros ws t. apply clean_name_trimmed.
  - unfold clean_columns; simpl. f_equal.
    rewrite List.map_map. apply List.map_ext. intros [n d]; simpl.
    by rewrite clean_name_clean.
  - done.
  - unfold clean_columns; simpl. by rewrite List.map_map.
Qed.

(** A name with a line break inside, a space in front and a no-break space
    behind. *)
Example clean_name_pipe_od : clean_name pipe_od_header = "Pipe OD".
Proof. reflexivity. Qed.

(** ** The bulk actions *)

Lemma clear_keys_lookup_other (key : string → string) (l : list string)
    (ss : session_state) (k : string) :
  (∀ c, c ∈ l → k ≠ key c) →
  foldl (λ ss col, delete (key col) ss) ss l !! k = ss !! k.
Proof.
  revert ss. induction l as [|c l IH]; intros ss H; simpl; [done|].
  rewrite IH by (intros; apply H; by apply list_elem_of_further).
  apply lookup_delete_ne. intros E. by apply (H c); [apply list_elem_of_here|].
Qed.

Lemma filter_key_elem (k : string) (l : list string) :
  k ∈ map (λ c, "filter_" ++ c) l ↔ ∃ c, c ∈ l ∧ k = "filter_" ++ c.
Proof.
  rewrite list_elem_of_fmap. split; intros (c & ? & ?); by exists c.
Qed.

(** X11. "Clear All" undoes "Select All" (the state is the one "Clear All"
    alone leaves), either button pressed twice does what it does pressed
    once, and after "Clear All" no column of the table has a categorical
    entry. *)
Theorem bulk_actions_compose (df : DataFrame) (ss : session_state) :
  clear_all df (select_all df ss) = clear_all df ss
  ∧ clear_all df (clear_all df ss) = clear_all df ss
  ∧ select_all df (select_all df ss) = select_all df ss
  ∧ Forall (λ column, clear_all df ss !! ("filter_" ++ column) = None)
      (map fst (columns df)).
Proof.
  assert (∀ ss' column, column ∈ map fst (columns df) →
            clear_all df ss' !! ("filter_" ++ column) = None) as Hnone.
  { intros ss' column Hin. unfold clear_all.
    by apply (clear_keys_lookup_None (λ col, "filter_" ++ col)). }
  assert (∀ ss' k, k ∉ map (λ c, "filter_" ++ c) (map fst (columns df)) →
            clear_all df ss' !! k = ss' !! k) as Hother.
  { intros ss' k Hk. unfold clear_all. apply clear_keys_lookup_other.
    intros c Hc ->. apply Hk, filter_key_elem. by exists c. }
  split; [|split; [|split]].
  - apply map_eq. intros k.
    destruct (decide (k ∈ map (λ c, "filter_" ++ c) (map fst (columns df))))
      as [Hk|Hk].
    + apply filter_key_elem in Hk as (c & Hc & ->). by rewrite !Hnone.
    + rewrite !Hother by done. unfold select_all. apply select_keys_frame.
      intros c Hc _ ->. apply Hk, filter_key_elem. by exists c.
  - apply map_eq. intros k.
    destruct (decide (k ∈ map (λ c, "filter_" ++ c) (map fst (columns df))))
      as [Hk|Hk].
    + apply filter_key_elem in Hk as (c & Hc & ->). by rewrite !Hnone.
    + by rewrite !Hother.
  - apply map_eq. intros k. unfold select_all.
    set (cond := λ col, existsb (λ nd : string * dtype,
                   String.eqb nd.1 col && dtype_eqb nd.2 object) (columns df)).
    set (val := λ col, WList (unique (dropna (series df col)))).
    destruct (decide (k ∈ map (λ c, "filter_" ++ c)
                          (List.filter cond (map fst (columns df))))) as [Hk|Hk].
    + apply filter_key_elem in Hk as (c & Hc & ->).
      apply list_elem_of_In, filter_In in Hc as [Hc Hcond].
      apply list_elem_of_In in Hc.
      by rewrite !(select_keys_lookup cond val).
    + rewrite !(select_keys_frame cond val); [done|..];
        intros c Hc Hcond ->; apply Hk, filter_key_elem; exists c;
        (split; [|done]); apply list_elem_of_In, filter_In;
        (split; [by apply list_elem_of_In|done]).
  - apply Forall_forall. intros column Hin. by apply Hnone.
Qed.

(** ** The retained rows, exactly *)

(** A pass keeps a row that lies inside the selection the pass leaves under
    the column's key. *)
Lemma filter_column_keeps_row L style df acc column (r : list cell) :
  columns acc.1 = columns df →
  r ∈ rows acc.1 →
  (∀ key sel, control_key df column = Some key →
              (filter_column L style df acc column).2 !! key = Some sel →
              in_selection (row_get (columns df) column r) sel) →
  r ∈ rows (filter_column L style df acc column).1.
Proof.
  destruct acc as [fd ss]. simpl. intros Hcols Hr.
  unfold control_key, filter_column.
  destruct (col_dtype _ _) as [d|]; [|done].
  destruct (classify d column); [| | |done].
  - unfold categorical_filter.
    destruct (0 <? _)%nat; [|done].
    assert (∃ selected ss',
      (if String.eqb style "Multiselect"
       then multiselect ("filter_" ++ column) (get_list ss ("filter_" ++ column)) ss
       else let '(selected_values, ss') :=
              checkboxes L column (unique (dropna (series df column))) ss in
            (selected_values, <["filter_" ++ column := WList selected_values]> ss'))
      = (selected, ss') ∧ ss' !! ("filter_" ++ column) = Some (WList selected))
      as (selected & ss' & -> & Hkey).
    { destruct (String.eqb style "Multiselect").
      - destruct (multiselect _ _ ss) as [sel ss'] eqn:E. exists sel, ss'.
        split; [done|]. apply as_list_Some.
        change ss' with (sel, ss').2. change sel with (sel, ss').1 at 2.
        rewrite <- E. by apply widget_value.
      - destruct (checkboxes _ _ _ _) as [sel ss'].
        exists sel, (<["filter_" ++ column := WList sel]> ss').
        split; [done|]. apply lookup_insert_eq. }
    destruct selected as [|v vs]; simpl; [done|].
    intros H. apply elem_of_mask_rows. split; [done|].
    rewrite Hcols. by apply (H _ _ eq_refl Hkey).
  - unfold numeric_filter.
    destruct (negb (forallb _ _)); [|done].
    destruct (series_min _) as [mn|]; [|done].
    destruct (series_max _) as [mx|]; [|done].
    destruct (negb (Qeq_bool _ _)); [|done].
    destruct (slider _ _ ss) as [rg ss'] eqn:E. simpl.
    assert (ss' !! ("slider_" ++ column) = Some (WRange rg.1 rg.2)) as Hkey.
    { apply as_range_Some.
      change ss' with (rg, ss').2. change rg with (rg, ss').1 at 2.
      rewrite <- E. apply widget_value. by intros []. }
    intros H. apply elem_of_mask_rows. split; [done|].
    rewrite Hcols. apply in_range. by apply (H _ _ eq_refl Hkey).
  - unfold date_filter.
    destruct (0 <? _)%nat; [|done].
    destruct (ts_min _) as [lo|]; [|done].
    destruct (ts_max _) as [hi|]; [|done].
    destruct (date_input _ _ ss) as [ds ss'] eqn:E.
    assert (ss' !! ("date_" ++ column) = Some (WDates ds)) as Hkey.
    { apply as_dates_Some.
      change ss' with (ds, ss').2. change ds with (ds, ss').1 at 2.
      rewrite <- E. by apply widget_value. }
    destruct ds as [|a [|b [|c ds]]]; simpl; try done.
    intros H. apply elem_of_mask_rows. split; [done|].
    rewrite Hcols. apply in_date_range. by apply (H _ _ eq_refl Hkey).
Qed.

(** The passes over other columns leave a column's key alone. *)
Lemma filter_columns_frame L style df names acc column key :
  control_key df column = Some key → column ∉ names →
  (foldl (filter_column L style df) acc names).2 !! key = acc.2 !! key.
Proof.
  intros Hkey. revert acc.
  induction names as [|c names IH]; intros acc Hnot; simpl; [done|].
  apply not_elem_of_cons in Hnot as [Hne Hnot].
  rewrite IH by done.
  destruct (control_key_other df column key c Hkey) as (? & ? & ? & ?); [done|].
  by apply filter_column_frame.
Qed.

Lemma filter_columns_keep_row L style df names acc (r : list cell) :
  NoDup names →
  columns acc.1 = columns df →
  r ∈ rows acc.1 →
  (∀ column key sel, column ∈ names → control_key df column = Some key →
     (foldl (filter_column L style df) acc names).2 !! key = Some sel →
     in_selection (row_get (columns df) column r) sel) →
  r ∈ rows (foldl (filter_column L style df) acc names).1.
Proof.
  revert acc. induction names as [|c names IH]; intros acc Hnd Hcols Hr H; simpl in *;
    [done|].
  apply NoDup_cons in Hnd as [Hc Hnd].
  destruct (filter_column_narrows L style df acc c) as [Hcols' _].
  apply IH; [done|congruence| |].
  - apply filter_column_keeps_row; [done..|].
    intros key sel Hkey Hsel. apply (H c key sel); [apply list_elem_of_here|done|].
    by rewrite (filter_columns_frame L style df names _ c key).
  - intros column key sel Hin. apply H. by apply list_elem_of_further.
Qed.

(** X12. In a table whose column names are distinct, the rows of the
    filtered frame are exactly the rows of the table that lie inside the
    selection of every rendered control: the selections combine by
    conjunction, and no row that satisfies them all is dropped. *)
Theorem retained_rows_exactly (L : Lib) (df : DataFrame) (ss : session_state)
    (r : list cell) :
  NoDup (map fst (columns df)) →
  r ∈ rows (create_filter_sidebar L df ss).1
  ↔ r ∈ rows df
    ∧ ∀ column key sel,
        control_key df column = Some key →
        (create_filter_sidebar L df ss).2 !! key = Some sel →
        in_selection (row_get (columns df) column r) sel.
Proof.
  intros Hnd. unfold create_filter_sidebar.
  destruct (radio _ _ _) as [style ss1]. split.
  - intros Hr. split.
    + destruct (filter_columns_narrows L style df (map fst (columns df)) (df, ss1))
        as [_ Hsub]. by eapply sublist_subseteq.
    + intros column key sel Hkey Hsel.
      destruct (filter_columns_respected L style df (map fst (columns df)) []
                  (df, ss1)) as [_ Hinv].
      { split; [done|]. intros ? ? Hin. by apply elem_of_nil in Hin. }
      destruct (Hinv column key) as (sel' & Hsel' & Hrows); [|done|].
      { simpl. by eapply control_key_elem. }
      rewrite Hsel in Hsel'. injection Hsel' as <-. by apply Hrows.
  - intros [Hr H]. apply filter_columns_keep_row; [done..|].
    intros column key sel _. apply H.
Qed.

Lemma retained_rows_exactly_witness :
  NoDup (map fst (columns scenario_table))
  ∧ [Str "A"; Num 20]
    ∈ rows (create_filter_sidebar plain scenario_table country_A_and_narrowed_od).1
  ∧ [Str "B"; Num 30]
    ∉ rows (create_filter_sidebar plain scenario_table country_A_and_narrowed_od).1.
Proof.
  assert (NoDup (map fst (columns scenario_table))) as Hnd.
  { apply (bool_decide_unpack _). by vm_compute. }
  split; [exact Hnd|]. split.
  - apply list_elem_of_In. vm_compute. auto.
  - intros Hr.
    apply (retained_rows_exactly plain scenario_table country_A_and_narrowed_od _ Hnd)
      in Hr as [_ Hr].
    specialize (Hr "Country" "filter_Country" (WList [Str "A"]) eq_refl).
    assert ((create_filter_sidebar plain scenario_table country_A_and_narrowed_od).2
              !! "filter_Country" = Some (WList [Str "A"])) as Hsel by by vm_compute.
    specialize (Hr Hsel). clear Hsel. vm_compute in Hr. discriminate Hr.
Defined.

(** ** Exact ranges *)

(** X18. In a numeric column whose numbers are doubles (the numbers of a
    float64 column, the integers up to 2^53 in magnitude: the conversion to
    float leaves them as they are), the number of every retained row lies
    within the pair the column's slider holds, as a number and not only as
    its float. *)
Theorem retained_numbers_within_range (L : Lib) (df : DataFrame) (ss : session_state)
    (column : string) (lo hi : Q) (r : list cell) :
  exact_numbers df column = true →
  control_key df column = Some ("slider_" ++ column) →
  (create_filter_sidebar L df ss).2 !! ("slider_" ++ column) = Some (WRange lo hi) →
  r ∈ rows (create_filter_sidebar L df ss).1 →
  ∃ q, row_get (columns df) column r = Num q ∧ (lo <= q)%Q ∧ (q <= hi)%Q.
Proof.
  intros Hexact Hkey Hsel Hr. unfold create_filter_sidebar in *.
  destruct (radio _ _ _) as [style ss1].
  destruct (filter_columns_respected L style df (map fst (columns df)) [] (df, ss1))
    as [_ Hinv].
  { split; [done|]. intros ? ? Hin. by apply elem_of_nil in Hin. }
  destruct (Hinv column ("slider_" ++ column)) as (sel' & Hsel' & Hrows); [|done|].
  { simpl. by eapply control_key_elem. }
  rewrite Hsel in Hsel'. injection Hsel' as <-.
  destruct (Hrows r Hr) as (q & Hq & Hlo & Hhi). exists q. split; [done|].
  assert (float q == q)%Q as E; [|by rewrite <- E].
  unfold exact_numbers in Hexact. rewrite forallb_forall in Hexact.
  specialize (Hexact (Num q)). apply Qeq_bool_iff, Hexact, list_elem_of_In.
  rewrite <- Hq. apply elem_of_series.
  destruct (filter_columns_narrows L style df (map fst (columns df)) (df, ss1))
    as [_ Hsub]. by eapply sublist_subseteq.
Qed.

(** The theorem at the scenario table, with the slider narrowed to
    [15, 30]: the row (A, 20) is retained, and 20 lies within. *)
Lemma retained_numbers_within_range_witness :
  exact_numbers scenario_table "Pipe OD" = true
  ∧ ∃ q, row_get (columns scenario_table) "Pipe OD" [Str "A"; Num 20] = Num q
         ∧ (15 <= q)%Q ∧ (q <= 30)%Q.
Proof.
  assert (exact_numbers scenario_table "Pipe OD" = true) as Hexact
    by (vm_compute; reflexivity).
  assert (control_key scenario_table "Pipe OD" = Some ("slider_" ++ "Pipe OD")) as Hkey
    by (vm_compute; reflexivity).
  assert ((create_filter_sidebar plain scenario_table narrowed_od).2
            !! ("slider_" ++ "Pipe OD") = Some (WRange 15 30)) as Hsel
    by (vm_compute; reflexivity).
  assert ([Str "A"; Num 20]
          ∈ rows (create_filter_sidebar plain scenario_table narrowed_od).1) as Hr.
  { apply list_elem_of_In. vm_compute. auto. }
  split; [exact Hexact|].
  exact (retained_numbers_within_range plain scenario_table narrowed_od "Pipe OD"
           15 30 [Str "A"; Num 20] Hexact Hkey Hsel Hr).
Defined.

(** ** Stored selections *)

Lemma admissible_state_at (df : DataFrame) (ss : session_state) (column key : string)
    (sel : wvalue) :
  admissible_state df ss = true →
  control_key df column = Some key → ss !! key = Some sel →
  ∃ d, col_dtype (columns df) column = Some d
       ∧ kind_matches (classify d column) sel = true
       ∧ admissible df column sel = true.
Proof.
  unfold admissible_state. rewrite forallb_forall. intros H Hkey Hsel.
  specialize (H column). rewrite Hkey, Hsel in H.
  destruct (control_key_dtype df column key Hkey) as (d & Hd & _).
  rewrite Hd in H. exists d. split; [done|].
  apply andb_true_iff, H, list_elem_of_In. by eapply control_key_elem.
Qed.

(** In a well-keyed table no control has the key of the style radio. *)
Lemma control_key_not_radio (df : DataFrame) (column key : string) :
  well_keyed df = true → control_key df column = Some key → key ≠ "filter_style".
Proof.
  intros Hkeys Hkey ->.
  destruct (control_key_dtype df column _ Hkey) as (d & Hd & Hkind).
  destruct (classify d column) eqn:Hk; try done.
  - assert (column = "style") as -> by (cbv [String.append] in Hkind; congruence).
    apply (well_keyed_style df Hkeys). rewrite Hd. f_equal.
    destruct d; [done|by vm_compute in Hk..].
  - destruct Hkind as [Hkind _]. cbv [String.append] in Hkind. congruence.
  - destruct Hkind as [Hkind _]. cbv [String.append] in Hkind. congruence.
Qed.

(** X14. Take a well-keyed table and, in the Multiselect style, a state in
    which whatever is stored for a control is admissible for it (chosen
    values among the options, ranges within the bounds).  A selection that
    is stored when the run starts is still the one held when it ends, and
    every retained row lies inside it. *)
Theorem retained_rows_in_stored_selection (L : Lib) (df : DataFrame)
    (ss : session_state) (column key : string) (sel : wvalue) (r : list cell) :
  well_keyed df = true →
  multiselect_style ss →
  admissible_state df ss = true →
  control_key df column = Some key →
  ss !! key = Some sel →
  (create_filter_sidebar L df ss).2 !! key = Some sel
  ∧ (r ∈ rows (create_filter_sidebar L df ss).1 →
     in_selection (row_get (columns df) column r) sel).
Proof.
  intros Hkeys Hstyle Hadm Hkey Hsel.
  destruct (admissible_state_at df ss column key sel Hadm Hkey Hsel)
    as (d & Hd & Hkind & _).
  pose proof (stored_selection_kept L df ss column key d sel Hstyle
                (control_key_not_radio df column key Hkeys Hkey) Hkey Hd Hkind Hsel)
    as Hkept.
  split; [done|].
  unfold create_filter_sidebar in *. destruct (radio _ _ _) as [style ss1].
  destruct (filter_columns_respected L style df (map fst (columns df)) [] (df, ss1))
    as [_ Hinv].
  { split; [done|]. intros ? ? Hin. by apply elem_of_nil in Hin. }
  destruct (Hinv column key) as (sel' & Hsel' & Hrows); [|done|].
  { simpl. by eapply control_key_elem. }
  rewrite Hkept in Hsel'. injection Hsel' as <-. apply Hrows.
Qed.

(** The theorem at the scenario table, with the slider narrowed to
    [15, 30], which lies within the bounds [10, 30]. *)
Lemma retained_rows_in_stored_selection_witness :
  well_keyed scenario_table = true
  ∧ multiselect_style narrowed_od
  ∧ admissible_state scenario_table narrowed_od = true
  ∧ narrowed_od !! "slider_Pipe OD" = Some (WRange 15 30)
  ∧ (create_filter_sidebar plain scenario_table narrowed_od).2 !! "slider_Pipe OD"
    = Some (WRange 15 30).
Proof.
  assert (well_keyed scenario_table = true) as Hk by (vm_compute; reflexivity).
  assert (multiselect_style narrowed_od) as Hs by (left; vm_compute; reflexivity).
  assert (admissible_state scenario_table narrowed_od = true) as Ha
    by (vm_compute; reflexivity).
  assert (control_key scenario_table "Pipe OD" = Some "slider_Pipe OD") as Hkey
    by (vm_compute; reflexivity).
  assert (narrowed_od !! "slider_Pipe OD" = Some (WRange 15 30)) as Hsel
    by (vm_compute; reflexivity).
  split; [exact Hk|]. split; [exact Hs|]. split; [exact Ha|]. split; [exact Hsel|].
  exact (proj1 (retained_rows_in_stored_selection plain scenario_table narrowed_od
                  "Pipe OD" "slider_Pipe OD" (WRange 15 30) [] Hk Hs Ha Hkey Hsel)).
Defined.

(** ** The checkbox style *)

(** The loop over the boxes of a column adds the ticked values, in their
    order, when the boxes have keys of their own. *)
Lemma checkboxes_chosen L column values (ss : session_state) acc :
  NoDup (map (py_str L) values) →
  acc.2 !! ("filter_" ++ column) = ss !! ("filter_" ++ column) →
  (∀ v, v ∈ values →
     acc.2 !! ("checkbox_" ++ column ++ "_" ++ py_str L v)
     = ss !! ("checkbox_" ++ column ++ "_" ++ py_str L v)) →
  (foldl (λ acc value,
      let '(selected_values, ss) := acc in
      let '(ticked, ss') :=
        checkbox ("checkbox_" ++ column ++ "_" ++ py_str L value)
          (isin (get_list ss ("filter_" ++ column)) (Str (py_str L value))) ss in
      (if ticked then (selected_values ++ [value])%list else selected_values, ss'))
     acc values).1
  = (acc.1 ++ List.filter (ticked L column ss) values)%list.
Proof.
  revert acc. induction values as [|v values IH]; intros [sel ss0] Hnd Hf Hc; simpl in *.
  - by rewrite app_nil_r.
  - apply NoDup_cons in Hnd as [Hv Hnd].
    destruct (checkbox _ _ ss0) as [tick ss1] eqn:E.
    assert (tick = ticked L column ss v) as ->.
    { unfold checkbox, widget in E. unfold ticked, get_list.
      rewrite <- (Hc v) by apply list_elem_of_here. rewrite <- Hf.
      destruct (ss0 !! _ ≫= as_bool) as [b|]; by injection E as <- _. }
    rewrite IH; [| done | |].
    + simpl. destruct (ticked L column ss v); [|done]. by rewrite <- app_assoc.
    + simpl. rewrite <- Hf. change ss1 with (ticked L column ss v, ss1).2.
      rewrite <- E. apply widget_frame. cbv [String.append]. congruence.
    + intros v' Hv'. simpl. rewrite <- (Hc v') by by apply list_elem_of_further.
      change ss1 with (ticked L column ss v, ss1).2.
      rewrite <- E. apply widget_frame.
      intros Heq. apply Hv. apply list_elem_of_fmap. exists v'. split; [|done].
      by do 3 apply String.app_inj in Heq.
Qed.

(** X15. In the checkbox style the pass over a categorical column whose
    boxes have keys of their own (no two values with the same text) stores
    under the column's key exactly the values whose box is ticked, in the
    order of the column's distinct present values, whatever was stored
    there before.  A box is ticked as the state holds for it, and by
    default when the value's text is among the selection stored before. *)
Theorem checkbox_selection_is_rebuilt (L : Lib) (style : string) (df fd : DataFrame)
    (ss : session_state) (column : string) :
  style ≠ "Multiselect" →
  control_key df column = Some ("filter_" ++ column) →
  NoDup (map (py_str L) (unique (dropna (series df column)))) →
  (filter_column L style df (fd, ss) column).2 !! ("filter_" ++ column)
  = Some (WList (List.filter (ticked L column ss) (unique (dropna (series df column))))).
Proof.
  intros Hstyle Hkey Hnd. unfold control_key in Hkey. unfold filter_column.
  destruct (col_dtype _ _) as [d|]; [|done].
  destruct (classify d column).
  - destruct (0 <? _)%nat eqn:H1; [|done].
    unfold categorical_filter. rewrite H1.
    apply String.eqb_neq in Hstyle. rewrite Hstyle.
    pose proof (checkboxes_chosen L column (unique (dropna (series df column))) ss
                  ([], ss) Hnd eq_refl (λ _ _, eq_refl)) as Hc.
    unfold checkboxes. destruct (foldl _ _ _) as [sel ss'].
    simpl in Hc. subst sel.
    destruct (List.filter _ _); simpl; apply lookup_insert_eq.
  - destruct (negb (forallb _ _)); [|done].
    destruct (series_min _); [|done]. destruct (series_max _); [|done].
    destruct (negb (Qeq_bool _ _)); [|done].
    injection Hkey. cbv [String.append]. congruence.
  - destruct (0 <? _)%nat; [|done].
    destruct (ts_min _); [|done]. destruct (ts_max _); [|done].
    injection Hkey. cbv [String.append]. congruence.
  - done.
Qed.

(** The theorem at the scenario table in the checkbox style: the box of
    country A is ticked, and the selection Z stored before is replaced. *)
Lemma checkbox_selection_is_rebuilt_witness :
  "Checkboxes" ≠ "Multiselect"
  ∧ NoDup (map (py_str plain) (unique (dropna (series scenario_table "Country"))))
  ∧ (filter_column plain "Checkboxes" scenario_table
       (scenario_table, <["filter_Country" := WList [Str "Z"]]> ticked_country_A)
       "Country").2 !! "filter_Country"
    = Some (WList [Str "A"]).
Proof.
  assert ("Checkboxes" ≠ "Multiselect") as Hne by done.
  assert (NoDup (map (py_str plain) (unique (dropna (series scenario_table "Country")))))
    as Hnd.
  { apply (bool_decide_unpack _). by vm_compute. }
  split; [exact Hne|]. split; [exact Hnd|].
  rewrite (checkbox_selection_is_rebuilt plain "Checkboxes" scenario_table
             scenario_table (<["filter_Country" := WList [Str "Z"]]> ticked_country_A)
             "Country" Hne eq_refl Hnd).
  by vm_compute.
Defined.

(** ** Uploads and the sample file *)

(** X16. An upload that parsed replaces the table wholesale on storage that
    can be written: whatever the session held, it now holds the uploaded
    table with cleaned names, the data file holds the same table, no other
    file is touched and success is reported.  An upload that did not parse
    reports the error and leaves the session and the files as they were. *)
Theorem upload_outcome (L : Lib) (w : World) :
  (∀ new_df,
     writable w = true →
     pipeline_data (upload L (Some new_df) w) = Some (clean_columns new_df)
     ∧ files (upload L (Some new_df) w) !! "data/pipeline_data.csv"
       = Some (to_csv L (clean_columns new_df))
     ∧ (∀ path, path ≠ "data/pipeline_data.csv" →
          files (upload L (Some new_df) w) !! path = files w !! path)
     ∧ shown (upload L (Some new_df) w)
       = (shown w ++ [success "Data uploaded successfully!"])%list)
  ∧ session (upload L None w) = session w
  ∧ files (upload L None w) = files w
  ∧ shown (upload L None w) = (shown w ++ [error "Error processing file"])%list.
Proof.
  split; [|done].
  intros new_df Hw. unfold upload, save_pipeline_data. rewrite Hw. simpl.
  split; [|split; [|split]].
  - unfold pipeline_data; simpl. by rewrite lookup_insert_eq.
  - by rewrite lookup_insert_eq.
  - intros path Hpath. by rewrite lookup_insert_ne.
  - done.
Qed.

Lemma upload_outcome_witness :
  writable read_only_world = false
  ∧ writable fresh_world = true
  ∧ pipeline_data (upload plain (Some header_only) fresh_world)
    = Some (clean_columns header_only).
Proof.
  split; [reflexivity|]. split; [reflexivity|].
  destruct (upload_outcome plain fresh_world) as [H _].
  by destruct (H header_only eq_refl) as [? _].
Defined.

(** X17. On a first start with only the sample file on disk, the load
    returns the sample table with cleaned column names (no line break in
    them, no white-space character at either end), keeps it in the session
    and writes nothing. *)
Theorem sample_file_is_cleaned (L : Lib) (w : World) (f : file) (df : DataFrame) :
  pipeline_data w = None →
  files w !! "data/pipeline_data.csv" = None →
  files w !! "data/sample_pipeline_data.csv" = Some f →
  read_csv L f = Some df →
  (load_pipeline_data L w).1 = clean_columns df
  ∧ pipeline_data (load_pipeline_data L w).2 = Some (clean_columns df)
  ∧ files (load_pipeline_data L w).2 = files w
  ∧ Forall (λ nd, has_char "010"%char nd.1 = false
                  ∧ ∀ ws t, ws ∈ Py.whitespace → nd.1 ≠ ws ++ t ∧ nd.1 ≠ t ++ ws)
      (columns (load_pipeline_data L w).1).
Proof.
  intros Hs H1 H2 Hf. unfold load_pipeline_data, load_from_files.
  rewrite Hs, H1, H2, Hf. simpl. rewrite pipeline_data_set.
  split; [done|]. split; [done|]. split; [done|].
  apply Forall_forall. intros nd Hin.
  apply list_elem_of_fmap in Hin as ([n d] & -> & _). simpl.
  split; [apply clean_name_no_line_break|]. intros ws t. apply clean_name_trimmed.
Qed.

(** The theorem at a sample file whose first header field has a line
    break, a space in front and a no-break space behind. *)
Lemma sample_file_is_cleaned_witness :
  pipeline_data sample_world = None
  ∧ (load_pipeline_data plain sample_world).1
    = {| columns := [("Pipe OD", object); ("Country", object)]; rows := [] |}.
Proof.
  split; [reflexivity|].
  destruct (sample_file_is_cleaned plain sample_world
              (Csv [pipe_od_header; "Country"] [])
              {| columns := [(pipe_od_header, object); ("Country", object)]; rows := [] |}
              eq_refl eq_refl eq_refl eq_refl) as [-> _].
  reflexivity.
Defined.
